(** * RedshiftConnector: a shallow embedding of [connector/rs_connect.py]

    The connector is a thin wrapper around a relational client: pure
    clause builders that concatenate SQL text, and methods that hand the
    text and the bind values to a cursor.  The clause builders are
    embedded as functions on [string]; the methods as computations in a
    small state-and-exception monad over the connector object, the
    sessions and cursors of the client library, and the printed output.
    The database server, the secret store and [json.loads] are external:
    they are parameters of the development. *)

From Stdlib Require Import ZArith List String Ascii Bool Lia DecimalString.
From stdpp Require Import base list.
Import ListNotations.
Local Open Scope string_scope.
Local Open Scope Z_scope.

(** ** Python values *)

Set Warnings "-register-all".

(** The values that travel through the connector: bind parameters, cells
    of result rows, credentials, returned objects.  [PRealDictRow] is the
    row type of psycopg2's [RealDictCursor], a mapping keyed by column
    name; [PDict] is a plain [dict].  Both keep insertion order. *)
Inductive pyval : Type :=
| PNone
| PBool (b : bool)
| PInt (z : Z)
| PStr (s : string)
| PList (l : list pyval)
| PTuple (l : list pyval)
| PDict (d : list (string * pyval))
| PRealDictRow (d : list (string * pyval)).

(** A [dict] with string keys, in insertion order. *)
Definition dict : Type := list (string * pyval).

Definition keys (d : dict) : list string := map fst d.
Definition values (d : dict) : list pyval := map snd d.

Fixpoint dict_get (d : dict) (k : string) : option pyval :=
  match d with
  | [] => None
  | (k', v) :: d' => if String.eqb k' k then Some v else dict_get d' k
  end.

(** [d[k] = v] on an insertion-ordered dict: an existing key keeps its
    position and takes the new value, a new key goes last. *)
Fixpoint dict_set (d : dict) (k : string) (v : pyval) : dict :=
  match d with
  | [] => [(k, v)]
  | (k', v') :: d' =>
      if String.eqb k' k then (k', v) :: d' else (k', v') :: dict_set d' k v
  end.

(** [dict(items)]: later items overwrite earlier ones. *)
Definition dict_of_items (items : list (string * pyval)) : dict :=
  fold_left (fun d kv => dict_set d (fst kv) (snd kv)) items [].

(** Python truthiness, [bool(v)]. *)
Definition truthy (v : pyval) : bool :=
  match v with
  | PNone => false
  | PBool b => b
  | PInt z => negb (z =? 0)
  | PStr s => negb (String.eqb s "")
  | PList l | PTuple l => match l with [] => false | _ => true end
  | PDict d | PRealDictRow d => match d with [] => false | _ => true end
  end.

(** [a or b]: the first operand when it is truthy, else the second. *)
Definition py_or (a b : pyval) : pyval := if truthy a then a else b.

(** [v == s] for a string literal [s]. *)
Definition eq_str (v : pyval) (s : string) : bool :=
  match v with PStr s' => String.eqb s' s | _ => false end.

(** A row is a mapping keyed by column name (a [dict] or a
    [RealDictRow]), as opposed to a positional tuple. *)
Definition is_mapping (v : pyval) : bool :=
  match v with PDict _ | PRealDictRow _ => true | _ => false end.

Definition is_tuple (v : pyval) : bool :=
  match v with PTuple _ => true | _ => false end.

(** ** Strings *)

(** [sep.join(l)]. *)
Definition join (sep : string) (l : list string) : string := String.concat sep l.

(** ["%d" % n] for an integer [n]. *)
Definition fmt_d (n : Z) : string := NilZero.string_of_int (Z.to_int n).

(** [s.rstrip(c)] for a one-character [c]: drop every trailing [c]. *)
Fixpoint rstrip (c : ascii) (s : string) : string :=
  match s with
  | EmptyString => EmptyString
  | String a s' =>
      match rstrip c s' with
      | EmptyString => if Ascii.eqb a c then EmptyString else String a EmptyString
      | r => String a r
      end
  end.

(** [s.split(c)] for a one-character separator. *)
Fixpoint split (c : ascii) (s : string) : list string :=
  match s with
  | EmptyString => [EmptyString]
  | String a s' =>
      if Ascii.eqb a c then EmptyString :: split c s'
      else
        match split c s' with
        | w :: ws => String a w :: ws
        | [] => [String a EmptyString]
        end
  end.

(** [c in s]. *)
Fixpoint has_char (c : ascii) (s : string) : bool :=
  match s with
  | EmptyString => false
  | String a s' => Ascii.eqb a c || has_char c s'
  end.

Definition comma : ascii := ","%char.
Definition dquote : string := String (ascii_of_nat 34) EmptyString.

(** [rows[start:]] on a list: a negative start counts from the end, and
    the start is clamped to the list. *)
Definition slice_from {A} (l : list A) (start : Z) : list A :=
  let len := Z.of_nat (length l) in
  let s := if start <? 0 then Z.max 0 (start + len) else Z.min start len in
  skipn (Z.to_nat s) l.

(** ** Module constants *)

(** [DTYPES[tag]]; [None] stands for the [KeyError] of a missing key. *)
Definition DTYPES (tag : string) : option string :=
  if String.eqb tag "string" then Some "VARCHAR(256)"
  else if String.eqb tag "int" then Some "INTEGER"
  else if String.eqb tag "integer" then Some "INTEGER"
  else if String.eqb tag "double" then Some "NUMERIC(18,0)"
  else None.

Definition RESERVED_KEYWORDS : list string := ["year"].

Definition in_strs (s : string) (l : list string) : bool :=
  existsb (String.eqb s) l.

(** ** Arguments of the query methods *)

(** The [where] tuple: a parameterized predicate, followed by the
    remaining items of the tuple; [("id=%s", [1])] has one remaining
    item, the list of bind values.  [None] is [option]'s [None]; the
    empty tuple is falsy like [None] and takes the same branches. *)
Record where_t : Type := Where { w_pred : string; w_rest : list (list pyval) }.

Definition where_len (w : where_t) : nat := S (length (w_rest w)).

(** [where[1]]. *)
Definition where_1 (w : where_t) : option (list pyval) := head (w_rest w).

(** The [cols] argument of [retrieve]: a string or a list of strings. *)
Inductive cols_t : Type :=
| ColsStr (s : string)
| ColsList (l : list string).

(** ** Clause builders *)

Definition _format_insert (data : dict) : string * string :=
  (join "," (keys data), join "," (map (fun _ => "%s") data)).

Definition _format_update (data : dict) : string :=
  join "=%s," (keys data) ++ "=%s".

Definition _where (where_ : option where_t) : string :=
  match where_ with
  | Some w => " WHERE " ++ w_pred w
  | None => ""
  end.

(** [order] is a sequence of strings: the column, then the direction. *)
Definition _order (order : option (list string)) : string :=
  match order with
  | Some (col :: rest) =>
      " ORDER BY " ++ col ++
      match rest with
      | dir :: _ => " " ++ dir
      | [] => ""
      end
  | _ => ""
  end.

Definition _limit (limit : option Z) : string :=
  match limit with
  | Some n => if truthy (PInt n) then " LIMIT " ++ fmt_d n else ""
  | None => ""
  end.

Definition _offset (offset : option Z) : string :=
  match offset with
  | Some n => if truthy (PInt n) then " OFFSET " ++ fmt_d n else ""
  | None => ""
  end.

Definition _returning (returning : option string) : string :=
  match returning with
  | Some r => if truthy (PStr r) then " RETURNING " ++ r else ""
  | None => ""
  end.

Definition _select (table cols : string) (where_ : option where_t)
    (order : option (list string)) (limit offset : option Z) : string :=
  "SELECT " ++ cols ++ " FROM " ++ table
  ++ _where where_ ++ _order order ++ _limit limit ++ _offset offset.


(** ** Exceptions *)

Inductive exn : Type :=
| ClientError (code msg : string)
    (* botocore's ClientError: [e.response["Error"]["Code"]] and [str(e)] *)
| BotoCoreError (msg : string)
    (* a botocore error that is not a ClientError (no endpoint, no credentials) *)
| JSONDecodeError (msg : string)
| AssertionError
| KeyError (key : string)
| TypeError (msg : string)
| AttributeError (msg : string)
| DatabaseError (msg : string)      (* psycopg2: an error answered by the server *)
| InterfaceError (msg : string)     (* psycopg2: cursor or connection already closed *)
| ProgrammingError (msg : string).  (* psycopg2: no results to fetch *)

(** [str(e)]. *)
Definition str_exn (e : exn) : string :=
  match e with
  | ClientError _ msg | BotoCoreError msg | JSONDecodeError msg | TypeError msg
  | AttributeError msg | DatabaseError msg | InterfaceError msg
  | ProgrammingError msg => msg
  | AssertionError => ""
  | KeyError k => "'" ++ k ++ "'"
  end.

(** ** The client library and the outside world *)

(** What the server answers to a statement: the rows of the result set,
    each a list of (column name, value) in select-list order, or no
    result set at all; and the affected-row count. *)
Record qresult : Type := QResult {
  q_rows : option (list (list (string * pyval)));
  q_rowcount : Z
}.

Definition stmt : Type := (string * option (list pyval))%type.

(** A psycopg2 connection. *)
Record Session : Type := MkSession {
  s_database : string;
  s_host : pyval;
  s_port : pyval;
  s_user : pyval;
  s_password : pyval;
  s_autocommit : bool;
  s_closed : bool;
  s_pending : list stmt;     (* executed in the open transaction *)
  s_durable : list stmt      (* committed *)
}.

Inductive cursor_factory : Type := PlainCursor | RealDictCursor.

(** A psycopg2 cursor; [cur_rows] is what remains to be fetched. *)
Record Cursor : Type := MkCursor {
  cur_conn : nat;
  cur_factory : cursor_factory;
  cur_closed : bool;
  cur_rows : option (list (list (string * pyval)));
  cur_rowcount : Z
}.

(** The external collaborators. *)
Record Env : Type := MkEnv {
  (* the server's answer to a statement run against a database *)
  server : string -> string -> option (list pyval) -> exn + qresult;
  (* [psycopg2.connect(host, port, database, user, password)] may fail *)
  connect_error : pyval -> pyval -> string -> pyval -> pyval -> option exn;
  (* [secrets_client.get_secret_value(SecretId=...)]: the response mapping *)
  get_secret_value : string -> exn + dict;
  (* [json.loads] *)
  json_loads : string -> exn + pyval
}.

(** The connector object.  [conn] is [None] only if a caller resets the
    attribute; every psycopg2 connection object is truthy. *)
Record Connector : Type := MkConnector {
  secret_id : string;
  credentials : pyval;
  host : pyval;
  port : pyval;
  user : pyval;
  pwd : pyval;
  db : string;
  conn : option nat;
  cursor : nat
}.

Record State : Type := MkState {
  self : Connector;
  sessions : list Session;
  cursors : list Cursor;
  stdout : list string;                          (* printed lines, oldest first *)
  calls : list (nat * string * option (list pyval))
    (* every [cursor.execute(sql, params)], oldest first: cursor, text, binds *)
}.

Definition set_self (f : Connector -> Connector) (st : State) : State :=
  MkState (f (self st)) (sessions st) (cursors st) (stdout st) (calls st).
Definition set_sessions (f : list Session -> list Session) (st : State) : State :=
  MkState (self st) (f (sessions st)) (cursors st) (stdout st) (calls st).
Definition set_cursors (f : list Cursor -> list Cursor) (st : State) : State :=
  MkState (self st) (sessions st) (f (cursors st)) (stdout st) (calls st).
Definition set_stdout (f : list string -> list string) (st : State) : State :=
  MkState (self st) (sessions st) (cursors st) (f (stdout st)) (calls st).
Definition set_calls
    (f : list (nat * string * option (list pyval)) -> list (nat * string * option (list pyval)))
    (st : State) : State :=
  MkState (self st) (sessions st) (cursors st) (stdout st) (f (calls st)).

(** ** The monad of methods: state and exceptions *)

Inductive outcome (A : Type) : Type :=
| Ok (a : A)
| Raise (e : exn).
Arguments Ok {A} a.
Arguments Raise {A} e.

Definition M (A : Type) : Type := State -> outcome A * State.

Definition ret {A} (a : A) : M A := fun st => (Ok a, st).
Definition raise {A} (e : exn) : M A := fun st => (Raise e, st).
Definition bind {A B} (c : M A) (k : A -> M B) : M B :=
  fun st =>
    match c st with
    | (Ok a, st') => k a st'
    | (Raise e, st') => (Raise e, st')
    end.

(** [try: c  except Exception as e: h e]. *)
Definition try_except {A} (c : M A) (h : exn -> M A) : M A :=
  fun st =>
    match c st with
    | (Ok a, st') => (Ok a, st')
    | (Raise e, st') => h e st'
    end.

Definition get : M State := fun st => (Ok st, st).
Definition modify (f : State -> State) : M unit := fun st => (Ok tt, f st).
Definition print (line : string) : M unit := modify (set_stdout (fun o => (o ++ [line])%list)).
Definition lift {A} (r : exn + A) : M A :=
  match r with inl e => raise e | inr a => ret a end.

Declare Scope py_scope.
Delimit Scope py_scope with py.
Notation "'let*' x ':=' c 'in' k" := (bind c (fun x => k))
  (at level 10, x name, c at level 100, k at level 200) : py_scope.
Notation "c ';;;' k" := (bind c (fun _ => k))
  (at level 100, k at level 200, right associativity) : py_scope.
Local Open Scope py_scope.

Fixpoint mapM {A B} (f : A -> M B) (l : list A) : M (list B) :=
  match l with
  | [] => ret []
  | a :: l' => let* b := f a in let* bs := mapM f l' in ret (b :: bs)
  end.

(** [v[k]] for a string key. *)
Definition getitem (v : pyval) (k : string) : M pyval :=
  match v with
  | PDict d | PRealDictRow d =>
      match dict_get d k with
      | Some x => ret x
      | None => raise (KeyError k)
      end
  | PNone => raise (TypeError "'NoneType' object is not subscriptable")
  | _ => raise (TypeError "indices must be integers")
  end.

(** [dict(i)] for a row [i]. *)
Definition to_dict (v : pyval) : M pyval :=
  match v with
  | PDict d | PRealDictRow d => ret (PDict d)
  | _ => raise (TypeError "cannot convert dictionary update sequence element")
  end.

(** ** The relational client (psycopg2) *)

Definition closed_conn : exn := InterfaceError "connection already closed".
Definition closed_cursor : exn := InterfaceError "cursor already closed".
Definition no_results : exn := ProgrammingError "no results to fetch".

(** How a cursor presents a row of the result set. *)
Definition shape (f : cursor_factory) (row : list (string * pyval)) : pyval :=
  match f with
  | PlainCursor => PTuple (map snd row)
  | RealDictCursor => PRealDictRow (dict_of_items row)
  end.

Definition commit_session (s : Session) : Session :=
  MkSession (s_database s) (s_host s) (s_port s) (s_user s) (s_password s)
    (s_autocommit s) (s_closed s) [] (s_durable s ++ s_pending s)%list.

Definition rollback_session (s : Session) : Session :=
  MkSession (s_database s) (s_host s) (s_port s) (s_user s) (s_password s)
    (s_autocommit s) (s_closed s) [] (s_durable s).

Definition close_session (s : Session) : Session :=
  MkSession (s_database s) (s_host s) (s_port s) (s_user s) (s_password s)
    (s_autocommit s) true [] (s_durable s).

Definition autocommit_session (b : bool) (s : Session) : Session :=
  MkSession (s_database s) (s_host s) (s_port s) (s_user s) (s_password s)
    b (s_closed s) (s_pending s) (s_durable s).

(** A statement that ran: durable at once under autocommit, else pending. *)
Definition record_stmt (q : stmt) (s : Session) : Session :=
  if s_autocommit s then
    MkSession (s_database s) (s_host s) (s_port s) (s_user s) (s_password s)
      (s_autocommit s) (s_closed s) (s_pending s) (s_durable s ++ [q])%list
  else
    MkSession (s_database s) (s_host s) (s_port s) (s_user s) (s_password s)
      (s_autocommit s) (s_closed s) (s_pending s ++ [q])%list (s_durable s).

Definition with_result (r : qresult) (c : Cursor) : Cursor :=
  MkCursor (cur_conn c) (cur_factory c) (cur_closed c) (q_rows r) (q_rowcount r).

Definition with_rows (rows : list (list (string * pyval))) (c : Cursor) : Cursor :=
  MkCursor (cur_conn c) (cur_factory c) (cur_closed c) (Some rows) (cur_rowcount c).

Definition close_cursor (c : Cursor) : Cursor :=
  MkCursor (cur_conn c) (cur_factory c) true (cur_rows c) (cur_rowcount c).

(** An open session, looked up by its id. *)
Definition open_session (c : nat) : M Session :=
  let* st := get in
  match sessions st !! c with
  | Some s => if s_closed s then raise closed_conn else ret s
  | None => raise closed_conn
  end.

Definition open_cursor (cid : nat) : M Cursor :=
  let* st := get in
  match cursors st !! cid with
  | Some c => if cur_closed c then raise closed_cursor else ret c
  | None => raise closed_cursor
  end.

Section Connector.

Variable E : Env.

(** [psycopg2.connect(...)]: a new session, not autocommit, nothing pending. *)
Definition connect (h p : pyval) (database : string) (u pw : pyval) : M nat :=
  match connect_error E h p database u pw with
  | Some e => raise e
  | None =>
      let* st := get in
      modify (set_sessions (fun ss =>
        (ss ++ [MkSession database h p u pw false false [] []])%list)) ;;;
      ret (length (sessions st))
  end.

(** [conn.cursor(cursor_factory=f)]. *)
Definition conn_cursor (c : nat) (f : cursor_factory) : M nat :=
  open_session c ;;;
  let* st := get in
  modify (set_cursors (fun cs => (cs ++ [MkCursor c f false None (-1)])%list)) ;;;
  ret (length (cursors st)).

Definition conn_commit (c : nat) : M unit :=
  open_session c ;;;
  modify (set_sessions (alter commit_session c)).

Definition conn_rollback (c : nat) : M unit :=
  open_session c ;;;
  modify (set_sessions (alter rollback_session c)).

(** [conn.close()]: uncommitted work is discarded. *)
Definition conn_close (c : nat) : M unit :=
  modify (set_sessions (alter close_session c)).

Definition conn_set_autocommit (c : nat) (b : bool) : M unit :=
  open_session c ;;;
  modify (set_sessions (alter (autocommit_session b) c)).

Definition cursor_close (cid : nat) : M unit :=
  modify (set_cursors (alter close_cursor cid)).

(** [cursor.execute(sql, params)]: the call is handed to the server; on
    an error the exception surfaces, else the cursor holds the result. *)
Definition cursor_execute (cid : nat) (sql : string) (params : option (list pyval)) : M unit :=
  modify (set_calls (fun cs => (cs ++ [(cid, sql, params)])%list)) ;;;
  let* c := open_cursor cid in
  let* s := open_session (cur_conn c) in
  let* r := lift (server E (s_database s) sql params) in
  modify (set_sessions (alter (record_stmt (sql, params)) (cur_conn c))) ;;;
  modify (set_cursors (alter (with_result r) cid)).

(** [cursor.fetchall()]: the remaining rows, and none remain. *)
Definition fetchall (cid : nat) : M (list pyval) :=
  let* c := open_cursor cid in
  match cur_rows c with
  | None => raise no_results
  | Some rows =>
      modify (set_cursors (alter (with_rows []) cid)) ;;;
      ret (map (shape (cur_factory c)) rows)
  end.

(** [cursor.fetchone()]: the next row, or [None] when none remains. *)
Definition fetchone (cid : nat) : M pyval :=
  let* c := open_cursor cid in
  match cur_rows c with
  | None => raise no_results
  | Some [] => ret PNone
  | Some (row :: rest) =>
      modify (set_cursors (alter (with_rows rest) cid)) ;;;
      ret (shape (cur_factory c) row)
  end.

(** [cursor.rowcount]. *)
Definition rowcount (cid : nat) : M Z :=
  let* st := get in
  match cursors st !! cid with
  | Some c => ret (cur_rowcount c)
  | None => ret (-1)
  end.

(** ** The connector's methods *)

Definition with_host (v : pyval) (o : Connector) : Connector :=
  MkConnector (secret_id o) (credentials o) v (port o) (user o) (pwd o) (db o) (conn o) (cursor o).
Definition with_port (v : pyval) (o : Connector) : Connector :=
  MkConnector (secret_id o) (credentials o) (host o) v (user o) (pwd o) (db o) (conn o) (cursor o).
Definition with_user (v : pyval) (o : Connector) : Connector :=
  MkConnector (secret_id o) (credentials o) (host o) (port o) v (pwd o) (db o) (conn o) (cursor o).
Definition with_pwd (v : pyval) (o : Connector) : Connector :=
  MkConnector (secret_id o) (credentials o) (host o) (port o) (user o) v (db o) (conn o) (cursor o).
Definition with_db (v : string) (o : Connector) : Connector :=
  MkConnector (secret_id o) (credentials o) (host o) (port o) (user o) (pwd o) v (conn o) (cursor o).
Definition with_conn (v : option nat) (o : Connector) : Connector :=
  MkConnector (secret_id o) (credentials o) (host o) (port o) (user o) (pwd o) (db o) v (cursor o).

(** [self.conn], for a method call on it. *)
Definition self_conn : M nat :=
  let* st := get in
  match conn (self st) with
  | Some c => ret c
  | None => raise (AttributeError "'NoneType' object has no attribute")
  end.

Definition _init_conn (db_ : string) (creds : pyval) : M nat :=
  let* h := getitem creds "host" in
  modify (set_self (with_host h)) ;;;
  let* p := getitem creds "port" in
  modify (set_self (with_port p)) ;;;
  let* u := getitem creds "username" in
  modify (set_self (with_user u)) ;;;
  let* pw := getitem creds "password" in
  modify (set_self (with_pwd pw)) ;;;
  modify (set_self (with_db db_)) ;;;
  let* st := get in
  let o := self st in
  connect (host o) (port o) (db o) (user o) (pwd o).

(** The diagnostic of the [except ClientError] branch: one line for each
    of the five recognised error codes, nothing for any other code. *)
Definition client_error_diagnostic (sid code : string) (e : exn) : M unit :=
  if String.eqb code "ResourceNotFoundException" then
    print ("The requested secret " ++ sid ++ " was not found")
  else if String.eqb code "InvalidRequestException" then
    print ("The request was invalid due to: " ++ str_exn e)
  else if String.eqb code "InvalidParameterException" then
    print ("The request had invalid params: " ++ str_exn e)
  else if String.eqb code "DecryptionFailure" then
    print ("The requested secret can't be decrypted using the provided KMS key: "
           ++ str_exn e)
  else if String.eqb code "InternalServiceError" then
    print ("An error occurred on service side: " ++ str_exn e)
  else ret tt.

Definition get_credentials : M pyval :=
  let* st := get in
  let sid := secret_id (self st) in
  let* cred :=
    match get_secret_value E sid with
    | inl (ClientError code msg) =>
        client_error_diagnostic sid code (ClientError code msg) ;;;
        ret PNone
    | inl e => raise e
    | inr response =>
        match dict_get response "SecretString" with
        | Some (PStr secret) => lift (json_loads E secret)
        | Some _ => raise (TypeError "the JSON object must be str, bytes or bytearray")
        | None => ret PNone
        end
    end in
  match cred with
  | PNone => raise AssertionError
  | _ => ret cred
  end.

Definition close : M unit :=
  let* st := get in
  match conn (self st) with
  | Some c =>
      conn_commit c ;;;
      cursor_close (cursor (self st)) ;;;
      conn_close c
  | None => ret tt
  end.

Definition commit : M unit := let* c := self_conn in conn_commit c.

Definition rollback : M unit := let* c := self_conn in conn_rollback c.

(** [_execute]: run on the connector's own cursor; log and re-raise. *)
Definition _execute (sql : string) (params : option (list pyval)) : M nat :=
  let* st := get in
  let cur := cursor (self st) in
  try_except (cursor_execute cur sql params)
    (fun e => print ("execute() failed due to: " ++ str_exn e) ;;; raise e) ;;;
  ret cur.

(** The cursor class chosen by [execute]'s first test,
    [return_type == 'd' or 'dict']. *)
Definition execute_factory (return_type : pyval) : cursor_factory :=
  if truthy (py_or (PBool (eq_str return_type "d")) (PStr "dict"))
  then RealDictCursor else PlainCursor.

Definition execute (sql : string) (return_type : pyval) : M (list pyval) :=
  let* c := self_conn in
  let* cur := conn_cursor c (execute_factory return_type) in
  try_except
    (cursor_execute cur sql None ;;;
     if negb (truthy return_type) then fetchall cur
     else let* rows := fetchall cur in mapM to_dict rows)
    (fun e => print ("execute() failed due to: " ++ str_exn e) ;;; raise e).

Definition create (table schema : string) : M unit :=
  _execute ("CREATE TABLE " ++ table ++ " (" ++ schema ++ ")") None ;;;
  commit.

Definition truncate (table : string) (restart_identity cascade : bool) : M unit :=
  let sql := "TRUNCATE " ++ table in
  let sql := if restart_identity then sql ++ " RESTART IDENTITY" else sql in
  let sql := if cascade then sql ++ " CASCADE" else sql in
  _execute sql None ;;;
  commit.

Definition drop (table : string) (cascade : bool) : M unit :=
  let sql := "DROP TABLE IF EXISTS " ++ table in
  let sql := if cascade then sql ++ " CASCADE" else sql in
  _execute sql None ;;;
  commit.

(** The column text of [retrieve] and the bind values of a [where]. *)
Definition retrieve_columns (cols : cols_t) : string :=
  match cols with
  | ColsStr s => if String.eqb s "all" then "*" else s
  | ColsList l => rstrip comma (join "," l)
  end.

Definition where_params (where_ : option where_t) : option (list pyval) :=
  match where_ with
  | Some w => match w_rest w with [vals] => Some vals | _ => None end
  | None => None
  end.

(** The start of [retrieve]'s final slice,
    [len(rows) - limit if limit else 0]. *)
Definition retrieve_start (rows : list pyval) (limit : option Z) : Z :=
  match limit with
  | Some n => if truthy (PInt n) then Z.of_nat (length rows) - n else 0
  | None => 0
  end.

Definition retrieve (table : string) (cols : cols_t) (where_ : option where_t)
    (order : option (list string)) (limit : option Z) : M (list pyval) :=
  let columns := retrieve_columns cols in
  let sql := _select table columns where_ order limit None in
  let params := where_params where_ in
  let* cur := _execute sql params in
  let* rows := fetchall cur in
  ret (slice_from rows (retrieve_start rows limit)).

Definition retrieve_dict_columns (cols : cols_t) : string :=
  match cols with
  | ColsStr s => if String.eqb s "all" || String.eqb s "*" then "*" else s
  | ColsList l => rstrip comma (join "," l)
  end.

Definition retrieve_dict (table : string) (cols : cols_t) (where_ : option where_t)
    (order : option (list string)) (limit : option Z) : M (list pyval) :=
  let* c := self_conn in
  let* cur := conn_cursor c RealDictCursor in
  let columns := retrieve_dict_columns cols in
  let sql := _select table columns where_ order limit None in
  let params := where_params where_ in
  cursor_execute cur sql params ;;;
  let* rows := fetchall cur in
  mapM to_dict rows.

Definition requested (returning : option string) : bool :=
  match returning with
  | Some r => truthy (PStr r)
  | None => false
  end.

Definition insert_sql (table : string) (data : dict) (returning : option string) : string :=
  let '(cols, vals) := _format_insert data in
  "INSERT INTO " ++ table ++ " (" ++ cols ++ ") VALUES(" ++ vals ++ ")"
  ++ _returning returning.

Definition insert (table : string) (data : dict) (returning : option string) : M pyval :=
  let sql := insert_sql table data returning in
  let* cur := _execute sql (Some (values data)) in
  if requested returning then fetchone cur
  else let* n := rowcount cur in ret (PInt n).

(** The bind values of an UPDATE:
    [list(data.values()) + where[1] if where and len(where) > 1 else list(data.values())]. *)
Definition update_params (data : dict) (where_ : option where_t) : list pyval :=
  match where_ with
  | Some w =>
      match w_rest w with
      | vals :: _ => (values data ++ vals)%list
      | [] => values data
      end
  | None => values data
  end.

Definition update_sql (table : string) (data : dict) (where_ : option where_t)
    (returning : option string) : string :=
  "UPDATE " ++ table ++ " SET " ++ _format_update data
  ++ (_where where_ ++ _returning returning).

Definition update (table : string) (data : dict) (where_ : option where_t)
    (returning : option string) : M pyval :=
  let sql := update_sql table data where_ returning in
  let* cur := _execute sql (Some (update_params data where_)) in
  if requested returning then let* rows := fetchall cur in ret (PList rows)
  else let* n := rowcount cur in ret (PInt n).

Definition delete_params (where_ : option where_t) : option (list pyval) :=
  match where_ with
  | Some w => match w_rest w with vals :: _ => Some vals | [] => None end
  | None => None
  end.

Definition delete (table : string) (where_ : option where_t)
    (returning : option string) : M pyval :=
  let sql := "DELETE FROM " ++ table ++ (_where where_ ++ _returning returning) in
  let* cur := _execute sql (delete_params where_) in
  if requested returning then let* rows := fetchall cur in ret (PList rows)
  else let* n := rowcount cur in ret (PInt n).

(** One column of [create_table]'s schema text, with its trailing comma. *)
Definition column_entry (column datatype : string) : string :=
  if negb (in_strs column RESERVED_KEYWORDS)
  then column ++ " " ++ datatype ++ ","
  else dquote ++ column ++ dquote ++ " " ++ datatype ++ ",".

(** The loop over [df.dtypes], from the text accumulated so far. *)
Fixpoint table_schema_loop (fields : list (string * string)) (table_schema : string)
  : exn + string :=
  match fields with
  | [] => inr table_schema
  | (column, tag) :: rest =>
      match DTYPES tag with
      | None => inl (KeyError tag)
      | Some datatype =>
          table_schema_loop rest (table_schema ++ column_entry column datatype)
      end
  end.

Definition create_table_statement (table_schema db_schema table_name : string)
    (pk_column : option string) : string :=
  if requested pk_column then
    "CREATE TABLE IF NOT EXISTS " ++ db_schema ++ "." ++ table_name
    ++ " (" ++ table_schema ++ "), PRIMARY KEY (" ++ match pk_column with
                                                       | Some pk => pk
                                                       | None => ""
                                                       end ++ ");"
  else
    "CREATE TABLE IF NOT EXISTS " ++ db_schema ++ "." ++ table_name
    ++ " (" ++ table_schema ++ ");".

Definition create_table (dtypes : list (string * string)) (db_schema table_name : string)
    (pk_column : option string) : M unit :=
  let* table_schema := lift (table_schema_loop dtypes "") in
  let table_schema := rstrip comma table_schema in
  _execute (create_table_statement table_schema db_schema table_name pk_column) None ;;;
  ret tt.

Definition switch_database (db_name : string) : M unit :=
  let* st := get in
  let* connection_properties :=
    match conn (self st) with
    | Some c =>
        let props := credentials (self st) in
        conn_commit c ;;;
        ret props
    | None => ret PNone
    end in
  let* c' := _init_conn db_name connection_properties in
  modify (set_self (with_conn (Some c'))).

Definition create_schema (schema_name : string) : M unit :=
  _execute ("CREATE SCHEMA IF NOT EXISTS " ++ schema_name) None ;;; ret tt.

Definition delete_schema (schema_name : string) : M unit :=
  _execute ("DROP SCHEMA IF EXISTS " ++ schema_name) None ;;; ret tt.

Definition copy_from_s3_to_rs (table s3_path iam_role delimiter file_type : string) : M unit :=
  _execute ("copy " ++ table ++ " from '" ++ s3_path ++ "' iam_role '" ++ iam_role
            ++ "' delimiter '" ++ delimiter ++ "' " ++ file_type ++ ";") None ;;;
  commit.

Definition with_secret_id (v : string) (o : Connector) : Connector :=
  MkConnector v (credentials o) (host o) (port o) (user o) (pwd o) (db o) (conn o) (cursor o).
Definition with_credentials (v : pyval) (o : Connector) : Connector :=
  MkConnector (secret_id o) v (host o) (port o) (user o) (pwd o) (db o) (conn o) (cursor o).
Definition with_cursor (v : nat) (o : Connector) : Connector :=
  MkConnector (secret_id o) (credentials o) (host o) (port o) (user o) (pwd o) (db o) (conn o) v.

Definition is_dict (v : pyval) : bool :=
  match v with PDict _ => true | _ => false end.

(** The constructor.  With neither a secret and a region nor a
    credentials dict, [self.credentials] is never assigned and reading it
    raises. *)
Definition __init__ (db_ : string) (secret region : option string) (creds : pyval)
    (autocommit : bool) : M unit :=
  match secret, region with
  | Some sec, Some _ =>
      modify (set_self (with_secret_id sec)) ;;;
      let* cred := get_credentials in
      modify (set_self (with_credentials cred))
  | _, _ =>
      if truthy creds && is_dict creds
      then modify (set_self (with_credentials creds))
      else raise (AttributeError "'RedshiftConnector' object has no attribute 'credentials'")
  end ;;;
  let* st := get in
  let* c := _init_conn db_ (credentials (self st)) in
  modify (set_self (with_conn (Some c))) ;;;
  conn_set_autocommit c autocommit ;;;
  let* cur := conn_cursor c PlainCursor in
  modify (set_self (with_cursor cur)).

End Connector.

(** ** A small concrete world

    A server that knows one three-row table [t] and honours a LIMIT
    clause on it, accepts an INSERT and an UPDATE, and rejects everything
    else; a
    secret store with one JSON secret, one binary secret, one secret it
    denies access to and one it cannot be reached for. *)

Definition t_rows : list (list (string * pyval)) :=
  [ [("id", PInt 1); ("name", PStr "a")];
    [("id", PInt 2); ("name", PStr "b")];
    [("id", PInt 3); ("name", PStr "c")] ].

(** A trailing [LIMIT k] clause, split off a statement. *)
Definition parse_count (s : string) : option nat :=
  match s with
  | EmptyString => None
  | _ => option_map Nat.of_uint (NilEmpty.uint_of_string s)
  end.

Fixpoint split_limit (sql : string) : string * option nat :=
  match sql with
  | EmptyString => (EmptyString, None)
  | String a rest =>
      match (if String.prefix " LIMIT " sql
             then parse_count (String.substring 7 (String.length sql - 7) sql)
             else None) with
      | Some k => (EmptyString, Some k)
      | None => let '(body, k) := split_limit rest in (String a body, k)
      end
  end.

(** The server's answer to a select on [t]: all rows, or the first [k]
    under [LIMIT k]. *)
Definition limited (k : option nat) (rows : list (list (string * pyval))) : qresult :=
  let rows := match k with Some k => firstn k rows | None => rows end in
  QResult (Some rows) (Z.of_nat (length rows)).

Definition demo_server (database sql : string) (params : option (list pyval))
  : exn + qresult :=
  let '(body, k) := split_limit sql in
  if String.eqb body "SELECT * FROM t" then inr (limited k t_rows)
  else if String.eqb sql "INSERT INTO t (id,name) VALUES(%s,%s)" then inr (QResult None 1)
  else if String.eqb sql "INSERT INTO t (id,name) VALUES(%s,%s) RETURNING id"
       then inr (QResult (Some [[("id", PInt 4)]]) 1)
  else if String.eqb sql "UPDATE t SET name=%s WHERE id=%s" then inr (QResult None 1)
  else inl (DatabaseError "syntax error").

Definition demo_creds : dict :=
  [("host", PStr "rs.example"); ("port", PInt 5439);
   ("username", PStr "admin"); ("password", PStr "pw")].

Definition demo_secrets (sid : string) : exn + dict :=
  if String.eqb sid "rs/creds" then inr [("Name", PStr sid); ("SecretString", PStr "{...}")]
  else if String.eqb sid "rs/binary" then inr [("Name", PStr sid); ("SecretBinary", PStr "AAEC")]
  else if String.eqb sid "rs/denied" then
    inl (ClientError "AccessDeniedException" "An error occurred (AccessDeniedException)")
  else if String.eqb sid "rs/unreachable" then
    inl (BotoCoreError "Could not connect to the endpoint URL")
  else inl (ClientError "ResourceNotFoundException" "An error occurred (ResourceNotFoundException)").

Definition demo_env : Env :=
  MkEnv demo_server (fun _ _ _ _ _ => None) demo_secrets (fun _ => inr (PDict demo_creds)).

(** Before the constructor runs: no session, no cursor, nothing printed. *)
Definition blank : State :=
  MkState (MkConnector "" PNone PNone PNone PNone PNone "" None 0%nat) [] [] [] [].

(** The state after [RedshiftConnector("dev", creds=demo_creds)]. *)
Definition demo_state : State :=
  snd (__init__ demo_env "dev" None None (PDict demo_creds) false blank).

(** ** Vocabulary of the properties *)

(** The last [n] items of a list (all of them when it is shorter). *)
Definition lastn {A} (n : nat) (l : list A) : list A := skipn (length l - n) l.

(** The connector's own cursor is open, on an open session. *)
Record ready (st : State) (c : Cursor) (s : Session) : Prop := Ready {
  ready_cursor : cursors st !! cursor (self st) = Some c;
  ready_cursor_open : cur_closed c = false;
  ready_session : sessions st !! cur_conn c = Some s;
  ready_session_open : s_closed s = false
}.

(** The connector holds an open connection. *)
Record connected (st : State) (c : nat) (s : Session) : Prop := Connected {
  connected_conn : conn (self st) = Some c;
  connected_session : sessions st !! c = Some s;
  connected_open : s_closed s = false
}.

(** The state once cursor [cid], on session [c], has run a statement
    that the server answered with [r]. *)
Definition ran (cid c : nat) (sql : string) (params : option (list pyval))
    (r : qresult) (st : State) : State :=
  set_cursors (alter (with_result r) cid)
    (set_sessions (alter (record_stmt (sql, params)) c)
       (set_calls (fun cs => (cs ++ [(cid, sql, params)])%list) st)).

(** The statement of a select as the specification words it: the base
    clause, then one fragment per input in the order WHERE, ORDER BY,
    LIMIT, OFFSET, each empty when its input is absent.  An input is
    present when it is supplied and truthy. *)
Module SelectSpec.

Definition where_fragment (where_ : option where_t) : string :=
  match where_ with
  | Some w => " WHERE " ++ w_pred w
  | None => ""
  end.

Definition order_fragment (order : option (list string)) : string :=
  match order with
  | Some [column] => " ORDER BY " ++ column
  | Some (column :: direction :: _) => " ORDER BY " ++ column ++ " " ++ direction
  | _ => ""
  end.

Definition present (n : option Z) : option Z :=
  match n with
  | Some k => if k =? 0 then None else Some k
  | None => None
  end.

Definition limit_fragment (limit : option Z) : string :=
  match present limit with
  | Some n => " LIMIT " ++ fmt_d n
  | None => ""
  end.

Definition offset_fragment (offset : option Z) : string :=
  match present offset with
  | Some n => " OFFSET " ++ fmt_d n
  | None => ""
  end.

Definition statement (table cols : string) (where_ : option where_t)
    (order : option (list string)) (limit offset : option Z) : string :=
  ("SELECT " ++ cols ++ " FROM " ++ table)
  ++ where_fragment where_ ++ order_fragment order
  ++ limit_fragment limit ++ offset_fragment offset.

End SelectSpec.


(** The error codes for which [get_credentials] prints a diagnostic. *)
Definition recognised_code (code : string) : bool :=
  in_strs code ["ResourceNotFoundException"; "InvalidRequestException";
                "InvalidParameterException"; "DecryptionFailure";
                "InternalServiceError"].

(** The columns of a CREATE TABLE as the specification words them: a
    reserved column name double-quoted, any other as it is, then the SQL
    type of the tag; an unknown tag is a lookup failure. *)
Module CreateTableSpec.

Definition column_def (column datatype : string) : string :=
  (if in_strs column RESERVED_KEYWORDS then dquote ++ column ++ dquote else column)
  ++ " " ++ datatype.

Fixpoint column_defs (fields : list (string * string)) : exn + list string :=
  match fields with
  | [] => inr []
  | (column, tag) :: rest =>
      match DTYPES tag with
      | None => inl (KeyError tag)
      | Some datatype =>
          match column_defs rest with
          | inl e => inl e
          | inr defs => inr (column_def column datatype :: defs)
          end
      end
  end.

End CreateTableSpec.

(** The text [create_table]'s loop accumulates for a list of column
    definitions: each followed by a comma. *)
Definition entries (defs : list string) : string :=
  fold_right (fun d acc => d ++ "," ++ acc) "" defs.

(** A column definition survives the final [rstrip]: it is not empty
    and its own text does not end in a comma. *)
Definition settled (d : string) : Prop := rstrip comma (d ++ ",") = d /\ d <> "".

(** The state after [_execute] logged a failure of cursor [cid]. *)
Definition failed (cid : nat) (sql : string) (params : option (list pyval)) (e : exn)
    (st : State) : State :=
  set_stdout (fun o => (o ++ [("execute() failed due to: " ++ str_exn e)%string])%list)
    (set_calls (fun cs => (cs ++ [(cid, sql, params)])%list) st).

(** ** Vocabulary of the further properties *)

(** The outcome of a method that met a failure [e] of the client on the
    statement it sent through [_execute]: the error comes back
    unchanged, one diagnostic line was printed, the failed call is the
    only one the cursor received, nothing more became durable and the
    connector object did not change. *)
Definition logged_failure {A} (e : exn) (sql : string) (params : option (list pyval))
    (st : State) (r : outcome A * State) : Prop :=
  fst r = Raise e
  /\ stdout (snd r) = (stdout st ++ [("execute() failed due to: " ++ str_exn e)%string])%list
  /\ calls (snd r) = (calls st ++ [(cursor (self st), sql, params)])%list
  /\ map s_durable (sessions (snd r)) = map s_durable (sessions st)
  /\ self (snd r) = self st.

(** A method whose statement is [sql] with the bind values [params]
    logs and re-raises: whatever error the server answers to that
    statement, the outcome is the logged failure. *)
Definition logs_and_reraises {A} (E : Env) (st : State) (s : Session) (sql : string)
    (params : option (list pyval)) (m : M A) : Prop :=
  forall e, server E (s_database s) sql params = inl e ->
            logged_failure e sql params st (m st).

(** What identifies the cursors of a state: for each, its session, its
    class and whether it is closed. *)
Definition cursor_flags (st : State) : list (nat * cursor_factory * bool) :=
  map (fun c => (cur_conn c, cur_factory c, cur_closed c)) (cursors st).


Definition down_env : Env :=
  MkEnv (fun _ _ _ => inl (DatabaseError "connection lost")) (fun _ _ _ _ _ => None)
    demo_secrets (fun _ => inr (PDict demo_creds)).

(** A computation keeps an observation [f] of the state: whatever
    state it runs in, and whether it returns or raises, [f] reads the
    same afterwards. *)
Definition keeps {A X} (f : State -> X) (m : M A) : Prop :=
  forall st, f (snd (m st)) = f st.

(** [dict(i)] of a dict-cursor row built from the items of a result row. *)
Definition as_dict (row : list (string * pyval)) : pyval := PDict (dict_of_items row).



(** The state after a method that ran the statement [q] and did not
    commit: on a session that is not in autocommit mode the statement is
    the last pending one and nothing more is durable. *)
Definition left_pending (q : stmt) (st : State) (c : Cursor) (s : Session) (st' : State)
    : Prop :=
  exists s',
    calls st' = (calls st ++ [(cursor (self st), fst q, snd q)])%list
    /\ sessions st' !! cur_conn c = Some s'
    /\ s_pending s' = (s_pending s ++ [q])%list
    /\ s_durable s' = s_durable s.

(** A method whose statement is [sql] with the bind values [params]
    leaves it pending: whenever the server accepts that statement, it
    is left pending in the state the method ends in. *)
Definition leaves_pending {A} (E : Env) (st : State) (c : Cursor) (s : Session)
    (sql : string) (params : option (list pyval)) (m : M A) : Prop :=
  forall r, server E (s_database s) sql params = inr r ->
            left_pending (sql, params) st c s (snd (m st)).

(** What follows [_execute] in the methods that fetch: it reads the
    cursor and changes nothing else. *)
Definition reads_cursor {A} (k : M A) : Prop :=
  keeps sessions k /\ keeps self k /\ keeps calls k /\ keeps stdout k.

(** The first of the four keys [_init_conn] reads that a credentials
    dict lacks. *)
Definition first_missing (d : dict) : option string :=
  find (fun k => match dict_get d k with None => true | Some _ => false end)
    ["host"; "port"; "username"; "password"].

(** The number of percent signs of a text: each placeholder [%s] of a
    statement holds one. *)
Fixpoint percents (s : string) : nat :=
  match s with
  | EmptyString => 0%nat
  | String a s' => ((if Ascii.eqb a "%"%char then 1 else 0) + percents s')%nat
  end.

Definition percent_free (s : string) : bool := Nat.eqb (percents s) 0.

(** A where argument whose predicate has as many placeholders as it
    has bind values: none, or a pair. *)
Definition balanced (where_ : option where_t) : bool :=
  match where_ with
  | None => true
  | Some w =>
      match w_rest w with
      | [vals] => Nat.eqb (percents (w_pred w)) (length vals)
      | _ => false
      end
  end.

(** ** Catalog methods *)

Section Catalog.

Variable E : Env.

(** [[i[column] for i in result]]. *)
Definition project (column : string) (result : list pyval) : M (list pyval) :=
  mapM (fun i => getitem i column) result.

Definition list_schemas : M (list pyval) :=
  let statement := "select nspname from pg_catalog.pg_namespace;" in
  let* result := execute E statement (PStr "d") in
  project "nspname" result.

Definition list_tables_in_schema (schema_name : string) : M (list pyval) :=
  let statement := "select * from pg_tables where schemaname='" ++ schema_name ++ "';" in
  let* result := execute E statement (PStr "dict") in
  project "tablename" result.

Definition list_databases : M (list pyval) :=
  let statement := "SELECT datname FROM pg_database;" in
  let* result := execute E statement (PStr "dict") in
  project "datname" result.

End Catalog.

(** The value a dict-cursor row holds for a column. *)
Definition cell (column : string) (row : list (string * pyval)) : option pyval :=
  dict_get (dict_of_items row) column.

(** ** Code that can raise more than the connector's own errors

    Indexing an empty sequence, unpacking, and [int()] raise exceptions
    that the connector's core never produces.  The methods and handlers
    that can meet them run in the same state with a wider exception
    type. *)

Inductive raised : Type :=
| Client (e : exn)                (* any exception of the connector's core *)
| IndexError (msg : string)
| ValueError (msg : string).

Inductive result (A : Type) : Type :=
| Returned (a : A)
| Raised (e : raised).
Arguments Returned {A} a.
Arguments Raised {A} e.

Definition MX (A : Type) : Type := State -> result A * State.

Definition retX {A} (a : A) : MX A := fun st => (Returned a, st).
Definition raiseX {A} (e : raised) : MX A := fun st => (Raised e, st).
Definition bindX {A B} (c : MX A) (k : A -> MX B) : MX B :=
  fun st =>
    match c st with
    | (Returned a, st') => k a st'
    | (Raised e, st') => (Raised e, st')
    end.

(** A computation of the core, in the wider type. *)
Definition up {A} (m : M A) : MX A :=
  fun st =>
    match m st with
    | (Ok a, st') => (Returned a, st')
    | (Raise e, st') => (Raised (Client e), st')
    end.

(** [try: c  except Exception as e: h e]. *)
Definition try_exceptX {A} (c : MX A) (h : raised -> MX A) : MX A :=
  fun st =>
    match c st with
    | (Returned a, st') => (Returned a, st')
    | (Raised e, st') => h e st'
    end.

(** [str(e)]. *)
Definition str_raised (e : raised) : string :=
  match e with
  | Client e => str_exn e
  | IndexError msg | ValueError msg => msg
  end.

Declare Scope pyx_scope.
Delimit Scope pyx_scope with pyx.
Notation "'let+' x ':=' c 'in' k" := (bindX c (fun x => k))
  (at level 10, x name, c at level 100, k at level 200) : pyx_scope.
Notation "c ';;+' k" := (bindX c (fun _ => k))
  (at level 100, k at level 200, right associativity) : pyx_scope.
Local Open Scope pyx_scope.

Fixpoint mapMX {A B} (f : A -> MX B) (l : list A) : MX (list B) :=
  match l with
  | [] => retX []
  | a :: l' => let+ b := f a in let+ bs := mapMX f l' in retX (b :: bs)
  end.

(** [i[0]].  A row of a dict cursor has no key [0]: the key error names
    it. *)
Definition first_cell (i : pyval) : MX pyval :=
  match i with
  | PTuple (x :: _) | PList (x :: _) => retX x
  | PTuple [] => raiseX (IndexError "tuple index out of range")
  | PList [] => raiseX (IndexError "list index out of range")
  | PStr (String a _) => retX (PStr (String a EmptyString))
  | PStr EmptyString => raiseX (IndexError "string index out of range")
  | PDict _ | PRealDictRow _ => raiseX (Client (KeyError "0"))
  | PNone | PBool _ | PInt _ => raiseX (Client (TypeError "object is not subscriptable"))
  end.

(** [x, = d.values()]: the one value of a mapping. *)
Definition unpack_one (vs : list pyval) : MX pyval :=
  match vs with
  | [v] => retX v
  | [] => raiseX (ValueError "not enough values to unpack (expected 1, got 0)")
  | _ => raiseX (ValueError "too many values to unpack (expected 1)")
  end.

(** [v.values()]. *)
Definition values_of (v : pyval) : MX (list pyval) :=
  match v with
  | PDict d | PRealDictRow d => retX (values d)
  | _ => raiseX (Client (AttributeError "object has no attribute 'values'"))
  end.

(** [fetch=returning]: the argument as the helper receives it. *)
Definition as_pyval (o : option string) : pyval :=
  match o with Some r => PStr r | None => PNone end.

Section Bulk.

Variable E : Env.

(** [psycopg2.extras.execute_values(cur, sql, argslist, fetch)]: a
    helper of the client library, taken as it comes. *)
Variable execute_values : nat -> string -> list pyval -> pyval -> MX pyval.

(** [list_tables]: on the connector's own cursor, outside any handler;
    [i[0]] of each fetched row. *)
Definition list_tables : MX (list pyval) :=
  let+ st := up get in
  let cur := cursor (self st) in
  up (cursor_execute E cur
        "select relname from pg_class where relkind='r' and relname !~ '^(pg_|sql_)';"
        None) ;;+
  let+ rows := up (fetchall cur) in
  mapMX first_cell rows.

(** [insert_many]; [data] is a list by its type, so the assertion holds. *)
Definition insert_many (table : string) (data : list dict) (returning : option string)
  : MX pyval :=
  let arg_vals := map (fun item => PTuple (values item)) data in
  match data with
  | [] => raiseX (IndexError "list index out of range")
  | data_elem :: _ =>
      let cols := join "," (keys data_elem) in
      let sql := "INSERT INTO " ++ table ++ " (" ++ cols ++ ") VALUES %s"
                 ++ _returning returning in
      let+ st := up get in
      execute_values (cursor (self st)) sql arg_vals (as_pyval returning) ;;+
      if requested returning
      then let+ st' := up get in up (fetchone (cursor (self st')))
      else retX PNone
  end.

Definition verify_schema_exists (schema_name : string) : MX pyval :=
  let statement := "SELECT EXISTS(SELECT 1 FROM pg_namespace WHERE nspname = '"
                   ++ schema_name ++ "');" in
  let+ result := up (execute E statement (PStr "d")) in
  match result with
  | [] => raiseX (IndexError "list index out of range")
  | first :: _ =>
      let+ vs := values_of first in
      unpack_one vs
  end.

End Bulk.

(** The first cell of each row of a result set, when every row has one. *)
Fixpoint heads (rows : list (list (string * pyval))) : option (list pyval) :=
  match rows with
  | [] => Some []
  | [] :: _ => None
  | ((_, v) :: _) :: rest =>
      match heads rest with
      | Some vs => Some (v :: vs)
      | None => None
      end
  end.

(** A server with a catalog: two schemas, two tables in [public]. *)
Definition catalog_server (database sql : string) (params : option (list pyval))
  : exn + qresult :=
  if String.eqb sql "select nspname from pg_catalog.pg_namespace;"
  then inr (QResult (Some [[("nspname", PStr "public")]; [("nspname", PStr "etl")]]) 2)
  else if String.eqb sql "select * from pg_tables where schemaname='public';"
  then inr (QResult (Some [[("schemaname", PStr "public"); ("tablename", PStr "sales")];
                           [("schemaname", PStr "public"); ("tablename", PStr "stock")]]) 2)
  else if String.eqb sql "SELECT datname FROM pg_database;"
  then inr (QResult (Some [[("datname", PStr "dev")]]) 1)
  else if String.eqb sql
            "SELECT EXISTS(SELECT 1 FROM pg_namespace WHERE nspname = 'etl');"
  then inr (QResult (Some [[("exists", PBool true)]]) 1)
  else if String.eqb sql
            "select relname from pg_class where relkind='r' and relname !~ '^(pg_|sql_)';"
  then inr (QResult (Some [[("relname", PStr "sales")]; [("relname", PStr "stock")]]) 2)
  else inl (DatabaseError "syntax error").

Definition catalog_env : Env :=
  MkEnv catalog_server (fun _ _ _ _ _ => None) demo_secrets (fun _ => inr (PDict demo_creds)).

(** ** The request handlers

    The handlers under [lambda/] work on a database object of a class
    that is not part of these sources, through two of its methods, and
    on helpers of a [utils] module that is not part of them either.  The
    database object is an interface, which the connector above
    implements; the helpers are parameters. *)

(** The database object a handler is given. *)
Record Database : Type := MkDatabase {
  db_retrieve_dict :
    string -> cols_t -> option where_t -> option (list string) -> option Z
    -> MX (list pyval);
  db_close : MX unit
}.

(** The connector of this repository as such a database. *)
Definition connector_database (E : Env) : Database :=
  MkDatabase (fun table cols where_ order limit =>
                up (retrieve_dict E table cols where_ order limit))
             (up close).

(** [d[k] = v] on an object: only a dict supports it. *)
Definition setitem (o : pyval) (k : string) (v : pyval) : MX pyval :=
  match o with
  | PDict d => retX (PDict (dict_set d k v))
  | PRealDictRow d => retX (PRealDictRow (dict_set d k v))
  | PList _ => raiseX (Client (TypeError "list indices must be integers or slices, not str"))
  | PNone => raiseX (Client (TypeError "'NoneType' object does not support item assignment"))
  | _ => raiseX (Client (TypeError "object does not support item assignment"))
  end.

(** [s[1:]]. *)
Definition tail_str (s : string) : string :=
  match s with
  | EmptyString => EmptyString
  | String _ s' => s'
  end.

(** [l[i]] on a list of strings. *)
Definition item (l : list string) (i : nat) : MX string :=
  match nth_error l i with
  | Some x => retX x
  | None => raiseX (IndexError "list index out of range")
  end.

(** A resource path must be a string to be sliced and split: a list
    or tuple can be sliced but not split, anything else cannot be
    sliced. *)
Definition as_str (v : pyval) : MX string :=
  match v with
  | PStr s => retX s
  | PList _ | PTuple _ => raiseX (Client (AttributeError "object has no attribute 'split'"))
  | _ => raiseX (Client (TypeError "object is not subscriptable"))
  end.

(** [s.isdigit()] on an ASCII string: not empty, decimal digits only. *)
Definition is_digit (a : ascii) : bool :=
  let n := nat_of_ascii a in (48 <=? n)%nat && (n <=? 57)%nat.

Fixpoint all_digits (s : string) : bool :=
  match s with
  | EmptyString => true
  | String a s' => is_digit a && all_digits s'
  end.

Definition isdigit (s : string) : bool :=
  match s with
  | EmptyString => false
  | _ => all_digits s
  end.

(** [v in [None, 'None', '0', 'NONE']]. *)
Definition no_limit (v : pyval) : bool :=
  match v with
  | PNone => true
  | PStr s => in_strs s ["None"; "0"; "NONE"]
  | _ => false
  end.

(** [isinstance(v, int)]: a bool is an int. *)
Definition is_int (v : pyval) : bool :=
  match v with PInt _ | PBool _ => true | _ => false end.

Section Handlers.

(** [str(v)] as [print] shows a value. *)
Variable display : pyval -> string.
(** [int(s)] on a string; [None] is its value error. *)
Variable py_int : string -> option Z.
(** [utils]: the audit-trail helper and the response builder. *)
Variable insert_event_to_dynamoDb : pyval -> pyval -> string -> option string -> MX pyval.
Variable get_response : string -> bool -> pyval -> pyval -> option string -> MX pyval.
(** [config/globalConfig.json], as loaded. *)
Variable global_config : list (string * string).

Definition config_get (k : string) : MX string :=
  match find (fun kv => String.eqb (fst kv) k) global_config with
  | Some kv => retX (snd kv)
  | None => raiseX (Client (KeyError k))
  end.

Definition printX (line : string) : MX unit := up (print line).

Definition getitemX (v : pyval) (k : string) : MX pyval := up (getitem v k).

(** [int(v)]. *)
Definition to_int (v : pyval) : MX Z :=
  match v with
  | PInt n => retX n
  | PBool b => retX (if b then 1 else 0)
  | PStr s =>
      match py_int s with
      | Some n => retX n
      | None => raiseX (ValueError "invalid literal for int() with base 10")
      end
  | _ => raiseX (Client (TypeError "int() argument must be a string or a number"))
  end.

(** *** [aws-dl-fmwrk-target-system-api/read.py] *)

Definition cols : list string :=
  ["target_id"; "domain"; "subdomain"; "bucket_name"; "data_owner"; "support_cntct";
   "rs_load_ind"; "rs_db_nm"; "rs_schema_nm"].

Definition read_multiple (metadata_db : Database) (target_ids : list pyval)
  : MX (list pyval) :=
  let+ table := config_get "target_sys_table" in
  let target_id_tuple := PTuple target_ids in
  let condition := Where "target_id in %s" [[target_id_tuple]] in
  db_retrieve_dict metadata_db table (ColsList cols) (Some condition) None None.

(** The first part of [read_target_system], up to the test of
    [target_info]: the rows it looks up, or [None] when no branch
    applies. *)
Definition read_target_info (metadata_db : Database) (fetch_limit source_payload : pyval)
  : MX (option (list pyval)) :=
  let+ table := config_get "target_sys_table" in
  if no_limit fetch_limit && truthy source_payload then
    let+ target_id := getitemX source_payload "target_id" in
    match target_id with
    | PList ids =>
        let+ info := read_multiple metadata_db ids in retX (Some info)
    | _ =>
        let+ target_id :=
          match target_id with
          | PStr _ => let+ n := to_int target_id in retX (PInt n)
          | _ => retX target_id
          end in
        let condition := Where "target_id=%s" [[target_id]] in
        let+ info := db_retrieve_dict metadata_db table (ColsList cols) (Some condition)
                       None None in
        retX (Some info)
    end
  else
    let+ digits :=
      if is_int fetch_limit then retX true
      else match fetch_limit with
           | PStr s => retX (isdigit s)
           | PNone =>
               raiseX (Client (AttributeError
                         "'NoneType' object has no attribute 'isdigit'"))
           | _ => raiseX (Client (AttributeError "object has no attribute 'isdigit'"))
           end in
    if digits then
      let+ limit := to_int fetch_limit in
      let+ info := db_retrieve_dict metadata_db table (ColsList cols) None None (Some limit) in
      retX (Some info)
    else if eq_str fetch_limit "all" then
      let+ info := db_retrieve_dict metadata_db table (ColsList cols) None None None in
      retX (Some info)
    else retX None.

Definition read_target_system (method : string) (metadata_db : Database)
    (fetch_limit source_payload : pyval) : MX pyval :=
  let+ target_info := read_target_info metadata_db fetch_limit source_payload in
  match target_info with
  | Some (row :: rows) =>
      get_response method true (PList (row :: rows)) source_payload None
  | Some [] =>
      get_response method false (PList []) source_payload
        (Some "The information about the resource DNE")
  | None =>
      get_response method false PNone source_payload
        (Some "The information about the resource DNE")
  end.

(** *** [aws-dl-fmwrk-target-system-api/lambda_function.py] *)

Variable update_target_system :
  string -> Database -> pyval -> list (string * string) -> MX pyval.

Definition read_target_sys (method : string) (metadata_db : Database)
    (event context : pyval) : MX pyval :=
  let+ message_body := getitemX event "body-json" in
  let api_call_type := "synchronous" in
  let+ fetch_limit := getitemX message_body "fetch_limit" in
  let+ source_payload := getitemX message_body "target_config" in
  let+ api_response := read_target_system method metadata_db fetch_limit source_payload in
  insert_event_to_dynamoDb event context api_call_type None ;;+
  retX api_response.

(** [update_target_sys]: the handler catches every exception of the
    update and prints it; the [finally] block then runs on either path. *)
Definition update_target_sys (method : string) (metadata_db redshift_db : Database)
    (event context : pyval) : MX pyval :=
  let+ message_body := getitemX event "body-json" in
  let api_call_type := "synchronous" in
  let+ target_config := getitemX message_body "target_config" in
  let+ api_response :=
    try_exceptX (update_target_system method metadata_db target_config global_config)
      (fun e => printX (str_raised e) ;;+ retX PNone) in
  let+ response := insert_event_to_dynamoDb event context api_call_type None in
  let+ code := getitemX response "statusCode" in
  setitem api_response "sourceCodeDynamoDb" code.

(** *** [aws-dl-fmwrk-data-asset-info-api/lambda_function.py] *)

Variable get_database : MX Database.

Definition asset_columns : list string :=
  ["asset_id"; "src_sys_id"; "target_id"; "file_header"; "multipartition"; "file_type";
   "asset_nm"; "source_path"; "target_path"; "trigger_file_pattern"; "file_delim";
   "file_encryption_ind"; "athena_table_name"; "asset_owner"; "support_cntct";
   "rs_load_ind"; "rs_stg_table_nm"].

Definition read_asset (event context : pyval) (database : Database) : MX pyval :=
  let+ message_body := getitemX event "body-json" in
  let api_call_type := "synchronous" in
  let+ src_sys_id := getitemX message_body "src_sys_id" in
  let where_clause := Where "src_sys_id=%s" [[src_sys_id]] in
  let+ outcome :=
    try_exceptX
      (let+ list_asset := db_retrieve_dict database "data_asset" (ColsList asset_columns)
                            (Some where_clause) None None in
       db_close database ;;+
       retX ("200", PList list_asset))
      (fun e =>
         db_close database ;;+
         printX (str_raised e) ;;+
         retX ("404", PDict [("error", PStr (str_raised e))])) in
  let+ response := insert_event_to_dynamoDb event context api_call_type None in
  let+ code := getitemX response "statusCode" in
  retX (PDict [("statusCode", PStr (fst outcome));
               ("sourceCodeDynamoDb", code);
               ("body", snd outcome)]).

(** The second segment of the resource path names the method. *)
Definition route (path : pyval) : MX (string * string) :=
  let+ path := as_str path in
  let resource := tail_str path in
  let+ taskType := item (split "/"%char resource) 0 in
  let+ method := item (split "/"%char resource) 1 in
  retX (taskType, method).

Definition lambda_handler (event context : pyval) : MX pyval :=
  let+ ctx := getitemX event "context" in
  let+ path := getitemX ctx "resource-path" in
  let+ tm := route path in
  let '(taskType, method) := tm in
  printX (display event) ;;+
  printX taskType ;;+
  printX method ;;+
  if truthy event then
    if String.eqb method "health" then
      retX (PDict [("statusCode", PStr "200"); ("body", PStr "API Health is good")])
    else if String.eqb method "read" then
      let+ db := get_database in
      read_asset event context db
    else retX (PDict [("statusCode", PStr "404"); ("body", PStr "Not found")])
  else retX PNone.

End Handlers.

(** The response [read_asset] builds, and the state after the three
    lines [lambda_handler] prints. *)
Definition asset_response (status : string) (code body : pyval) : pyval :=
  PDict [("statusCode", PStr status); ("sourceCodeDynamoDb", code); ("body", body)].

Definition announced (display : pyval -> string) (event : pyval)
    (taskType method : string) (st : State) : State :=
  set_stdout (fun o => (o ++ [method])%list)
    (set_stdout (fun o => (o ++ [taskType])%list)
       (set_stdout (fun o => (o ++ [display event])%list) st)).

(** Stand-ins for the helpers, for the concrete world. *)
Definition demo_display (v : pyval) : string := "<event>".

Definition demo_insert_event (event context : pyval) (api_call_type : string)
    (status : option string) : MX pyval :=
  retX (PDict [("statusCode", PInt 200)]).

Definition demo_get_response (method : string) (status : bool) (info payload : pyval)
    (message : option string) : MX pyval :=
  retX (PDict [("responseStatus", PBool status); ("body", info)]).

Definition demo_int (s : string) : option Z :=
  if String.eqb s "7" then Some 7 else None.

Definition demo_config : list (string * string) := [("target_sys_table", "target_system")].

Definition demo_update_fails (method : string) (db : Database) (target_config : pyval)
    (config : list (string * string)) : MX pyval :=
  raiseX (ValueError "no such target system").

(** A request on a path, with a body. *)
Definition request (path : string) (body : dict) : pyval :=
  PDict [("context", PDict [("resource-path", PStr path)]); ("body-json", PDict body)].

(** * Properties *)

Example select_all :
  _select "t" "*" (Some (Where "id=%s" [[PInt 1]])) (Some ["id"; "DESC"]) (Some 5) (Some 10)
  = "SELECT * FROM t WHERE id=%s ORDER BY id DESC LIMIT 5 OFFSET 10".
Proof. reflexivity. Qed.

Example demo_state_eq :
  demo_state =
  MkState
    (MkConnector "" (PDict demo_creds) (PStr "rs.example") (PInt 5439) (PStr "admin")
       (PStr "pw") "dev" (Some 0%nat) 0%nat)
    [MkSession "dev" (PStr "rs.example") (PInt 5439) (PStr "admin") (PStr "pw")
       false false [] []]
    [MkCursor 0 PlainCursor false None (-1)] [] [].
Proof. vm_compute. reflexivity. Qed.

(** ** Strings and slices *)

Lemma append_assoc (a b c : string) : (a ++ b) ++ c = a ++ (b ++ c).
Proof. induction a as [|x a IH]; simpl; [reflexivity | now rewrite IH]. Qed.

Lemma append_nil_r (a : string) : a ++ "" = a.
Proof. induction a as [|x a IH]; simpl; [reflexivity | now rewrite IH]. Qed.

Lemma slice_from_0 {A} (l : list A) : slice_from l 0 = l.
Proof.
  unfold slice_from. simpl.
  replace (Z.min 0 (Z.of_nat (length l))) with 0 by lia. reflexivity.
Qed.

(** A start of [len - n] with [0 <= n <= len] keeps the last [n] items. *)
Lemma slice_from_tail {A} (l : list A) (n : Z) :
  0 <= n <= Z.of_nat (length l) ->
  slice_from l (Z.of_nat (length l) - n) = lastn (Z.to_nat n) l.
Proof.
  intros Hn. unfold slice_from, lastn.
  destruct (Z.ltb_spec (Z.of_nat (length l) - n) 0) as [Hlt|Hge]; [lia|].
  f_equal. lia.
Qed.

Lemma lastn_all {A} (n : nat) (l : list A) : length l = n -> lastn n l = l.
Proof. intros <-. unfold lastn. now rewrite Nat.sub_diag. Qed.

(** ** The monad and the client *)

Ltac unfold_m :=
  unfold bind, ret, raise, modify, get, lift, try_except, print in *.

Section Client.

Variable E : Env.

Lemma cursor_execute_ok st cid c s sql params r :
  cursors st !! cid = Some c -> cur_closed c = false ->
  sessions st !! cur_conn c = Some s -> s_closed s = false ->
  server E (s_database s) sql params = inr r ->
  cursor_execute E cid sql params st = (Ok tt, ran cid (cur_conn c) sql params r st).
Proof.
  intros Hc Hco Hs Hso Hr.
  unfold cursor_execute, open_cursor, open_session. unfold_m. simpl.
  rewrite Hc, Hco. simpl. rewrite Hs, Hso, Hr. reflexivity.
Qed.

Lemma cursor_execute_err st cid c s sql params e :
  cursors st !! cid = Some c -> cur_closed c = false ->
  sessions st !! cur_conn c = Some s -> s_closed s = false ->
  server E (s_database s) sql params = inl e ->
  cursor_execute E cid sql params st
  = (Raise e, set_calls (fun cs => (cs ++ [(cid, sql, params)])%list) st).
Proof.
  intros Hc Hco Hs Hso Hr.
  unfold cursor_execute, open_cursor, open_session. unfold_m. simpl.
  rewrite Hc, Hco. simpl. rewrite Hs, Hso, Hr. reflexivity.
Qed.

(** Whatever happens, [cursor.execute] was called once with the text and
    the bind values, and the connector object and the output are as
    before. *)
Lemma cursor_execute_frame st cid sql params :
  let st' := snd (cursor_execute E cid sql params st) in
  calls st' = (calls st ++ [(cid, sql, params)])%list
  /\ self st' = self st /\ stdout st' = stdout st.
Proof.
  unfold cursor_execute, open_cursor, open_session. unfold_m. simpl.
  destruct (cursors st !! cid) as [c|]; simpl; [|auto].
  destruct (cur_closed c); simpl; [auto|].
  destruct (sessions st !! cur_conn c) as [s|]; simpl; [|auto].
  destruct (s_closed s); simpl; [auto|].
  destruct (server E (s_database s) sql params); simpl; auto.
Qed.

Lemma fetchall_frame st cid :
  let st' := snd (fetchall cid st) in
  calls st' = calls st /\ self st' = self st /\ stdout st' = stdout st.
Proof.
  unfold fetchall, open_cursor. unfold_m. simpl.
  destruct (cursors st !! cid) as [c|]; simpl; [|auto].
  destruct (cur_closed c); simpl; [auto|].
  destruct (cur_rows c); simpl; auto.
Qed.

Lemma fetchone_frame st cid :
  let st' := snd (fetchone cid st) in
  calls st' = calls st /\ self st' = self st /\ stdout st' = stdout st.
Proof.
  unfold fetchone, open_cursor. unfold_m. simpl.
  destruct (cursors st !! cid) as [c|]; simpl; [|auto].
  destruct (cur_closed c); simpl; [auto|].
  destruct (cur_rows c) as [[|row rest]|]; simpl; auto.
Qed.

Lemma rowcount_frame st cid : snd (rowcount cid st) = st.
Proof.
  unfold rowcount. unfold_m. destruct (cursors st !! cid); reflexivity.
Qed.

(** After a run, the cursor hands out the rows of the answer. *)
Lemma fetchall_ran st cid c sql params r rows :
  cursors st !! cid = Some c -> cur_closed c = false ->
  q_rows r = Some rows ->
  fst (fetchall cid (ran cid (cur_conn c) sql params r st))
  = Ok (map (shape (cur_factory c)) rows).
Proof.
  intros Hc Hco Hrows.
  unfold fetchall, open_cursor, ran. unfold_m. simpl.
  rewrite list_lookup_alter_eq, Hc. simpl. rewrite Hco. simpl.
  rewrite Hrows. reflexivity.
Qed.

Lemma fetchone_ran st cid c sql params r :
  cursors st !! cid = Some c -> cur_closed c = false ->
  fst (fetchone cid (ran cid (cur_conn c) sql params r st))
  = match q_rows r with
    | Some (row :: _) => Ok (shape (cur_factory c) row)
    | Some [] => Ok PNone
    | None => Raise no_results
    end.
Proof.
  intros Hc Hco.
  unfold fetchone, open_cursor, ran. unfold_m. simpl.
  rewrite list_lookup_alter_eq, Hc. simpl. rewrite Hco. simpl.
  destruct (q_rows r) as [[|row rest]|]; reflexivity.
Qed.

Lemma rowcount_ran st cid c sql params r :
  cursors st !! cid = Some c ->
  fst (rowcount cid (ran cid (cur_conn c) sql params r st)) = Ok (q_rowcount r).
Proof.
  intros Hc. unfold rowcount, ran. unfold_m. simpl.
  rewrite list_lookup_alter_eq, Hc. reflexivity.
Qed.

(** [_execute] in one step: the cursor's outcome, logged when it raises. *)
Lemma _execute_unfold st sql params :
  _execute E sql params st
  = match cursor_execute E (cursor (self st)) sql params st with
    | (Ok _, st') => (Ok (cursor (self st)), st')
    | (Raise e, st') =>
        (Raise e,
         set_stdout (fun o => (o ++ [("execute() failed due to: " ++ str_exn e)%string])%list)
           st')
    end.
Proof.
  unfold _execute. unfold_m.
  destruct (cursor_execute E (cursor (self st)) sql params st) as [[[]|e] st'];
    reflexivity.
Qed.

Lemma _execute_ok st c s sql params r :
  ready st c s -> server E (s_database s) sql params = inr r ->
  _execute E sql params st
  = (Ok (cursor (self st)), ran (cursor (self st)) (cur_conn c) sql params r st).
Proof.
  intros [Hc Hco Hs Hso] Hr. rewrite _execute_unfold.
  now rewrite (cursor_execute_ok _ _ _ _ _ _ _ Hc Hco Hs Hso Hr).
Qed.

Lemma _execute_err st c s sql params e :
  ready st c s -> server E (s_database s) sql params = inl e ->
  _execute E sql params st
  = (Raise e,
     set_stdout (fun o => (o ++ [("execute() failed due to: " ++ str_exn e)%string])%list)
       (set_calls (fun cs => (cs ++ [(cursor (self st), sql, params)])%list) st)).
Proof.
  intros [Hc Hco Hs Hso] Hr. rewrite _execute_unfold.
  now rewrite (cursor_execute_err _ _ _ _ _ _ _ Hc Hco Hs Hso Hr).
Qed.

(** Whatever happens, [_execute] hands exactly one call to the cursor. *)
Lemma _execute_frame st sql params :
  let st' := snd (_execute E sql params st) in
  calls st' = (calls st ++ [(cursor (self st), sql, params)])%list
  /\ self st' = self st.
Proof.
  pose proof (cursor_execute_frame st (cursor (self st)) sql params) as H.
  simpl in *. rewrite _execute_unfold.
  destruct (cursor_execute E (cursor (self st)) sql params st) as [[[]|e] st1];
    simpl in *; tauto.
Qed.

End Client.

(** ** Selects: clause order, limits and the final slice *)

Lemma _order_fragment order : _order order = SelectSpec.order_fragment order.
Proof.
  destruct order as [[|column [|direction rest]]|]; simpl; try reflexivity.
  now rewrite append_nil_r.
Qed.

Lemma _limit_fragment limit : _limit limit = SelectSpec.limit_fragment limit.
Proof.
  unfold _limit, SelectSpec.limit_fragment, SelectSpec.present.
  destruct limit as [n|]; simpl; [|reflexivity]. now destruct (n =? 0).
Qed.

Lemma _offset_fragment offset : _offset offset = SelectSpec.offset_fragment offset.
Proof.
  unfold _offset, SelectSpec.offset_fragment, SelectSpec.present.
  destruct offset as [n|]; simpl; [|reflexivity]. now destruct (n =? 0).
Qed.

(** C8. For every combination of the optional where, order, limit and
    offset inputs, the select builder produces the base SELECT clause
    followed, left to right, by the WHERE, ORDER BY, LIMIT and OFFSET
    fragments: each is its clause text when its input is present (supplied
    and truthy) and the empty string when it is absent. *)
Theorem select_fragments_in_order (table cols : string) (where_ : option where_t)
    (order : option (list string)) (limit offset : option Z) :
  _select table cols where_ order limit offset
  = SelectSpec.statement table cols where_ order limit offset.
Proof.
  unfold _select, SelectSpec.statement.
  rewrite _order_fragment, _limit_fragment, _offset_fragment.
  rewrite !append_assoc. reflexivity.
Qed.

Section Retrieve.

Variable E : Env.

(** [retrieve] on a ready connector whose statement the server answers
    with a result set: the fetched rows, sliced. *)
Lemma retrieve_ok st c s table cols where_ order limit rows rc :
  ready st c s ->
  server E (s_database s)
    (_select table (retrieve_columns cols) where_ order limit None)
    (where_params where_) = inr (QResult (Some rows) rc) ->
  let fetched := map (shape (cur_factory c)) rows in
  fst (retrieve E table cols where_ order limit st)
  = Ok (slice_from fetched (retrieve_start fetched limit)).
Proof.
  intros Hready Hserver fetched. unfold retrieve. unfold bind at 1.
  rewrite (_execute_ok E _ _ _ _ _ _ Hready Hserver).
  pose proof (fetchall_ran st (cursor (self st)) c
                (_select table (retrieve_columns cols) where_ order limit None)
                (where_params where_) (QResult (Some rows) rc) rows
                (ready_cursor _ _ _ Hready) (ready_cursor_open _ _ _ Hready) eq_refl) as Hf.
  unfold bind.
  destruct (fetchall _ _) as [o st2]. simpl in Hf. subst o. reflexivity.
Qed.

(** With a limit that is not zero, the statement is the unlimited one
    followed by the LIMIT clause. *)
Lemma select_limit_suffix table cols where_ order n :
  n <> 0 ->
  _select table cols where_ order (Some n) None
  = _select table cols where_ order None None ++ " LIMIT " ++ fmt_d n.
Proof.
  intros Hn. unfold _select.
  assert (HL : _limit (Some n) = " LIMIT " ++ fmt_d n).
  { unfold _limit. simpl. now destruct (Z.eqb_spec n 0). }
  rewrite HL. change (_limit None) with "". change (_offset None) with "".
  now rewrite !append_nil_r, !append_assoc.
Qed.

(** [retrieve] hands the cursor one call, whatever comes of it: its
    select statement and the bind values of the where argument. *)
Lemma retrieve_calls st table cols where_ order limit :
  calls (snd (retrieve E table cols where_ order limit st))
  = (calls st ++ [(cursor (self st),
                   _select table (retrieve_columns cols) where_ order limit None,
                   where_params where_)])%list.
Proof.
  unfold retrieve. cbv zeta. unfold bind at 1.
  pose proof (_execute_frame E st
                (_select table (retrieve_columns cols) where_ order limit None)
                (where_params where_)) as [Hcalls _].
  destruct (_execute E _ _ st) as [[cur|e] st1]; simpl in *; [|exact Hcalls].
  unfold bind. pose proof (fetchall_frame st1 cur) as [Hf _].
  destruct (fetchall cur st1) as [[rows|e] st2]; simpl in *; congruence.
Qed.

(** C1, as the code has it.  [retrieve] with [limit = n], [n >= 1],
    executes one statement, the unlimited statement followed by
    [LIMIT n], and returns the last [n] of the rows fetched for it,
    whatever rows the server answers, as long as there are [n] or more.
    On a server that honours the clause, with an unlimited result of
    [m >= n] rows, the fetched rows are the first [n] rows of the
    unlimited result, the in-memory tail is all of them, and the
    returned sequence is exactly the first [n] rows of the unlimited
    result. *)
Theorem retrieve_limit_returns_head st c s table cols where_ order n fetched rc :
  ready st c s ->
  0 < n ->
  let q := _select table (retrieve_columns cols) where_ order None None in
  server E (s_database s) (q ++ " LIMIT " ++ fmt_d n) (where_params where_)
    = inr (QResult (Some fetched) rc) ->
  (Z.to_nat n <= length fetched)%nat ->
  let rows_of := map (shape (cur_factory c)) in
  let r := retrieve E table cols where_ order (Some n) st in
  calls (snd r)
  = (calls st ++ [(cursor (self st), (q ++ " LIMIT " ++ fmt_d n)%string,
                   where_params where_)])%list
  /\ fst r = Ok (lastn (Z.to_nat n) (rows_of fetched))
  /\ forall unl m,
       server E (s_database s) q (where_params where_) = inr (QResult (Some unl) m) ->
       fetched = firstn (Z.to_nat n) unl ->
       fst (retrieve E table cols where_ order None st) = Ok (rows_of unl)
       /\ fst r = Ok (firstn (Z.to_nat n) (rows_of unl)).
Proof.
  intros Hready Hn q Hlim Hsize rows_of r. subst q r.
  assert (Htail : fst (retrieve E table cols where_ order (Some n) st)
                  = Ok (lastn (Z.to_nat n) (rows_of fetched))).
  { rewrite <- (select_limit_suffix table (retrieve_columns cols) where_ order n) in Hlim
      by lia.
    rewrite (retrieve_ok _ _ _ _ _ _ _ _ _ _ Hready Hlim). fold rows_of.
    unfold retrieve_start. simpl.
    destruct (Z.eqb_spec n 0) as [|_]; [lia|]. simpl.
    rewrite slice_from_tail; [reflexivity|].
    unfold rows_of. rewrite length_map. lia. }
  split; [|split].
  - rewrite retrieve_calls.
    now rewrite (select_limit_suffix table (retrieve_columns cols) where_ order n) by lia.
  - exact Htail.
  - intros unl m Hunl Hfetched. split.
    + rewrite (retrieve_ok _ _ _ _ _ _ _ _ _ _ Hready Hunl). fold rows_of.
      simpl. now rewrite slice_from_0.
    + rewrite Htail. rewrite lastn_all.
      * unfold rows_of. now rewrite Hfetched, firstn_map.
      * unfold rows_of. rewrite length_map.
        assert (length fetched <= Z.to_nat n)%nat
          by (rewrite Hfetched, length_firstn; lia).
        lia.
Qed.

(** C10. A limit of 0 or an offset of 0 is treated as absent: the LIMIT
    and OFFSET builders return the empty string for 0, the statement of
    [retrieve] with [limit = 0] is the unlimited one, and [retrieve]
    returns every fetched row. *)
Theorem zero_limit_is_absent st c s table cols where_ order rows rc :
  ready st c s ->
  server E (s_database s)
    (_select table (retrieve_columns cols) where_ order None None)
    (where_params where_) = inr (QResult (Some rows) rc) ->
  _limit (Some 0) = ""
  /\ _offset (Some 0) = ""
  /\ _select table (retrieve_columns cols) where_ order (Some 0) None
     = _select table (retrieve_columns cols) where_ order None None
  /\ fst (retrieve E table cols where_ order (Some 0) st)
     = Ok (map (shape (cur_factory c)) rows).
Proof.
  intros Hready Hserver. repeat split.
  change (_select table (retrieve_columns cols) where_ order None None)
    with (_select table (retrieve_columns cols) where_ order (Some 0) None) in Hserver.
  rewrite (retrieve_ok _ _ _ _ _ _ _ _ _ _ Hready Hserver).
  simpl. now rewrite slice_from_0.
Qed.

End Retrieve.

(** The connector of the concrete world is ready. *)
Lemma demo_ready :
  ready demo_state (MkCursor 0 PlainCursor false None (-1))
    (MkSession "dev" (PStr "rs.example") (PInt 5439) (PStr "admin") (PStr "pw")
       false false [] []).
Proof. split; reflexivity. Qed.

Lemma retrieve_limit_returns_head_witness :
  calls (snd (retrieve demo_env "t" (ColsStr "all") None None (Some 2) demo_state))
  = [(0%nat, "SELECT * FROM t LIMIT 2", None)]
  /\ fst (retrieve demo_env "t" (ColsStr "all") None None (Some 2) demo_state)
     = Ok (firstn 2 (map (shape PlainCursor) t_rows)).
Proof.
  pose proof (retrieve_limit_returns_head demo_env demo_state _ _ "t" (ColsStr "all")
                None None 2 (firstn 2 t_rows) 2 demo_ready eq_refl eq_refl
                (le_n 2)) as H.
  split; [exact (proj1 H)|].
  exact (proj2 (proj2 (proj2 H) t_rows 3 eq_refl eq_refl)).
Defined.

(** C1, as stated, fails: on the three-row table, [retrieve] with
    [limit = 2] returns rows 1 and 2, the head of the unlimited result,
    while its last two rows are rows 2 and 3. *)
Lemma retrieve_limit_not_the_tail :
  let unlimited :=
    [PTuple [PInt 1; PStr "a"]; PTuple [PInt 2; PStr "b"]; PTuple [PInt 3; PStr "c"]] in
  fst (retrieve demo_env "t" (ColsStr "all") None None None demo_state) = Ok unlimited
  /\ fst (retrieve demo_env "t" (ColsStr "all") None None (Some 2) demo_state)
     = Ok [PTuple [PInt 1; PStr "a"]; PTuple [PInt 2; PStr "b"]]
  /\ lastn 2 unlimited = [PTuple [PInt 2; PStr "b"]; PTuple [PInt 3; PStr "c"]]
  /\ fst (retrieve demo_env "t" (ColsStr "all") None None (Some 2) demo_state)
     <> Ok (lastn 2 unlimited).
Proof.
  cbv zeta. repeat split; try (vm_compute; reflexivity).
  vm_compute. discriminate.
Qed.

(** Below the claim's range, the final slice does drop rows: with three
    matching rows and [limit = 5] the start is [3 - 5 = -2], and only the
    last two rows are returned. *)
Example retrieve_limit_above_result :
  fst (retrieve demo_env "t" (ColsStr "all") None None (Some 5) demo_state)
  = Ok [PTuple [PInt 2; PStr "b"]; PTuple [PInt 3; PStr "c"]].
Proof. reflexivity. Qed.

Lemma zero_limit_is_absent_witness :
  fst (retrieve demo_env "t" (ColsStr "all") None None (Some 0) demo_state)
  = Ok (map (shape PlainCursor) t_rows).
Proof.
  refine (proj2 (proj2 (proj2
    (zero_limit_is_absent demo_env demo_state _ _ "t" (ColsStr "all") None None
       t_rows 3 demo_ready _)))).
  reflexivity.
Defined.

(** ** Joining and splitting at a separator character *)

Lemma split_free (c : ascii) (w : string) :
  has_char c w = false -> split c w = [w].
Proof.
  induction w as [|a w IH]; simpl; [reflexivity|].
  intros H. apply orb_false_iff in H as [Ha Hw].
  rewrite Ha, (IH Hw). reflexivity.
Qed.

Lemma split_app_sep (c : ascii) (w rest : string) :
  has_char c w = false ->
  split c (w ++ String c rest) = w :: split c rest.
Proof.
  induction w as [|a w IH]; simpl.
  - intros _. now rewrite Ascii.eqb_refl.
  - intros H. apply orb_false_iff in H as [Ha Hw].
    rewrite Ha, (IH Hw). reflexivity.
Qed.

(** Splitting a comma-joined text gives the items back, when there is
    at least one item and no item holds a comma. *)
Lemma split_join (l : list string) :
  l <> [] -> forallb (fun w => negb (has_char comma w)) l = true ->
  split comma (join "," l) = l.
Proof.
  induction l as [|w l IH]; [congruence|]. intros _ Hfree.
  simpl in Hfree. apply andb_true_iff in Hfree as [Hw Hl].
  apply negb_true_iff in Hw.
  destruct l as [|w' l]; [now apply split_free|].
  change (join "," (w :: w' :: l)) with (w ++ String comma (join "," (w' :: l))).
  rewrite (split_app_sep _ _ _ Hw). f_equal. now apply IH.
Qed.

Lemma placeholders_repeat (data : dict) :
  map (fun _ : string * pyval => "%s") data = repeat "%s" (length data).
Proof. induction data as [|kv data IH]; simpl; [reflexivity | now rewrite IH]. Qed.

Lemma repeat_free (n : nat) :
  forallb (fun w => negb (has_char comma w)) (repeat "%s" n) = true.
Proof. induction n as [|n IH]; simpl; [reflexivity | exact IH]. Qed.

(** ** Inserts and updates *)

Section Writes.

Variable E : Env.

(** [update] hands the cursor one call: its statement and bind values. *)
Lemma update_calls st table data where_ returning :
  calls (snd (update E table data where_ returning st))
  = (calls st ++ [(cursor (self st), update_sql table data where_ returning,
                   Some (update_params data where_))])%list.
Proof.
  unfold update. unfold bind at 1.
  pose proof (_execute_frame E st (update_sql table data where_ returning)
                (Some (update_params data where_))) as [Hcalls _].
  destruct (_execute E _ _ st) as [[cur|e] st1]; simpl in *; [|exact Hcalls].
  destruct (requested returning); unfold bind.
  - pose proof (fetchall_frame st1 cur) as [Hf _].
    destruct (fetchall cur st1) as [[rows|e] st2]; simpl in *; congruence.
  - pose proof (rowcount_frame st1 cur) as Hr.
    destruct (rowcount cur st1) as [[n|e] st2]; simpl in *; congruence.
Qed.

(** C2. With a where pair, the bind sequence [update] passes to
    execution is the values of [data] followed by the where condition's
    values, matching the placeholder order of the statement (SET before
    WHERE); with no where pair it is the values of [data] alone. *)
Theorem update_binds_data_then_where st table data predicate vals returning :
  calls (snd (update E table data (Some (Where predicate [vals])) returning st))
  = (calls st ++
     [(cursor (self st),
       ("UPDATE " ++ table ++ " SET " ++ _format_update data
        ++ " WHERE " ++ predicate ++ _returning returning)%string,
       Some (values data ++ vals))])%list
  /\ calls (snd (update E table data None returning st))
     = (calls st ++
        [(cursor (self st),
          ("UPDATE " ++ table ++ " SET " ++ _format_update data
           ++ _returning returning)%string,
          Some (values data))])%list.
Proof.
  split; rewrite update_calls; reflexivity.
Qed.

(** [insert] on a ready connector whose statement the server accepts. *)
Lemma insert_ok st c s table data returning r :
  ready st c s ->
  server E (s_database s) (insert_sql table data returning) (Some (values data)) = inr r ->
  fst (insert E table data returning st)
  = if requested returning then
      match q_rows r with
      | Some (row :: _) => Ok (shape (cur_factory c) row)
      | Some [] => Ok PNone
      | None => Raise no_results
      end
    else Ok (PInt (q_rowcount r)).
Proof.
  intros Hready Hserver. unfold insert. unfold bind at 1.
  rewrite (_execute_ok E _ _ _ _ _ _ Hready Hserver).
  destruct Hready as [Hc Hco _ _].
  destruct (requested returning).
  - apply (fetchone_ran st _ c _ _ r Hc Hco).
  - unfold bind.
    pose proof (rowcount_ran st _ c (insert_sql table data returning)
                  (Some (values data)) r Hc) as Hn.
    destruct (rowcount _ _) as [[n|e] st2]; simpl in *; congruence.
Qed.

(** C3, as the code has it.  For a non-empty mapping none of whose keys
    holds a comma, the statement [insert] executes lists the keys of
    [data] as its columns, in iteration order, and one [%s] per key as
    its placeholders, so both lists have the length of [data]; and
    [insert] returns the RETURNING row when returning is requested, else
    the affected-row count. *)
Theorem insert_columns_placeholders_result st c s table data returning r :
  data <> [] ->
  forallb (fun k => negb (has_char comma k)) (keys data) = true ->
  ready st c s ->
  server E (s_database s) (insert_sql table data returning) (Some (values data)) = inr r ->
  calls (snd (insert E table data returning st))
  = (calls st ++
     [(cursor (self st),
       ("INSERT INTO " ++ table ++ " (" ++ fst (_format_insert data) ++ ") VALUES("
        ++ snd (_format_insert data) ++ ")" ++ _returning returning)%string,
       Some (values data))])%list
  /\ split comma (fst (_format_insert data)) = keys data
  /\ split comma (snd (_format_insert data)) = repeat "%s" (length (keys data))
  /\ length (split comma (fst (_format_insert data)))
     = length (split comma (snd (_format_insert data)))
  /\ length (split comma (fst (_format_insert data))) = length data
  /\ fst (insert E table data returning st)
     = if requested returning then
         match q_rows r with
         | Some (row :: _) => Ok (shape (cur_factory c) row)
         | Some [] => Ok PNone
         | None => Raise no_results
         end
       else Ok (PInt (q_rowcount r)).
Proof.
  intros Hne Hfree Hready Hserver.
  assert (Hdata : keys data <> []) by (destruct data; [congruence | discriminate]).
  assert (Hlen : length (keys data) = length data) by apply length_map.
  assert (Hcols : split comma (fst (_format_insert data)) = keys data)
    by (apply split_join; assumption).
  assert (Hvals : split comma (snd (_format_insert data))
                  = repeat "%s" (length (keys data))).
  { simpl. rewrite placeholders_repeat, Hlen. apply split_join.
    - destruct data; [congruence | discriminate].
    - apply repeat_free. }
  repeat match goal with |- _ /\ _ => split end.
  - unfold insert. unfold bind at 1.
    rewrite (_execute_ok E _ _ _ _ _ _ Hready Hserver).
    destruct Hready as [Hc Hco _ _].
    destruct (requested returning); unfold bind.
    + pose proof (fetchone_frame (ran (cursor (self st)) (cur_conn c)
                     (insert_sql table data returning) (Some (values data)) r st)
                    (cursor (self st))) as [Hf _].
      simpl in Hf. exact Hf.
    + pose proof (rowcount_frame (ran (cursor (self st)) (cur_conn c)
                     (insert_sql table data returning) (Some (values data)) r st)
                    (cursor (self st))) as Hf.
      destruct (rowcount _ _) as [[n|e] st2]; simpl in *; subst st2; reflexivity.
  - exact Hcols.
  - exact Hvals.
  - now rewrite Hcols, Hvals, repeat_length.
  - now rewrite Hcols.
  - exact (insert_ok _ _ _ _ _ _ _ Hready Hserver).
Qed.

End Writes.

Lemma insert_columns_placeholders_result_witness :
  split comma (fst (_format_insert [("id", PInt 4); ("name", PStr "d")])) = ["id"; "name"]
  /\ split comma (snd (_format_insert [("id", PInt 4); ("name", PStr "d")])) = ["%s"; "%s"]
  /\ fst (insert demo_env "t" [("id", PInt 4); ("name", PStr "d")] (Some "id") demo_state)
     = Ok (PTuple [PInt 4]).
Proof.
  pose proof (insert_columns_placeholders_result demo_env demo_state _ _ "t"
                [("id", PInt 4); ("name", PStr "d")] (Some "id")
                (QResult (Some [[("id", PInt 4)]]) 1)
                ltac:(discriminate) eq_refl demo_ready eq_refl) as H.
  split; [exact (proj1 (proj2 H))|].
  split; [exact (proj1 (proj2 (proj2 H)))|].
  exact (proj2 (proj2 (proj2 (proj2 (proj2 H))))).
Defined.

(** C3, as stated, fails for a key that holds a comma: the statement
    [insert] executes for the one-key mapping [{"a,b": 1}] lists two
    columns and one placeholder. *)
Lemma insert_comma_key_splits_columns :
  calls (snd (insert demo_env "t" [("a,b", PInt 1)] None demo_state))
  = [(0%nat, "INSERT INTO t (a,b) VALUES(%s)", Some [PInt 1])]
  /\ split comma (fst (_format_insert [("a,b", PInt 1)])) = ["a"; "b"]
  /\ split comma (snd (_format_insert [("a,b", PInt 1)])) = ["%s"]
  /\ length (keys [("a,b", PInt 1)]) = 1%nat.
Proof. repeat split. Qed.

(** ** Credentials *)

Section Credentials.

Variable E : Env.

Lemma client_error_diagnostic_prints sid code e st :
  fst (client_error_diagnostic sid code e st) = Ok tt
  /\ if recognised_code code
     then exists line,
         stdout (snd (client_error_diagnostic sid code e st)) = (stdout st ++ [line])%list
     else snd (client_error_diagnostic sid code e st) = st.
Proof.
  unfold client_error_diagnostic, recognised_code, in_strs. simpl.
  repeat (match goal with
          | |- context [String.eqb code ?k] => destruct (String.eqb code k)
          end; simpl; [split; [reflexivity | eexists; reflexivity] |]).
  split; reflexivity.
Qed.

(** C4, as the code has it.  [get_credentials] never returns [None].
    When resolution produces no credential mapping through a ClientError,
    a response without a secret string or a JSON null secret, it fails
    with an assertion failure; a diagnostic is printed first only for a
    ClientError whose code is one of the five recognised ones.  A
    retrieval failure that is not a ClientError propagates as itself,
    with nothing printed. *)
Theorem get_credentials_asserts_or_propagates st :
  let r := get_credentials E st in
  match fst r with Ok PNone => False | _ => True end
  /\ match get_secret_value E (secret_id (self st)) with
     | inl (ClientError code msg) =>
         fst r = Raise AssertionError
         /\ if recognised_code code
            then exists line, stdout (snd r) = (stdout st ++ [line])%list
            else stdout (snd r) = stdout st
     | inl e => r = (Raise e, st)
     | inr response =>
         match dict_get response "SecretString" with
         | None => r = (Raise AssertionError, st)
         | Some (PStr secret) =>
             match json_loads E secret with
             | inr PNone => r = (Raise AssertionError, st)
             | inr cred => r = (Ok cred, st)
             | inl e => r = (Raise e, st)
             end
         | Some _ => exists msg, r = (Raise (TypeError msg), st)
         end
     end.
Proof.
  unfold get_credentials. unfold bind at 1, get. unfold bind.
  destruct (get_secret_value E (secret_id (self st))) as [e|response].
  - destruct e; try (split; [exact I | reflexivity]).
    pose proof (client_error_diagnostic_prints (secret_id (self st)) code
                  (ClientError code msg) st) as [Hok Hout].
    destruct (client_error_diagnostic _ _ _ st) as [[[]|e] st1]; simpl in *;
      [|discriminate].
    unfold ret, raise. simpl. split; [exact I|]. split; [reflexivity|].
    destruct (recognised_code code); [exact Hout | now subst st1].
  - destruct (dict_get response "SecretString") as [[| | |secret| | | |]|];
      try (split; [exact I | eexists; reflexivity]);
      try (split; [exact I | reflexivity]).
    unfold lift. destruct (json_loads E secret) as [e|[]];
      split; try exact I; reflexivity.
Qed.

End Credentials.

(** C4, as stated, fails in each of its two halves.  A response with no
    secret string and a ClientError with an unrecognised code end in the
    assertion failure with nothing printed; a failure that is not a
    ClientError surfaces as itself, not as an assertion failure. *)
Lemma get_credentials_silent_or_not_assertion :
  let on secret := get_credentials demo_env (set_self (with_secret_id secret) demo_state) in
  dict_get [("Name", PStr "rs/binary"); ("SecretBinary", PStr "AAEC")] "SecretString" = None
  /\ fst (on "rs/binary") = Raise AssertionError
  /\ stdout (snd (on "rs/binary")) = []
  /\ fst (on "rs/denied") = Raise AssertionError
  /\ stdout (snd (on "rs/denied")) = []
  /\ fst (on "rs/unreachable") = Raise (BotoCoreError "Could not connect to the endpoint URL")
  /\ stdout (snd (on "rs/unreachable")) = [].
Proof. cbv zeta. repeat split. Qed.

(** ** Switching databases *)

Section Switch.

Variable E : Env.

(** [_init_conn] with a credentials dict that holds the four keys:
    the attributes are set and a session to the database is opened. *)
Lemma _init_conn_ok st d h p u pw db_ :
  dict_get d "host" = Some h -> dict_get d "port" = Some p ->
  dict_get d "username" = Some u -> dict_get d "password" = Some pw ->
  connect_error E h p db_ u pw = None ->
  _init_conn E db_ (PDict d) st
  = (Ok (length (sessions st)),
     set_sessions (fun ss => (ss ++ [MkSession db_ h p u pw false false [] []])%list)
       (set_self (fun o => with_db db_ (with_pwd pw (with_user u (with_port p (with_host h o)))))
          st)).
Proof.
  intros Hh Hp Hu Hpw Hconnect.
  unfold _init_conn, getitem, connect. unfold_m. simpl.
  rewrite Hh, Hp, Hu, Hpw. simpl. rewrite Hconnect. reflexivity.
Qed.


End Switch.

Lemma demo_connected :
  connected demo_state 0
    (MkSession "dev" (PStr "rs.example") (PInt 5439) (PStr "admin") (PStr "pw")
       false false [] []).
Proof. split; reflexivity. Qed.



(** ** Raw statements: the cursor class of [execute] *)

Lemma execute_factory_dict (return_type : pyval) :
  execute_factory return_type = RealDictCursor.
Proof.
  unfold execute_factory, py_or. simpl.
  destruct (eq_str return_type "d"); reflexivity.
Qed.

Lemma shape_dict_mapping rows :
  forallb is_mapping (map (shape RealDictCursor) rows) = true.
Proof. induction rows as [|row rows IH]; simpl; [reflexivity | exact IH]. Qed.

Section Execute.

Variable E : Env.

(** C6. Whatever [return_type] is, [None] included, the cursor-selection
    test of [execute] chooses the dict cursor, so the plain-cursor branch
    is never taken; with [return_type = None] the rows come back as the
    dict cursor's column-name mappings, not as positional tuples. *)
Theorem execute_always_dict_mode st c s sql return_type rows rc :
  connected st c s ->
  server E (s_database s) sql None = inr (QResult (Some rows) rc) ->
  execute_factory return_type = RealDictCursor
  /\ fst (execute E sql PNone st) = Ok (map (shape RealDictCursor) rows)
  /\ forallb is_mapping (map (shape RealDictCursor) rows) = true
  /\ existsb is_tuple (map (shape RealDictCursor) rows) = false.
Proof.
  intros [Hconn Hs Hopen] Hserver.
  split; [apply execute_factory_dict|]. split; [|split].
  - set (cid := length (cursors st)).
    set (cur := MkCursor c RealDictCursor false None (-1)).
    set (st1 := set_cursors (fun cs => (cs ++ [cur])%list) st).
    assert (Hcur : cursors st1 !! cid = Some cur)
      by (apply list_lookup_middle; reflexivity).
    assert (Hrun : fst (execute E sql PNone st)
                   = fst (fetchall cid (ran cid c sql None (QResult (Some rows) rc) st1))).
    { unfold execute, self_conn, conn_cursor, open_session. unfold_m. simpl.
      rewrite Hconn. simpl. rewrite Hs, Hopen. simpl.
      change (execute_factory PNone) with RealDictCursor. fold cur. fold st1. fold cid.
      rewrite (cursor_execute_ok E st1 cid cur s sql None _ Hcur eq_refl Hs Hopen Hserver).
      change (cur_conn cur) with c. destruct (fetchall cid _) as [[fetched|e] st2]; reflexivity. }
    rewrite Hrun.
    exact (fetchall_ran st1 cid cur sql None (QResult (Some rows) rc) rows
             Hcur eq_refl eq_refl).
  - apply shape_dict_mapping.
  - induction rows as [|row rows' IH]; [reflexivity|]. simpl.
    clear -rows'. induction rows' as [|row' rows' IH]; simpl; [reflexivity | exact IH].
Qed.

End Execute.

Lemma execute_always_dict_mode_witness :
  execute_factory PNone = RealDictCursor
  /\ fst (execute demo_env "SELECT * FROM t" PNone demo_state)
     = Ok [PRealDictRow [("id", PInt 1); ("name", PStr "a")];
           PRealDictRow [("id", PInt 2); ("name", PStr "b")];
           PRealDictRow [("id", PInt 3); ("name", PStr "c")]].
Proof.
  pose proof (execute_always_dict_mode demo_env demo_state 0 _ "SELECT * FROM t" PNone
                t_rows 3 demo_connected eq_refl) as H.
  split; [exact (proj1 H) | exact (proj1 (proj2 H))].
Defined.

(** ** CREATE TABLE from a columnar schema *)

Lemma rstrip_app (c : ascii) (x y : string) :
  rstrip c y <> "" -> rstrip c (x ++ y) = x ++ rstrip c y.
Proof.
  intros Hy. induction x as [|a x IH]; simpl; [reflexivity|].
  rewrite IH. destruct (x ++ rstrip c y) eqn:Hxy; [|reflexivity].
  destruct x; simpl in Hxy; [contradiction | discriminate].
Qed.

Lemma column_def_settled column tag datatype :
  DTYPES tag = Some datatype -> settled (CreateTableSpec.column_def column datatype).
Proof.
  intros Htag.
  assert (Htail : rstrip comma ((" " ++ datatype) ++ ",") = " " ++ datatype).
  { unfold DTYPES in Htag.
    repeat (match type of Htag with
            | (if ?b then _ else _) = _ => destruct b
            end; [injection Htag as <-; reflexivity|]).
    discriminate. }
  unfold settled, CreateTableSpec.column_def.
  set (name := if in_strs column RESERVED_KEYWORDS
               then dquote ++ column ++ dquote else column).
  split.
  - rewrite append_assoc, rstrip_app; rewrite Htail; [reflexivity | discriminate].
  - destruct name; discriminate.
Qed.

Lemma column_entry_def column datatype :
  column_entry column datatype = CreateTableSpec.column_def column datatype ++ ",".
Proof.
  unfold column_entry, CreateTableSpec.column_def.
  destruct (in_strs column RESERVED_KEYWORDS); simpl negb; cbv iota;
    now rewrite !append_assoc.
Qed.

Lemma table_schema_loop_spec fields acc :
  table_schema_loop fields acc
  = match CreateTableSpec.column_defs fields with
    | inl e => inl e
    | inr defs => inr (acc ++ entries defs)
    end.
Proof.
  revert acc. induction fields as [|[column tag] fields IH]; intros acc; simpl.
  - now rewrite append_nil_r.
  - destruct (DTYPES tag) as [datatype|]; [|reflexivity].
    rewrite IH. destruct (CreateTableSpec.column_defs fields) as [e|defs]; [reflexivity|].
    simpl. now rewrite column_entry_def, !append_assoc.
Qed.

Lemma column_defs_settled fields defs :
  CreateTableSpec.column_defs fields = inr defs -> Forall settled defs.
Proof.
  revert defs. induction fields as [|[column tag] fields IH]; intros defs; simpl.
  - intros [= <-]. constructor.
  - destruct (DTYPES tag) as [datatype|] eqn:Htag; [|discriminate].
    destruct (CreateTableSpec.column_defs fields) as [e|defs']; [discriminate|].
    intros [= <-]. constructor; [now apply (column_def_settled _ tag) | now apply IH].
Qed.

Lemma column_defs_unknown fields e :
  CreateTableSpec.column_defs fields = inl e ->
  exists tag, e = KeyError tag /\ In tag (map snd fields) /\ DTYPES tag = None.
Proof.
  induction fields as [|[column tag] fields IH]; simpl; [discriminate|].
  destruct (DTYPES tag) as [datatype|] eqn:Htag.
  - destruct (CreateTableSpec.column_defs fields) as [e'|defs]; [|discriminate].
    intros [= <-]. destruct (IH eq_refl) as (t & He & Hin & Hnone).
    exists t. auto.
  - intros [= <-]. exists tag. auto.
Qed.

Lemma join_nonempty d l : d <> "" -> join "," (d :: l) <> "".
Proof.
  intros Hd. destruct d; [contradiction|]. destruct l; simpl; discriminate.
Qed.

(** The final [rstrip] turns the accumulated entries into the
    comma-joined column definitions. *)
Lemma rstrip_entries defs :
  Forall settled defs -> rstrip comma (entries defs) = join "," defs.
Proof.
  induction 1 as [|d defs [Hd Hne] Hdefs IH]; [reflexivity|].
  destruct defs as [|d' defs].
  - simpl. exact Hd.
  - change (entries (d :: d' :: defs)) with (d ++ "," ++ entries (d' :: defs)).
    change (join "," (d :: d' :: defs)) with (d ++ "," ++ join "," (d' :: defs)).
    assert (Hrest : rstrip comma (entries (d' :: defs)) <> "").
    { rewrite IH. apply join_nonempty. inversion Hdefs as [|? ? [_ Hd'] _]. exact Hd'. }
    rewrite <- append_assoc, rstrip_app by exact Hrest.
    now rewrite IH, append_assoc.
Qed.

(** The definition of a column whose tag is in the fixed table, written
    out, and the column definitions of a schema all of whose tags are. *)
Lemma column_defs_known fields :
  Forall (fun f => In (snd f) ["string"; "int"; "integer"; "double"]) fields ->
  CreateTableSpec.column_defs fields
  = inr (map (fun f =>
                (if String.eqb (fst f) "year" then dquote ++ fst f ++ dquote else fst f)
                ++ " "
                ++ (if String.eqb (snd f) "string" then "VARCHAR(256)"
                    else if String.eqb (snd f) "double" then "NUMERIC(18,0)"
                    else "INTEGER")) fields).
Proof.
  induction 1 as [|[column tag] fields Hknown _ IH]; [reflexivity|].
  simpl CreateTableSpec.column_defs. rewrite IH. cbn [map fst snd].
  assert (Hname : in_strs column RESERVED_KEYWORDS = String.eqb column "year").
  { unfold in_strs, RESERVED_KEYWORDS. simpl. now rewrite orb_false_r. }
  unfold CreateTableSpec.column_def. rewrite Hname.
  simpl in Hknown.
  destruct Hknown as [<-|[<-|[<-|[<-|[]]]]]; reflexivity.
Qed.

(** The first tag outside the table stops the loop. *)
Lemma column_defs_first_unknown before column tag after :
  Forall (fun f => In (snd f) ["string"; "int"; "integer"; "double"]) before ->
  ~ In tag ["string"; "int"; "integer"; "double"] ->
  CreateTableSpec.column_defs (before ++ (column, tag) :: after) = inl (KeyError tag).
Proof.
  intros Hbefore Htag.
  assert (Hnone : DTYPES tag = None).
  { unfold DTYPES.
    destruct (String.eqb_spec tag "string") as [->|_]; [exfalso; apply Htag; simpl; tauto|].
    destruct (String.eqb_spec tag "int") as [->|_]; [exfalso; apply Htag; simpl; tauto|].
    destruct (String.eqb_spec tag "integer") as [->|_];
      [exfalso; apply Htag; simpl; tauto|].
    destruct (String.eqb_spec tag "double") as [->|_];
      [exfalso; apply Htag; simpl; tauto|].
    reflexivity. }
  induction Hbefore as [|[column' tag'] before Hknown _ IH].
  - simpl. now rewrite Hnone.
  - simpl. rewrite IH. simpl in Hknown.
    destruct Hknown as [<-|[<-|[<-|[<-|[]]]]]; reflexivity.
Qed.

Section CreateTable.

Variable E : Env.

(** C7. For a schema all of whose type tags are in the fixed table,
    [create_table] executes one statement, whose text lists the columns
    in order, comma-separated: the column name, double-quoted when it is
    the reserved word [year] and as it is otherwise, a space, and the
    SQL type of the tag (string: VARCHAR(256), int and integer: INTEGER,
    double: NUMERIC(18,0)).  At the first tag outside the table it raises
    a key error for that tag, and no statement is executed. *)
Theorem create_table_quotes_and_maps_types st dtypes db_schema table_name pk_column :
  let known tag := In tag ["string"; "int"; "integer"; "double"] in
  let sql_type tag :=
    if String.eqb tag "string" then "VARCHAR(256)"
    else if String.eqb tag "double" then "NUMERIC(18,0)"
    else "INTEGER" in
  let emitted (f : string * string) :=
    (if String.eqb (fst f) "year" then dquote ++ fst f ++ dquote else fst f)
    ++ " " ++ sql_type (snd f) in
  let closing :=
    match pk_column with
    | Some pk => if String.eqb pk "" then ");" else "), PRIMARY KEY (" ++ pk ++ ");"
    | None => ");"
    end in
  RESERVED_KEYWORDS = ["year"]
  /\ (Forall (fun f => known (snd f)) dtypes ->
      calls (snd (create_table E dtypes db_schema table_name pk_column st))
      = (calls st ++
         [(cursor (self st),
           ("CREATE TABLE IF NOT EXISTS " ++ db_schema ++ "." ++ table_name ++ " ("
            ++ join "," (map emitted dtypes) ++ closing)%string,
           None)])%list)
  /\ (forall before column tag after,
        dtypes = (before ++ (column, tag) :: after)%list ->
        Forall (fun f => known (snd f)) before ->
        ~ known tag ->
        create_table E dtypes db_schema table_name pk_column st
        = (Raise (KeyError tag), st)).
Proof.
  intros known sql_type emitted closing.
  split; [reflexivity|]. split.
  - intros Hknown.
    pose proof (column_defs_known dtypes Hknown) as Hdefs.
    change (CreateTableSpec.column_defs dtypes = inr (map emitted dtypes)) in Hdefs.
    set (defs := map emitted dtypes) in *.
    pose proof (column_defs_settled _ _ Hdefs) as Hsettled.
    unfold create_table. rewrite table_schema_loop_spec, Hdefs.
    change ("" ++ entries defs) with (entries defs).
    unfold lift. unfold bind at 1. unfold ret at 1. cbv beta iota.
    rewrite (rstrip_entries defs Hsettled).
    unfold bind.
    pose proof (_execute_frame E st
                  (create_table_statement (join "," defs) db_schema table_name pk_column)
                  None) as [Hcalls _].
    assert (Htext : create_table_statement (join "," defs) db_schema table_name pk_column
                    = "CREATE TABLE IF NOT EXISTS " ++ db_schema ++ "." ++ table_name
                      ++ " (" ++ join "," defs ++ closing).
    { unfold create_table_statement, requested, closing.
      destruct pk_column as [pk|]; [|reflexivity].
      simpl truthy. now destruct (String.eqb pk ""). }
    rewrite Htext in Hcalls |- *.
    destruct (_execute E _ None st) as [[cur|e] st1]; exact Hcalls.
  - intros before column tag after -> Hbefore Htag.
    unfold create_table. rewrite table_schema_loop_spec.
    now rewrite (column_defs_first_unknown before column tag after Hbefore Htag).
Qed.

End CreateTable.

Lemma create_table_quotes_and_maps_types_witness :
  calls (snd (create_table demo_env
                [("id", "int"); ("year", "string"); ("amount", "double")]
                "public" "sales" (Some "id") demo_state))
  = [(0%nat,
      "CREATE TABLE IF NOT EXISTS public.sales (id INTEGER,"
      ++ dquote ++ "year" ++ dquote
      ++ " VARCHAR(256),amount NUMERIC(18,0)), PRIMARY KEY (id);",
      None)]
  /\ create_table demo_env [("id", "int"); ("t", "timestamp"); ("x", "float")]
       "public" "sales" None demo_state
     = (Raise (KeyError "timestamp"), demo_state).
Proof.
  split.
  - refine (proj1 (proj2
      (create_table_quotes_and_maps_types demo_env demo_state
         [("id", "int"); ("year", "string"); ("amount", "double")]
         "public" "sales" (Some "id"))) _).
    repeat constructor; simpl; tauto.
  - refine (proj2 (proj2
      (create_table_quotes_and_maps_types demo_env demo_state
         [("id", "int"); ("t", "timestamp"); ("x", "float")]
         "public" "sales" None)) [("id", "int")] "t" "timestamp" [("x", "float")]
         eq_refl _ _).
    + repeat constructor; simpl; tauto.
    + simpl. intros [H|[H|[H|[H|[]]]]]; discriminate H.
Defined.

Example create_table_year :
  calls (snd (create_table demo_env [("id", "int"); ("year", "string"); ("amount", "double")]
                "public" "sales" None demo_state))
  = [(0%nat,
      "CREATE TABLE IF NOT EXISTS public.sales (id INTEGER,"
      ++ dquote ++ "year" ++ dquote ++ " VARCHAR(256),amount NUMERIC(18,0));",
      None)].
Proof. reflexivity. Qed.

Example create_table_unknown_tag :
  create_table demo_env [("id", "int"); ("t", "timestamp"); ("x", "float")]
    "public" "sales" None demo_state
  = (Raise (KeyError "timestamp"), demo_state).
Proof. reflexivity. Qed.

(** ** Failures of the underlying client *)

Section Failures.

Variable E : Env.

(** Whatever follows [_execute] in a method, a failure of the client is
    printed once and raised unchanged, and nothing of the rest runs. *)
Lemma through_execute_logs {A} (k : nat -> M A) st c s sql params e :
  ready st c s -> server E (s_database s) sql params = inl e ->
  bind (_execute E sql params) k st = (Raise e, failed (cursor (self st)) sql params e st).
Proof.
  intros Hready Hserver. unfold bind.
  now rewrite (_execute_err E _ _ _ _ _ _ Hready Hserver).
Qed.

Lemma retrieve_logs st c s table cols where_ order limit e :
  ready st c s ->
  server E (s_database s) (_select table (retrieve_columns cols) where_ order limit None)
    (where_params where_) = inl e ->
  retrieve E table cols where_ order limit st
  = (Raise e,
     failed (cursor (self st))
       (_select table (retrieve_columns cols) where_ order limit None)
       (where_params where_) e st).
Proof. intros Hready Hserver. now apply through_execute_logs with (c := c) (s := s). Qed.

Lemma insert_logs st c s table data returning e :
  ready st c s ->
  server E (s_database s) (insert_sql table data returning) (Some (values data)) = inl e ->
  insert E table data returning st
  = (Raise e,
     failed (cursor (self st)) (insert_sql table data returning) (Some (values data)) e st).
Proof. intros Hready Hserver. now apply through_execute_logs with (c := c) (s := s). Qed.

Lemma update_logs st c s table data where_ returning e :
  ready st c s ->
  server E (s_database s) (update_sql table data where_ returning)
    (Some (update_params data where_)) = inl e ->
  update E table data where_ returning st
  = (Raise e,
     failed (cursor (self st)) (update_sql table data where_ returning)
       (Some (update_params data where_)) e st).
Proof. intros Hready Hserver. now apply through_execute_logs with (c := c) (s := s). Qed.

(** [retrieve_dict] runs its statement on a cursor of its own, outside
    any handler: a failure of the client is raised unchanged and nothing
    is printed. *)
Lemma retrieve_dict_silent st c s table cols where_ order limit e :
  connected st c s ->
  server E (s_database s)
    (_select table (retrieve_dict_columns cols) where_ order limit None)
    (where_params where_) = inl e ->
  fst (retrieve_dict E table cols where_ order limit st) = Raise e
  /\ stdout (snd (retrieve_dict E table cols where_ order limit st)) = stdout st.
Proof.
  intros [Hconn Hs Hopen] Hserver.
  set (cur := MkCursor c RealDictCursor false None (-1)).
  set (st1 := set_cursors (fun cs => (cs ++ [cur])%list) st).
  assert (Hcur : cursors st1 !! length (cursors st) = Some cur)
    by (apply list_lookup_middle; reflexivity).
  unfold retrieve_dict, self_conn, conn_cursor, open_session. unfold_m. simpl.
  rewrite Hconn. simpl. rewrite Hs, Hopen. simpl. fold cur. fold st1.
  rewrite (cursor_execute_err E st1 _ cur s _ _ e Hcur eq_refl Hs Hopen Hserver).
  split; reflexivity.
Qed.

End Failures.

(** C9, at a failing input.  The server rejects the statement of a
    select on a table it does not know.  The error reaches the caller
    unchanged from both methods, but only [retrieve], which runs through
    [_execute], prints the diagnostic; [retrieve_dict] prints nothing. *)
Theorem retrieve_dict_error_not_logged :
  let quiet := retrieve_dict demo_env "missing" (ColsStr "all") None None None demo_state in
  let sibling := retrieve demo_env "missing" (ColsStr "all") None None None demo_state in
  demo_server "dev" "SELECT * FROM missing" None = inl (DatabaseError "syntax error")
  /\ fst quiet = Raise (DatabaseError "syntax error")
  /\ stdout (snd quiet) = []
  /\ fst sibling = Raise (DatabaseError "syntax error")
  /\ stdout (snd sibling) = ["execute() failed due to: syntax error"].
Proof. cbv zeta. repeat split. Qed.

(** ** The constructor *)

(** Resolution that produces nothing stops the constructor at the
    assertion: no session is opened. *)
Example init_binary_secret :
  __init__ demo_env "dev" (Some "rs/binary") (Some "eu-west-1") PNone false blank
  = (Raise AssertionError, set_self (with_secret_id "rs/binary") blank).
Proof. reflexivity. Qed.

(** A resolved secret gives a ready connector with a plain cursor. *)
Example init_secret_ready :
  let st := snd (__init__ demo_env "dev" (Some "rs/creds") (Some "eu-west-1") PNone true blank) in
  credentials (self st) = PDict demo_creds
  /\ sessions st
     = [MkSession "dev" (PStr "rs.example") (PInt 5439) (PStr "admin") (PStr "pw")
          true false [] []]
  /\ cursors st = [MkCursor 0 PlainCursor false None (-1)]
  /\ conn (self st) = Some 0%nat.
Proof. cbv zeta. repeat split. Qed.

(** Neither a secret with a region nor a credentials dict: the
    constructor fails on the unset attribute. *)
Example init_unconfigured :
  fst (__init__ demo_env "dev" None None PNone false blank)
  = Raise (AttributeError "'RedshiftConnector' object has no attribute 'credentials'").
Proof. reflexivity. Qed.

(** * Further properties of the connector *)

(** ** Selects beyond the claims *)

Lemma slice_from_negative {A} (l : list A) (n : Z) :
  Z.of_nat (length l) < n ->
  slice_from l (Z.of_nat (length l) - n) = lastn (Z.to_nat n - length l) l.
Proof.
  intros Hn. unfold slice_from, lastn.
  destruct (Z.ltb_spec (Z.of_nat (length l) - n) 0) as [_|Hge]; [|lia].
  f_equal. lia.
Qed.

Lemma lastn_length {A} (k : nat) (l : list A) :
  length (lastn k l) = Nat.min k (length l).
Proof. unfold lastn. rewrite length_skipn. lia. Qed.

Section RetrieveMore.

Variable E : Env.

(** X1. When the statement of [retrieve] yields fewer rows than the
    limit, [m < n], the final slice starts at the negative index [m - n]
    and keeps only the last [n - m] of the fetched rows (all of them once
    [n >= 2m]): rows are lost whenever [m < n < 2m]. *)
Theorem retrieve_short_result_keeps_tail st c s table cols where_ order n rows rc :
  ready st c s ->
  server E (s_database s)
    (_select table (retrieve_columns cols) where_ order (Some n) None)
    (where_params where_) = inr (QResult (Some rows) rc) ->
  Z.of_nat (length rows) < n ->
  let fetched := map (shape (cur_factory c)) rows in
  fst (retrieve E table cols where_ order (Some n) st)
  = Ok (lastn (Z.to_nat n - length rows) fetched)
  /\ length (lastn (Z.to_nat n - length rows) fetched)
     = Nat.min (Z.to_nat n - length rows) (length rows).
Proof.
  intros Hready Hserver Hshort fetched.
  assert (Hlen : length fetched = length rows) by apply length_map.
  split.
  - rewrite (retrieve_ok _ _ _ _ _ _ _ _ _ _ _ Hready Hserver). fold fetched.
    unfold retrieve_start. simpl.
    destruct (Z.eqb_spec n 0) as [|_]; [lia|]. simpl.
    rewrite slice_from_negative by lia. now rewrite Hlen.
  - now rewrite lastn_length, Hlen.
Qed.

End RetrieveMore.

Lemma retrieve_short_result_keeps_tail_witness :
  fst (retrieve demo_env "t" (ColsStr "all") None None (Some 5) demo_state)
  = Ok (lastn 2 (map (shape PlainCursor) t_rows)).
Proof.
  exact (proj1 (retrieve_short_result_keeps_tail demo_env demo_state _ _ "t"
                  (ColsStr "all") None None 5 t_rows 3 demo_ready eq_refl
                  ltac:(vm_compute; reflexivity))).
Defined.

(** ** What a computation leaves alone *)

Lemma keeps_ret {A X} (f : State -> X) (a : A) : keeps f (ret a).
Proof. intros st. reflexivity. Qed.

Lemma keeps_raise {A X} (f : State -> X) (e : exn) : keeps f (@raise A e).
Proof. intros st. reflexivity. Qed.

Lemma keeps_lift {A X} (f : State -> X) (r : exn + A) : keeps f (lift r).
Proof. destruct r; intros st; reflexivity. Qed.

Lemma keeps_get {X} (f : State -> X) : keeps f get.
Proof. intros st. reflexivity. Qed.

Lemma keeps_modify {X} (f : State -> X) (g : State -> State) :
  (forall st, f (g st) = f st) -> keeps f (modify g).
Proof. intros H st. apply H. Qed.

Lemma keeps_bind {A B X} (f : State -> X) (m : M A) (k : A -> M B) :
  keeps f m -> (forall a, keeps f (k a)) -> keeps f (bind m k).
Proof.
  intros Hm Hk st. unfold bind. specialize (Hm st).
  destruct (m st) as [[a|e] st1]; simpl in *; [|exact Hm].
  now rewrite Hk.
Qed.

Lemma keeps_try {A X} (f : State -> X) (m : M A) (h : exn -> M A) :
  keeps f m -> (forall e, keeps f (h e)) -> keeps f (try_except m h).
Proof.
  intros Hm Hh st. unfold try_except. specialize (Hm st).
  destruct (m st) as [[a|e] st1]; simpl in *; [exact Hm|].
  now rewrite Hh.
Qed.

Lemma keeps_mapM {A B X} (f : State -> X) (g : A -> M B) (l : list A) :
  (forall a, keeps f (g a)) -> keeps f (mapM g l).
Proof.
  intros Hg. induction l as [|a l IH]; simpl; [apply keeps_ret|].
  apply keeps_bind; [apply Hg|]. intros b.
  apply keeps_bind; [exact IH|]. intros bs. apply keeps_ret.
Qed.

Ltac keeps_step :=
  first [ apply keeps_ret | apply keeps_raise | apply keeps_lift | apply keeps_get
        | apply keeps_bind; [|intros ?] | apply keeps_try; [|intros ?]
        | apply keeps_modify; intros ?; reflexivity ].

Lemma keeps_open_session {X} (f : State -> X) c : keeps f (open_session c).
Proof.
  unfold open_session. apply keeps_bind; [apply keeps_get|]. intros st.
  destruct (sessions st !! c) as [s|]; [destruct (s_closed s)|]; keeps_step.
Qed.

Lemma keeps_open_cursor {X} (f : State -> X) cid : keeps f (open_cursor cid).
Proof.
  unfold open_cursor. apply keeps_bind; [apply keeps_get|]. intros st.
  destruct (cursors st !! cid) as [c|]; [destruct (cur_closed c)|]; keeps_step.
Qed.

Lemma to_dict_state v st : snd (to_dict v st) = st.
Proof. destruct v; reflexivity. Qed.

Lemma keeps_to_dict {X} (f : State -> X) v : keeps f (to_dict v).
Proof. intros st. now rewrite to_dict_state. Qed.

(** Updating the row store of a cursor changes none of its flags. *)
Lemma cursor_flags_alter g cid st :
  (forall c, (cur_conn (g c), cur_factory (g c), cur_closed (g c))
             = (cur_conn c, cur_factory c, cur_closed c)) ->
  cursor_flags (set_cursors (alter g cid) st) = cursor_flags st.
Proof.
  intros Hg. unfold cursor_flags. simpl.
  generalize (cursors st) as l. intros l. revert cid.
  induction l as [|c l IH]; intros [|cid]; simpl; try reflexivity.
  - now rewrite Hg.
  - f_equal. apply IH.
Qed.

Section Frames.

Variable E : Env.

Lemma keeps_flags_cursor_execute cid sql params :
  keeps cursor_flags (cursor_execute E cid sql params).
Proof.
  unfold cursor_execute.
  apply keeps_bind; [apply keeps_modify; reflexivity|]. intros _.
  apply keeps_bind; [apply keeps_open_cursor|]. intros c.
  apply keeps_bind; [apply keeps_open_session|]. intros s.
  apply keeps_bind; [apply keeps_lift|]. intros r.
  apply keeps_bind; [apply keeps_modify; reflexivity|]. intros _.
  apply keeps_modify. intros st. now apply cursor_flags_alter.
Qed.

Lemma keeps_flags_fetchall cid : keeps cursor_flags (fetchall cid).
Proof.
  unfold fetchall. apply keeps_bind; [apply keeps_open_cursor|]. intros c.
  destruct (cur_rows c) as [rows|]; [|apply keeps_raise].
  apply keeps_bind; [|intros; apply keeps_ret].
  apply keeps_modify. intros st. now apply cursor_flags_alter.
Qed.

Lemma keeps_flags_fetchone cid : keeps cursor_flags (fetchone cid).
Proof.
  unfold fetchone. apply keeps_bind; [apply keeps_open_cursor|]. intros c.
  destruct (cur_rows c) as [[|row rest]|]; [apply keeps_ret| |apply keeps_raise].
  apply keeps_bind; [|intros; apply keeps_ret].
  apply keeps_modify. intros st. now apply cursor_flags_alter.
Qed.

Lemma keeps_rowcount {X} (f : State -> X) cid : keeps f (rowcount cid).
Proof.
  unfold rowcount. apply keeps_bind; [apply keeps_get|]. intros st.
  destruct (cursors st !! cid); apply keeps_ret.
Qed.

Lemma keeps_print {X} (f : State -> X) line :
  (forall g st, f (set_stdout g st) = f st) -> keeps f (print line).
Proof. intros H. apply keeps_modify. intros st. apply H. Qed.

End Frames.

(** ** Cursors of their own: [retrieve_dict] and [execute] *)

Lemma self_conn_ok st c : conn (self st) = Some c -> self_conn st = (Ok c, st).
Proof. intros H. unfold self_conn. unfold_m. now rewrite H. Qed.

Lemma conn_cursor_ok st c s f :
  sessions st !! c = Some s -> s_closed s = false ->
  conn_cursor c f st
  = (Ok (length (cursors st)),
     set_cursors (fun cs => (cs ++ [MkCursor c f false None (-1)])%list) st).
Proof.
  intros Hs Hopen. unfold conn_cursor, open_session. unfold_m. simpl.
  now rewrite Hs, Hopen.
Qed.

Lemma mapM_to_dict_rows rows st :
  mapM to_dict (map (shape RealDictCursor) rows) st = (Ok (map as_dict rows), st).
Proof.
  induction rows as [|row rows IH]; [reflexivity|].
  simpl. unfold bind at 1. simpl. unfold bind at 1. rewrite IH. reflexivity.
Qed.

Lemma alter_last {A} (g : A -> A) (l : list A) (x : A) :
  alter g (length l) (l ++ [x])%list = (l ++ [g x])%list.
Proof.
  pose proof (alter_app_r g l [x] 0) as H. now rewrite Nat.add_0_r in H.
Qed.

Lemma fetchall_ran_pair st cid c sql params r rows :
  cursors st !! cid = Some c -> cur_closed c = false ->
  q_rows r = Some rows ->
  fetchall cid (ran cid (cur_conn c) sql params r st)
  = (Ok (map (shape (cur_factory c)) rows),
     set_cursors (alter (with_rows []) cid) (ran cid (cur_conn c) sql params r st)).
Proof.
  intros Hc Hco Hrows. destruct r as [qrows qcount]. simpl in Hrows. subst qrows.
  unfold fetchall, open_cursor. unfold_m.
  assert (Hran : cursors (ran cid (cur_conn c) sql params (QResult (Some rows) qcount) st)
                 !! cid = Some (with_result (QResult (Some rows) qcount) c)).
  { unfold ran. simpl. now rewrite list_lookup_alter_eq, Hc. }
  rewrite Hran. simpl. rewrite Hco. reflexivity.
Qed.

Section OwnCursor.

Variable E : Env.

(** [retrieve_dict] on a connected connector whose statement the server
    answers with a result set, in one step. *)
Lemma retrieve_dict_run st c s table cols where_ order limit rows rc :
  connected st c s ->
  server E (s_database s)
    (_select table (retrieve_dict_columns cols) where_ order limit None)
    (where_params where_) = inr (QResult (Some rows) rc) ->
  retrieve_dict E table cols where_ order limit st
  = (Ok (map as_dict rows),
     set_cursors (alter (with_rows []) (length (cursors st)))
       (ran (length (cursors st)) c
          (_select table (retrieve_dict_columns cols) where_ order limit None)
          (where_params where_) (QResult (Some rows) rc)
          (set_cursors (fun cs => (cs ++ [MkCursor c RealDictCursor false None (-1)])%list)
             st))).
Proof.
  intros [Hconn Hs Hopen] Hserver.
  set (cur := MkCursor c RealDictCursor false None (-1)).
  set (st1 := set_cursors (fun cs => (cs ++ [cur])%list) st).
  assert (Hcur : cursors st1 !! length (cursors st) = Some cur)
    by (apply list_lookup_middle; reflexivity).
  unfold retrieve_dict. unfold bind at 1. rewrite (self_conn_ok _ _ Hconn).
  unfold bind at 1. rewrite (conn_cursor_ok _ _ _ _ Hs Hopen). fold cur. fold st1.
  cbv zeta. unfold bind at 1.
  rewrite (cursor_execute_ok E st1 _ cur s _ _ _ Hcur eq_refl Hs Hopen Hserver).
  change (cur_conn cur) with c. unfold bind at 1.
  rewrite (fetchall_ran_pair st1 _ cur _ _ (QResult (Some rows) rc) rows Hcur eq_refl eq_refl).
  change (cur_conn cur) with c. change (cur_factory cur) with RealDictCursor.
  now rewrite mapM_to_dict_rows.
Qed.

(** X2. [retrieve_dict] returns every fetched row, in order, as a plain
    dict keyed by column name, whatever the limit: unlike [retrieve] it
    takes no slice of the fetched rows.  It runs on a dict cursor it
    opens for the call and leaves open, after the existing cursors,
    which it does not touch. *)
Theorem retrieve_dict_returns_all_rows st c s table cols where_ order limit rows rc :
  connected st c s ->
  server E (s_database s)
    (_select table (retrieve_dict_columns cols) where_ order limit None)
    (where_params where_) = inr (QResult (Some rows) rc) ->
  let r := retrieve_dict E table cols where_ order limit st in
  fst r = Ok (map as_dict rows)
  /\ cursors (snd r)
     = (cursors st ++ [MkCursor c RealDictCursor false (Some []) rc])%list
  /\ calls (snd r)
     = (calls st ++
        [(length (cursors st),
          _select table (retrieve_dict_columns cols) where_ order limit None,
          where_params where_)])%list.
Proof.
  intros Hconnected Hserver r. subst r.
  rewrite (retrieve_dict_run _ _ _ _ _ _ _ _ _ _ Hconnected Hserver).
  split; [reflexivity|]. split; [|reflexivity].
  unfold ran. simpl. now rewrite !alter_last.
Qed.

(** X3. Every call of [execute] or [retrieve_dict] on a connected
    connector opens one more cursor and never closes it: whatever the
    server answers, and whether the call returns or raises, the cursors
    afterwards are those before, flags unchanged, followed by one open
    dict cursor. *)
Theorem own_cursor_is_never_closed st c s sql return_type table cols where_ order limit :
  connected st c s ->
  cursor_flags (snd (execute E sql return_type st))
  = (cursor_flags st ++ [(c, RealDictCursor, false)])%list
  /\ cursor_flags (snd (retrieve_dict E table cols where_ order limit st))
     = (cursor_flags st ++ [(c, RealDictCursor, false)])%list.
Proof.
  intros [Hconn Hs Hopen].
  assert (Hflags : forall f,
    cursor_flags (set_cursors (fun cs => (cs ++ [MkCursor c f false None (-1)])%list) st)
    = (cursor_flags st ++ [(c, f, false)])%list).
  { intros f. unfold cursor_flags. simpl. now rewrite map_app. }
  split.
  - unfold execute. unfold bind at 1. rewrite (self_conn_ok _ _ Hconn).
    unfold bind at 1. rewrite (conn_cursor_ok _ _ _ _ Hs Hopen).
    rewrite execute_factory_dict, <- Hflags.
    apply keeps_try.
    + apply keeps_bind; [apply keeps_flags_cursor_execute|]. intros _.
      destruct (negb (truthy return_type)); [apply keeps_flags_fetchall|].
      apply keeps_bind; [apply keeps_flags_fetchall|]. intros rows.
      apply keeps_mapM. intros v. apply keeps_to_dict.
    + intros e. apply keeps_bind; [|intros; apply keeps_raise].
      apply keeps_print. reflexivity.
  - unfold retrieve_dict. unfold bind at 1. rewrite (self_conn_ok _ _ Hconn).
    unfold bind at 1. rewrite (conn_cursor_ok _ _ _ _ Hs Hopen).
    rewrite <- Hflags. cbv zeta.
    apply keeps_bind; [apply keeps_flags_cursor_execute|]. intros _.
    apply keeps_bind; [apply keeps_flags_fetchall|]. intros rows.
    apply keeps_mapM. intros v. apply keeps_to_dict.
Qed.

End OwnCursor.

Lemma retrieve_dict_returns_all_rows_witness :
  fst (retrieve_dict demo_env "t" (ColsStr "*") None None (Some 5) demo_state)
  = Ok (map as_dict t_rows).
Proof.
  exact (proj1 (retrieve_dict_returns_all_rows demo_env demo_state 0 _ "t" (ColsStr "*")
                  None None (Some 5) t_rows 3 demo_connected eq_refl)).
Defined.

Lemma own_cursor_is_never_closed_witness :
  cursor_flags (snd (execute down_env "SELECT 1" (PStr "d") demo_state))
  = [(0%nat, PlainCursor, false); (0%nat, RealDictCursor, false)].
Proof.
  exact (proj1 (own_cursor_is_never_closed down_env demo_state 0 _ "SELECT 1" (PStr "d")
                  "t" (ColsStr "all") None None None demo_connected)).
Defined.

(** ** Failures on the way through [_execute] *)

Lemma failed_logged {A} sql params e st :
  @logged_failure A e sql params st (Raise e, failed (cursor (self st)) sql params e st).
Proof. unfold logged_failure, failed. simpl. repeat split. Qed.

(** The statements of [truncate] and [drop], in one piece. *)
Lemma truncate_text table (restart_identity cascade : bool) :
  (let sql := "TRUNCATE " ++ table in
   let sql := if restart_identity then sql ++ " RESTART IDENTITY" else sql in
   if cascade then sql ++ " CASCADE" else sql)
  = "TRUNCATE " ++ table ++ (if restart_identity then " RESTART IDENTITY" else "")
    ++ (if cascade then " CASCADE" else "").
Proof.
  cbv zeta. destruct restart_identity, cascade;
    rewrite ?append_assoc, ?append_nil_r; reflexivity.
Qed.

Lemma drop_text table (cascade : bool) :
  (let sql := "DROP TABLE IF EXISTS " ++ table in
   if cascade then sql ++ " CASCADE" else sql)
  = "DROP TABLE IF EXISTS " ++ table ++ (if cascade then " CASCADE" else "").
Proof.
  cbv zeta. destruct cascade; rewrite ?append_assoc, ?append_nil_r; reflexivity.
Qed.

Section Wrapped.

Variable E : Env.

Lemma truncate_unfold table restart_identity cascade :
  truncate E table restart_identity cascade
  = bind (_execute E ("TRUNCATE " ++ table
                      ++ (if restart_identity then " RESTART IDENTITY" else "")
                      ++ (if cascade then " CASCADE" else "")) None)
      (fun _ => commit).
Proof. unfold truncate. now rewrite truncate_text. Qed.

Lemma drop_unfold table cascade :
  drop E table cascade
  = bind (_execute E ("DROP TABLE IF EXISTS " ++ table
                      ++ (if cascade then " CASCADE" else "")) None)
      (fun _ => commit).
Proof. unfold drop. now rewrite drop_text. Qed.

Lemma delete_unfold table where_ returning :
  delete E table where_ returning
  = bind (_execute E ("DELETE FROM " ++ table ++ _where where_ ++ _returning returning)
            (delete_params where_))
      (fun cur => if requested returning
                  then bind (fetchall cur) (fun rows => ret (PList rows))
                  else bind (rowcount cur) (fun n => ret (PInt n))).
Proof. reflexivity. Qed.

Lemma through_execute_logged {A} (k : nat -> M A) st c s sql params :
  ready st c s -> logs_and_reraises E st s sql params (bind (_execute E sql params) k).
Proof.
  intros Hready e Hserver.
  rewrite (through_execute_logs E k _ _ _ _ _ _ Hready Hserver).
  apply failed_logged.
Qed.

(** X4. When the server rejects, with an error [e], the statement of
    a method that goes through [_execute] ([create], [truncate], [drop],
    [retrieve], [insert], [update], [delete], [create_schema],
    [delete_schema], [copy_from_s3_to_rs]), the method raises [e]
    unchanged after printing one diagnostic line, and does nothing
    else: the failed call is the only one the cursor received, nothing
    is committed and the connector object is untouched.  Each method is
    taken with its own statement; what the server answers to any other
    statement plays no part. *)
Theorem wrapped_methods_log_and_reraise st c s :
  ready st c s ->
  (forall table schema,
     logs_and_reraises E st s ("CREATE TABLE " ++ table ++ " (" ++ schema ++ ")") None
       (create E table schema))
  /\ (forall table (restart cascade : bool),
        logs_and_reraises E st s
          ("TRUNCATE " ++ table ++ (if restart then " RESTART IDENTITY" else "")
           ++ (if cascade then " CASCADE" else "")) None
          (truncate E table restart cascade))
  /\ (forall table (cascade : bool),
        logs_and_reraises E st s
          ("DROP TABLE IF EXISTS " ++ table ++ (if cascade then " CASCADE" else "")) None
          (drop E table cascade))
  /\ (forall table cols where_ order limit,
        logs_and_reraises E st s
          (_select table (retrieve_columns cols) where_ order limit None)
          (where_params where_)
          (retrieve E table cols where_ order limit))
  /\ (forall table data returning,
        logs_and_reraises E st s
          ("INSERT INTO " ++ table ++ " (" ++ join "," (keys data) ++ ") VALUES("
           ++ join "," (map (fun _ => "%s") data) ++ ")" ++ _returning returning)
          (Some (values data))
          (insert E table data returning))
  /\ (forall table data where_ returning,
        logs_and_reraises E st s
          ("UPDATE " ++ table ++ " SET " ++ _format_update data
           ++ _where where_ ++ _returning returning)
          (Some (update_params data where_))
          (update E table data where_ returning))
  /\ (forall table where_ returning,
        logs_and_reraises E st s
          ("DELETE FROM " ++ table ++ _where where_ ++ _returning returning)
          (delete_params where_)
          (delete E table where_ returning))
  /\ (forall name,
        logs_and_reraises E st s ("CREATE SCHEMA IF NOT EXISTS " ++ name) None
          (create_schema E name))
  /\ (forall name,
        logs_and_reraises E st s ("DROP SCHEMA IF EXISTS " ++ name) None
          (delete_schema E name))
  /\ (forall table path role delimiter file_type,
        logs_and_reraises E st s
          ("copy " ++ table ++ " from '" ++ path ++ "' iam_role '" ++ role
           ++ "' delimiter '" ++ delimiter ++ "' " ++ file_type ++ ";") None
          (copy_from_s3_to_rs E table path role delimiter file_type)).
Proof.
  intros Hready.
  repeat match goal with |- _ /\ _ => split end; intros;
    rewrite ?truncate_unfold, ?drop_unfold, ?delete_unfold;
    now apply through_execute_logged with (c := c).
Qed.

End Wrapped.

Lemma wrapped_methods_log_and_reraise_witness :
  logged_failure (DatabaseError "syntax error") "TRUNCATE t CASCADE" None demo_state
    (truncate demo_env "t" false true demo_state).
Proof.
  exact (proj1 (proj2 (wrapped_methods_log_and_reraise demo_env demo_state _ _ demo_ready))
           "t" false true (DatabaseError "syntax error") eq_refl).
Defined.

(** ** Transactions: who commits and who does not *)

Lemma keeps_fetchall {X} (f : State -> X) cid :
  (forall g st, f (set_cursors g st) = f st) -> keeps f (fetchall cid).
Proof.
  intros Hf. unfold fetchall. apply keeps_bind; [apply keeps_open_cursor|]. intros c.
  destruct (cur_rows c) as [rows|]; [|apply keeps_raise].
  apply keeps_bind; [|intros; apply keeps_ret].
  apply keeps_modify. intros st. apply Hf.
Qed.

Lemma keeps_fetchone {X} (f : State -> X) cid :
  (forall g st, f (set_cursors g st) = f st) -> keeps f (fetchone cid).
Proof.
  intros Hf. unfold fetchone. apply keeps_bind; [apply keeps_open_cursor|]. intros c.
  destruct (cur_rows c) as [[|row rest]|]; [apply keeps_ret| |apply keeps_raise].
  apply keeps_bind; [|intros; apply keeps_ret].
  apply keeps_modify. intros st. apply Hf.
Qed.

Lemma reads_cursor_fetchall cid : reads_cursor (fetchall cid).
Proof. repeat split; now apply keeps_fetchall. Qed.

Lemma reads_cursor_fetchone cid : reads_cursor (fetchone cid).
Proof. repeat split; now apply keeps_fetchone. Qed.

Lemma reads_cursor_rowcount cid : reads_cursor (rowcount cid).
Proof. repeat split; apply keeps_rowcount. Qed.

Lemma reads_cursor_ret {A} (a : A) : reads_cursor (ret a).
Proof. repeat split; apply keeps_ret. Qed.

Lemma reads_cursor_bind {A B} (m : M A) (k : A -> M B) :
  reads_cursor m -> (forall a, reads_cursor (k a)) -> reads_cursor (bind m k).
Proof.
  intros (H1 & H2 & H3 & H4) Hk.
  repeat split; (apply keeps_bind; [assumption | intros a; apply (Hk a)]).
Qed.

Lemma record_stmt_closed q s : s_closed (record_stmt q s) = s_closed s.
Proof. unfold record_stmt. now destruct (s_autocommit s). Qed.

Lemma record_stmt_pending q s :
  s_autocommit s = false ->
  s_pending (record_stmt q s) = (s_pending s ++ [q])%list
  /\ s_durable (record_stmt q s) = s_durable s.
Proof. intros H. unfold record_stmt. now rewrite H. Qed.




Section Transactions.

Variable E : Env.

(** One statement through [_execute], then what the method does with
    the cursor: the statement is recorded on the cursor's session and
    nothing else changes. *)
Lemma after_statement {A} (k : nat -> M A) st c s sql params r :
  ready st c s -> server E (s_database s) sql params = inr r ->
  (forall cur, reads_cursor (k cur)) ->
  let st' := snd (bind (_execute E sql params) k st) in
  sessions st' = alter (record_stmt (sql, params)) (cur_conn c) (sessions st)
  /\ self st' = self st
  /\ calls st' = (calls st ++ [(cursor (self st), sql, params)])%list
  /\ stdout st' = stdout st.
Proof.
  intros Hready Hserver Hk. cbv zeta. unfold bind.
  rewrite (_execute_ok E _ _ _ _ _ _ Hready Hserver).
  destruct (Hk (cursor (self st))) as (H1 & H2 & H3 & H4).
  rewrite H1, H2, H3, H4. repeat split.
Qed.




End Transactions.



Section Uncommitted.

Variable E : Env.

Lemma statement_left_pending {A} (k : nat -> M A) st c s sql params :
  ready st c s -> s_autocommit s = false ->
  (forall cur, reads_cursor (k cur)) ->
  leaves_pending E st c s sql params (bind (_execute E sql params) k).
Proof.
  intros Hready Hauto Hk r Hserver.
  destruct (after_statement E k _ _ _ _ _ _ Hready Hserver Hk) as (Hs & _ & Hc & _).
  destruct (record_stmt_pending (sql, params) s Hauto) as [Hp Hd].
  exists (record_stmt (sql, params) s).
  split; [exact Hc|]. split; [|split; assumption].
  rewrite Hs, list_lookup_alter_eq. now rewrite (ready_session _ _ _ Hready).
Qed.

Lemma insert_tail_reads returning cur :
  reads_cursor (if requested returning then fetchone cur
                else bind (rowcount cur) (fun n => ret (PInt n))).
Proof.
  destruct (requested returning); [apply reads_cursor_fetchone|].
  apply reads_cursor_bind; [apply reads_cursor_rowcount | intros; apply reads_cursor_ret].
Qed.

Lemma update_tail_reads returning cur :
  reads_cursor (if requested returning
                then bind (fetchall cur) (fun rows => ret (PList rows))
                else bind (rowcount cur) (fun n => ret (PInt n))).
Proof.
  destruct (requested returning); apply reads_cursor_bind;
    first [apply reads_cursor_fetchall | apply reads_cursor_rowcount
          | intros; apply reads_cursor_ret].
Qed.

(** X6. [insert], [update], [delete], [create_schema], [delete_schema]
    and [create_table] never commit: on a session that is not in
    autocommit mode, once the server has accepted the method's
    statement, that statement is the one call the cursor received and
    the last pending statement of the session, and nothing more is
    durable, whether the method then returns or fails while fetching.
    Each method is taken with its own statement and bind values; what
    the server answers to any other statement plays no part. *)
Theorem dml_methods_leave_pending st c s :
  ready st c s ->
  s_autocommit s = false ->
  (forall table data returning,
     leaves_pending E st c s
       ("INSERT INTO " ++ table ++ " (" ++ join "," (keys data) ++ ") VALUES("
        ++ join "," (map (fun _ => "%s") data) ++ ")" ++ _returning returning)
       (Some (values data))
       (insert E table data returning))
  /\ (forall table data where_ returning,
        leaves_pending E st c s
          ("UPDATE " ++ table ++ " SET " ++ _format_update data
           ++ _where where_ ++ _returning returning)
          (Some (update_params data where_))
          (update E table data where_ returning))
  /\ (forall table where_ returning,
        leaves_pending E st c s
          ("DELETE FROM " ++ table ++ _where where_ ++ _returning returning)
          (delete_params where_)
          (delete E table where_ returning))
  /\ (forall name,
        leaves_pending E st c s ("CREATE SCHEMA IF NOT EXISTS " ++ name) None
          (create_schema E name))
  /\ (forall name,
        leaves_pending E st c s ("DROP SCHEMA IF EXISTS " ++ name) None
          (delete_schema E name))
  /\ (forall dtypes db_schema table_name pk_column table_schema,
        table_schema_loop dtypes "" = inr table_schema ->
        leaves_pending E st c s
          (create_table_statement (rstrip comma table_schema) db_schema table_name
             pk_column) None
          (create_table E dtypes db_schema table_name pk_column)).
Proof.
  intros Hready Hauto.
  repeat match goal with |- _ /\ _ => split end; intros.
  - apply (statement_left_pending _ _ _ _ _ _ Hready Hauto).
    intros cur. apply insert_tail_reads.
  - apply (statement_left_pending _ _ _ _ _ _ Hready Hauto).
    intros cur. apply update_tail_reads.
  - rewrite delete_unfold.
    apply (statement_left_pending _ _ _ _ _ _ Hready Hauto).
    intros cur. apply update_tail_reads.
  - apply (statement_left_pending _ _ _ _ _ _ Hready Hauto).
    intros cur. apply reads_cursor_ret.
  - apply (statement_left_pending _ _ _ _ _ _ Hready Hauto).
    intros cur. apply reads_cursor_ret.
  - unfold create_table.
    match goal with H : table_schema_loop _ _ = _ |- _ => rewrite H end.
    unfold lift. unfold bind at 1. unfold ret at 1. cbv beta iota.
    intros r Hr. revert r Hr.
    apply (statement_left_pending _ _ _ _ _ _ Hready Hauto).
    intros cur. apply reads_cursor_ret.
Qed.


End Uncommitted.

Lemma demo_not_autocommit :
  s_autocommit (MkSession "dev" (PStr "rs.example") (PInt 5439) (PStr "admin") (PStr "pw")
                  false false [] []) = false.
Proof. reflexivity. Qed.

Lemma dml_methods_leave_pending_witness :
  left_pending ("INSERT INTO t (id,name) VALUES(%s,%s)", Some [PInt 4; PStr "d"])
    demo_state (MkCursor 0 PlainCursor false None (-1))
    (MkSession "dev" (PStr "rs.example") (PInt 5439) (PStr "admin") (PStr "pw")
       false false [] [])
    (snd (insert demo_env "t" [("id", PInt 4); ("name", PStr "d")] None demo_state)).
Proof.
  exact (proj1 (dml_methods_leave_pending demo_env demo_state _ _ demo_ready
                  demo_not_autocommit)
           "t" [("id", PInt 4); ("name", PStr "d")] None (QResult None 1) eq_refl).
Defined.


(** ** Closing *)

Lemma close_run st c s :
  connected st c s ->
  close st
  = (Ok tt,
     set_sessions (alter close_session c)
       (set_cursors (alter close_cursor (cursor (self st)))
          (set_sessions (alter commit_session c) st))).
Proof.
  intros [Hconn Hs Hopen]. unfold close. unfold bind at 1, get. rewrite Hconn.
  unfold conn_commit, open_session, cursor_close, conn_close. unfold_m. simpl.
  now rewrite Hs, Hopen.
Qed.

(** X8. [close] on a connected connector commits what is pending, then
    closes the connector's cursor and the session.  It is final and not
    repeatable: a second [close] raises the client's
    connection-already-closed error (the commit it starts with is
    refused), and so do [commit] and [rollback]; every later statement
    through [_execute] raises the cursor-already-closed error. *)
Theorem close_commits_and_is_final st c s :
  connected st c s ->
  let st' := snd (close st) in
  fst (close st) = Ok tt
  /\ (exists s', sessions st' !! c = Some s'
                 /\ s_closed s' = true /\ s_pending s' = []
                 /\ s_durable s' = (s_durable s ++ s_pending s)%list)
  /\ cur_closed <$> cursors st' !! cursor (self st)
     = (fun _ => true) <$> cursors st !! cursor (self st)
  /\ close st' = (Raise closed_conn, st')
  /\ commit st' = (Raise closed_conn, st')
  /\ rollback st' = (Raise closed_conn, st')
  /\ forall E sql params, fst (_execute E sql params st') = Raise closed_cursor.
Proof.
  intros Hconnected st'. subst st'. rewrite (close_run _ _ _ Hconnected).
  destruct Hconnected as [Hconn Hs Hopen]. simpl.
  assert (Hs' : alter close_session c (alter commit_session c (sessions st)) !! c
                = Some (close_session (commit_session s)))
    by now rewrite !list_lookup_alter_eq, Hs.
  split; [reflexivity|]. split; [|split; [|split; [|split; [|split]]]].
  - exists (close_session (commit_session s)). now rewrite Hs'.
  - rewrite list_lookup_alter_eq. now destruct (cursors st !! cursor (self st)).
  - unfold close. unfold bind at 1, get. simpl. rewrite Hconn.
    unfold conn_commit, open_session. unfold_m. simpl. now rewrite Hs'.
  - unfold commit, self_conn, conn_commit, open_session. unfold_m. simpl.
    rewrite Hconn. simpl. now rewrite Hs'.
  - unfold rollback, self_conn, conn_rollback, open_session. unfold_m. simpl.
    rewrite Hconn. simpl. now rewrite Hs'.
  - intros E sql params. rewrite _execute_unfold.
    unfold cursor_execute, open_cursor. unfold_m. simpl.
    rewrite list_lookup_alter_eq.
    now destruct (cursors st !! cursor (self st)).
Qed.

Lemma close_commits_and_is_final_witness :
  close (snd (close demo_state)) = (Raise closed_conn, snd (close demo_state)).
Proof.
  exact (proj1 (proj2 (proj2 (proj2
    (close_commits_and_is_final demo_state 0 _ demo_connected))))).
Defined.

(** ** After a switch of database *)

Section Switched.

Variable E : Env.



Lemma switch_database_unfold st c s d db_name :
  connected st c s ->
  credentials (self st) = PDict d ->
  switch_database E db_name st
  = match _init_conn E db_name (PDict d) (set_sessions (alter commit_session c) st) with
    | (Ok c', st') => (Ok tt, set_self (with_conn (Some c')) st')
    | (Raise e, st') => (Raise e, st')
    end.
Proof.
  intros [Hconn Hs Hopen] Hcred.
  unfold switch_database. unfold bind at 1, get. rewrite Hconn, Hcred.
  unfold bind at 1. unfold conn_commit, open_session. unfold_m. simpl.
  rewrite Hs, Hopen. simpl.
  now destruct (_init_conn E db_name (PDict d) _) as [[c'|e] st'].
Qed.

(** [_init_conn] stops at the first key the credentials lack, before it
    connects and before it sets the database name. *)
Lemma _init_conn_missing st d k db_ :
  first_missing d = Some k ->
  fst (_init_conn E db_ (PDict d) st) = Raise (KeyError k)
  /\ sessions (snd (_init_conn E db_ (PDict d) st)) = sessions st
  /\ conn (self (snd (_init_conn E db_ (PDict d) st))) = conn (self st)
  /\ db (self (snd (_init_conn E db_ (PDict d) st))) = db (self st)
  /\ credentials (self (snd (_init_conn E db_ (PDict d) st))) = credentials (self st).
Proof.
  intros Hmiss. unfold first_missing in Hmiss. simpl in Hmiss.
  unfold _init_conn, getitem. unfold_m. simpl.
  destruct (dict_get d "host"); [|injection Hmiss as <-; repeat split].
  simpl. destruct (dict_get d "port"); [|injection Hmiss as <-; repeat split].
  simpl. destruct (dict_get d "username"); [|injection Hmiss as <-; repeat split].
  simpl. destruct (dict_get d "password"); [discriminate|].
  injection Hmiss as <-. repeat split.
Qed.

(** X10. When the stored credentials lack one of the keys [host],
    [port], [username], [password], [switch_database] raises a key error
    for the first missing one, after it has committed the prior session:
    no connection is opened and the connector keeps its connection and
    its database name. *)
Theorem switch_database_missing_key st c s d k db_name :
  connected st c s ->
  credentials (self st) = PDict d ->
  first_missing d = Some k ->
  let r := switch_database E db_name st in
  fst r = Raise (KeyError k)
  /\ sessions (snd r) = alter commit_session c (sessions st)
  /\ conn (self (snd r)) = Some c
  /\ db (self (snd r)) = db (self st)
  /\ credentials (self (snd r)) = PDict d.
Proof.
  intros Hconnected Hcred Hmiss r. subst r.
  rewrite (switch_database_unfold _ _ _ _ _ Hconnected Hcred).
  destruct (_init_conn_missing (set_sessions (alter commit_session c) st) d k db_name Hmiss)
    as (Hr & Hsess & Hc & Hdb & Hcr).
  destruct (_init_conn E db_name (PDict d) _) as [[c'|e] st']; simpl in *;
    [discriminate|].
  injection Hr as ->.
  rewrite Hsess, Hc, Hdb, Hcr. destruct Hconnected as [Hconn _ _].
  repeat split; auto.
Qed.

End Switched.


Lemma switch_database_missing_key_witness :
  fst (switch_database demo_env "analytics"
         (set_self (with_credentials (PDict [("host", PStr "rs.example")])) demo_state))
  = Raise (KeyError "port").
Proof.
  refine (proj1
    (switch_database_missing_key demo_env
       (set_self (with_credentials (PDict [("host", PStr "rs.example")])) demo_state)
       0 _ [("host", PStr "rs.example")] "port" "analytics" _ eq_refl eq_refl)).
  split; reflexivity.
Defined.

(** ** The constructor *)

Section Constructor.

Variable E : Env.

Lemma conn_set_autocommit_ok st c s b :
  sessions st !! c = Some s -> s_closed s = false ->
  conn_set_autocommit c b st
  = (Ok tt, set_sessions (alter (autocommit_session b) c) st).
Proof.
  intros Hs Hopen. unfold conn_set_autocommit, open_session. unfold_m.
  now rewrite Hs, Hopen.
Qed.

(** The constructor once the credentials are stored on the object. *)
Lemma init_connects st d h p u pw db_ autocommit :
  dict_get d "host" = Some h -> dict_get d "port" = Some p ->
  dict_get d "username" = Some u -> dict_get d "password" = Some pw ->
  connect_error E h p db_ u pw = None ->
  credentials (self st) = PDict d ->
  let rest :=
    (let* st := get in
     let* c := _init_conn E db_ (credentials (self st)) in
     modify (set_self (with_conn (Some c))) ;;;
     conn_set_autocommit c autocommit ;;;
     let* cur := conn_cursor c PlainCursor in
     modify (set_self (with_cursor cur)))%py in
  let s0 := MkSession db_ h p u pw autocommit false [] [] in
  fst (rest st) = Ok tt
  /\ connected (snd (rest st)) (length (sessions st)) s0
  /\ ready (snd (rest st)) (MkCursor (length (sessions st)) PlainCursor false None (-1)) s0
  /\ credentials (self (snd (rest st))) = PDict d
  /\ db (self (snd (rest st))) = db_.
Proof.
  intros Hh Hp Hu Hpw Hconnect Hcred rest s0.
  set (n := length (sessions st)).
  set (st1 := set_self (with_conn (Some n))
                (set_sessions
                   (fun ss => (ss ++ [MkSession db_ h p u pw false false [] []])%list)
                   (set_self (fun o => with_db db_
                                         (with_pwd pw (with_user u
                                            (with_port p (with_host h o))))) st))).
  set (st2 := set_sessions (alter (autocommit_session autocommit) n) st1).
  assert (Hnew : sessions st1 !! n = Some (MkSession db_ h p u pw false false [] []))
    by (apply list_lookup_middle; reflexivity).
  assert (Hauto : sessions st2 !! n = Some s0).
  { subst st2. change (sessions (set_sessions ?f st1)) with (f (sessions st1)).
    now rewrite list_lookup_alter_eq, Hnew. }
  assert (Hrun : rest st
                 = (Ok tt,
                    set_self (with_cursor (length (cursors st)))
                      (set_cursors
                         (fun cs => (cs ++ [MkCursor n PlainCursor false None (-1)])%list)
                         st2))).
  { subst rest. unfold bind at 1, get. rewrite Hcred. unfold bind at 1.
    rewrite (_init_conn_ok E st d h p u pw db_ Hh Hp Hu Hpw Hconnect).
    unfold bind at 1. unfold modify at 1. cbv beta iota. fold n. fold st1.
    unfold bind at 1.
    rewrite (conn_set_autocommit_ok _ _ _ autocommit Hnew eq_refl). fold st2.
    unfold bind at 1. rewrite (conn_cursor_ok _ _ _ PlainCursor Hauto eq_refl).
    reflexivity. }
  rewrite Hrun. cbn [fst snd].
  split; [reflexivity|]. split; [|split; [|split]].
  - split; [reflexivity | exact Hauto | reflexivity].
  - split; [|reflexivity | exact Hauto | reflexivity].
    cbn. apply list_lookup_middle. reflexivity.
  - subst st2 st1. cbn. exact Hcred.
  - reflexivity.
Qed.

(** X11. Given a non-empty credentials dict that holds the four keys,
    and no secret-and-region pair, the constructor returns a connector
    that is connected and ready: a new session to the named database
    with the dict's host, port, user and password and the requested
    autocommit mode, nothing pending, and a plain cursor on it; the dict
    is stored as the credentials. *)
Theorem init_with_credentials st d h p u pw db_ secret region autocommit :
  secret = None \/ region = None ->
  d <> [] ->
  dict_get d "host" = Some h -> dict_get d "port" = Some p ->
  dict_get d "username" = Some u -> dict_get d "password" = Some pw ->
  connect_error E h p db_ u pw = None ->
  let r := __init__ E db_ secret region (PDict d) autocommit st in
  let s0 := MkSession db_ h p u pw autocommit false [] [] in
  fst r = Ok tt
  /\ connected (snd r) (length (sessions st)) s0
  /\ ready (snd r) (MkCursor (length (sessions st)) PlainCursor false None (-1)) s0
  /\ credentials (self (snd r)) = PDict d
  /\ db (self (snd r)) = db_.
Proof.
  intros Hpair Hd Hh Hp Hu Hpw Hconnect r s0. subst r.
  assert (Hstep : __init__ E db_ secret region (PDict d) autocommit st
    = (let* st := get in
       let* c := _init_conn E db_ (credentials (self st)) in
       modify (set_self (with_conn (Some c))) ;;;
       conn_set_autocommit c autocommit ;;;
       let* cur := conn_cursor c PlainCursor in
       modify (set_self (with_cursor cur)))%py
        (set_self (with_credentials (PDict d)) st)).
  { unfold __init__.
    assert (Htruthy : truthy (PDict d) && is_dict (PDict d) = true)
      by (destruct d; [congruence | reflexivity]).
    destruct Hpair as [-> | ->]; [|destruct secret]; rewrite ?Htruthy;
      unfold bind at 1; reflexivity. }
  rewrite Hstep.
  exact (init_connects (set_self (with_credentials (PDict d)) st) d h p u pw db_ autocommit
           Hh Hp Hu Hpw Hconnect eq_refl).
Qed.

(** X12. With no secret-and-region pair, a [creds] argument that is
    empty or not a dict leaves [self.credentials] unset: the constructor
    fails with an attribute error before it reads any key or opens any
    connection. *)
Theorem init_unusable_credentials st db_ secret region creds autocommit :
  secret = None \/ region = None ->
  truthy creds && is_dict creds = false ->
  __init__ E db_ secret region creds autocommit st
  = (Raise (AttributeError "'RedshiftConnector' object has no attribute 'credentials'"), st).
Proof.
  intros Hpair Hbad. unfold __init__.
  destruct Hpair as [-> | ->]; [|destruct secret]; rewrite Hbad; reflexivity.
Qed.

Lemma keeps_client_error_diagnostic {X} (f : State -> X) sid code e :
  (forall g st, f (set_stdout g st) = f st) ->
  keeps f (client_error_diagnostic sid code e).
Proof.
  intros Hf. unfold client_error_diagnostic.
  repeat (match goal with |- context [if ?b then _ else _] => destruct b end;
          [now apply keeps_print|]).
  apply keeps_ret.
Qed.

Lemma keeps_get_credentials {X} (f : State -> X) :
  (forall g st, f (set_stdout g st) = f st) -> keeps f (get_credentials E).
Proof.
  intros Hf. unfold get_credentials.
  apply keeps_bind; [apply keeps_get|]. intros st.
  apply keeps_bind.
  - destruct (get_secret_value E (secret_id (self st))) as [e|response].
    + destruct e; try apply keeps_raise.
      apply keeps_bind; [now apply keeps_client_error_diagnostic | intros; apply keeps_ret].
    + destruct (dict_get response "SecretString") as [[]|];
        first [apply keeps_lift | apply keeps_raise | apply keeps_ret].
  - intros cred. destruct cred; first [apply keeps_raise | apply keeps_ret].
Qed.

Lemma init_secret_unfold st db_ sec reg creds autocommit :
  __init__ E db_ (Some sec) (Some reg) creds autocommit st
  = match get_credentials E (set_self (with_secret_id sec) st) with
    | (Raise e, st1) => (Raise e, st1)
    | (Ok cred, st1) =>
        (let* st := get in
         let* c := _init_conn E db_ (credentials (self st)) in
         modify (set_self (with_conn (Some c))) ;;;
         conn_set_autocommit c autocommit ;;;
         let* cur := conn_cursor c PlainCursor in
         modify (set_self (with_cursor cur)))%py
          (set_self (with_credentials cred) st1)
    end.
Proof.
  unfold __init__. unfold bind at 1. unfold bind at 1. unfold modify at 1.
  unfold bind at 1.
  now destruct (get_credentials E (set_self (with_secret_id sec) st)) as [[cred|e] st1].
Qed.

(** X13. With a secret and a region, the [creds] argument plays no
    part: whatever the secret store answers, the constructor ends the
    same for any two [creds].  When the resolution of the secret fails,
    the constructor fails with the same exception before it opens any
    connection. *)
Theorem init_secret_failure st db_ sec reg creds creds' autocommit :
  __init__ E db_ (Some sec) (Some reg) creds autocommit st
  = __init__ E db_ (Some sec) (Some reg) creds' autocommit st
  /\ forall e,
       fst (get_credentials E (set_self (with_secret_id sec) st)) = Raise e ->
       let r := __init__ E db_ (Some sec) (Some reg) creds autocommit st in
       fst r = Raise e
       /\ sessions (snd r) = sessions st
       /\ cursors (snd r) = cursors st.
Proof.
  split; [now rewrite !init_secret_unfold|].
  intros e Hfail r. subst r. rewrite !init_secret_unfold.
  pose proof (keeps_get_credentials sessions (fun _ _ => eq_refl)
                (set_self (with_secret_id sec) st)) as Hs.
  pose proof (keeps_get_credentials cursors (fun _ _ => eq_refl)
                (set_self (with_secret_id sec) st)) as Hc.
  destruct (get_credentials E (set_self (with_secret_id sec) st)) as [[cred|e'] st1];
    simpl in *; [discriminate|].
  injection Hfail as ->. repeat split; assumption.
Qed.

End Constructor.

Lemma init_with_credentials_witness :
  connected (snd (__init__ demo_env "dev" None None (PDict demo_creds) true blank)) 0
    (MkSession "dev" (PStr "rs.example") (PInt 5439) (PStr "admin") (PStr "pw")
       true false [] []).
Proof.
  exact (proj1 (proj2
    (init_with_credentials demo_env blank demo_creds (PStr "rs.example") (PInt 5439)
       (PStr "admin") (PStr "pw") "dev" None None true
       (or_introl eq_refl) ltac:(discriminate) eq_refl eq_refl eq_refl eq_refl eq_refl))).
Defined.

Lemma init_unusable_credentials_witness :
  __init__ demo_env "dev" (Some "rs/creds") None (PDict []) false blank
  = (Raise (AttributeError "'RedshiftConnector' object has no attribute 'credentials'"),
     blank).
Proof.
  exact (init_unusable_credentials demo_env blank "dev" (Some "rs/creds") None (PDict [])
           false (or_intror eq_refl) eq_refl).
Defined.

Lemma init_secret_failure_witness :
  __init__ demo_env "dev" (Some "rs/creds") (Some "eu-west-1") (PDict demo_creds) false blank
  = __init__ demo_env "dev" (Some "rs/creds") (Some "eu-west-1") PNone false blank
  /\ fst (__init__ demo_env "dev" (Some "rs/unreachable") (Some "eu-west-1")
            (PDict demo_creds) false blank)
     = Raise (BotoCoreError "Could not connect to the endpoint URL").
Proof.
  split.
  - exact (proj1 (init_secret_failure demo_env blank "dev" "rs/creds" "eu-west-1"
                    (PDict demo_creds) PNone false)).
  - exact (proj1 (proj2 (init_secret_failure demo_env blank "dev" "rs/unreachable"
                           "eu-west-1" (PDict demo_creds) PNone false) _ eq_refl)).
Defined.

(** ** Placeholders and bind values *)

Lemma percents_app (a b : string) : percents (a ++ b) = (percents a + percents b)%nat.
Proof. induction a as [|x a IH]; simpl; [reflexivity | rewrite IH; lia]. Qed.

Lemma percents_join_free (sep : string) (l : list string) :
  percents sep = 0%nat -> forallb percent_free l = true -> percents (join sep l) = 0%nat.
Proof.
  intros Hsep. induction l as [|w l IH]; simpl; [reflexivity|].
  intros H. apply andb_true_iff in H as [Hw Hl]. apply Nat.eqb_eq in Hw.
  destruct l as [|w' l]; [exact Hw|].
  rewrite !percents_app, Hw, Hsep. exact (IH Hl).
Qed.

Lemma percents_placeholders (data : dict) :
  percents (join "," (map (fun _ : string * pyval => "%s") data)) = length data.
Proof.
  induction data as [|kv data IH]; [reflexivity|].
  destruct data as [|kv' data]; [reflexivity|].
  change (percents ("%s" ++ "," ++ join "," (map (fun _ : string * pyval => "%s")
                                               (kv' :: data)))
          = S (length (kv' :: data))).
  rewrite !percents_app, IH. reflexivity.
Qed.

Lemma percents_format_update (data : dict) :
  forallb percent_free (keys data) = true ->
  percents (_format_update data)
  = (length data + match data with [] => 1 | _ => 0 end)%nat.
Proof.
  unfold _format_update. rewrite percents_app. change (percents "=%s") with 1%nat.
  induction data as [|[k v] data IH]; [reflexivity|].
  simpl keys. simpl forallb. intros H. apply andb_true_iff in H as [Hk Hfree].
  apply Nat.eqb_eq in Hk. specialize (IH Hfree).
  destruct data as [|[k' v'] data].
  - simpl. rewrite Hk. reflexivity.
  - change (join "=%s," (k :: keys ((k', v') :: data)))
      with (k ++ "=%s," ++ join "=%s," (keys ((k', v') :: data))).
    rewrite !percents_app, Hk. change (percents "=%s,") with 1%nat.
    simpl length in *. lia.
Qed.

(** X14. When the table name, the keys of [data] and the RETURNING text
    hold no percent sign, the statement of [insert] has exactly as many
    placeholders as bind values; so has the statement of [update] for
    non-empty [data] and a where argument that is absent or a pair with
    one value per placeholder.  With empty [data], [update] emits the
    assignment [=%s] all the same: one placeholder more than it binds. *)
Theorem placeholders_match_binds table data where_ returning :
  percents table = 0%nat ->
  forallb percent_free (keys data) = true ->
  percents (_returning returning) = 0%nat ->
  balanced where_ = true ->
  percents (insert_sql table data returning) = length (values data)
  /\ percents (update_sql table data where_ returning)
     = (length (update_params data where_) + match data with [] => 1 | _ => 0 end)%nat.
Proof.
  intros Htable Hkeys Hret Hwhere.
  assert (Hvalues : length (values data) = length data) by apply length_map.
  split.
  - unfold insert_sql, _format_insert.
    rewrite !percents_app, percents_placeholders, Htable, Hret.
    rewrite (percents_join_free "," (keys data) eq_refl Hkeys). simpl. lia.
  - unfold update_sql. rewrite !percents_app, Htable, Hret.
    rewrite (percents_format_update data Hkeys).
    change (percents "UPDATE ") with 0%nat. change (percents " SET ") with 0%nat.
    unfold update_params, _where. unfold balanced in Hwhere.
    destruct where_ as [[predicate [|vals [|more rest]]]|]; simpl in Hwhere;
      try discriminate.
    + apply Nat.eqb_eq in Hwhere. simpl w_pred. simpl w_rest.
      rewrite percents_app, length_app, Hvalues, Hwhere.
      change (percents " WHERE ") with 0%nat. lia.
    + rewrite Hvalues. simpl. lia.
Qed.

Lemma placeholders_match_binds_witness :
  percents (update_sql "t" [] (Some (Where "id=%s" [[PInt 1]])) None) = 2%nat
  /\ length (update_params [] (Some (Where "id=%s" [[PInt 1]]))) = 1%nat.
Proof.
  split; [|reflexivity].
  exact (proj2 (placeholders_match_binds "t" [] (Some (Where "id=%s" [[PInt 1]])) None
                  eq_refl eq_refl eq_refl eq_refl)).
Defined.

(** ** Catalog methods *)

Lemma project_rows column rows st :
  project column (map as_dict rows) st
  = match find (fun row => match cell column row with None => true | _ => false end) rows
    with
    | Some _ => (Raise (KeyError column), st)
    | None => (Ok (omap (cell column) rows), st)
    end.
Proof.
  unfold project. set (f := fun i => getitem i column).
  assert (Hf : forall row, f (as_dict row) st
                           = match cell column row with
                             | Some v => (Ok v, st)
                             | None => (Raise (KeyError column), st)
                             end).
  { intros row. unfold f, getitem, as_dict, cell. now destruct (dict_get _ column). }
  clearbody f.
  induction rows as [|row rows IH]; [reflexivity|].
  simpl map. simpl mapM. unfold bind at 1. rewrite Hf.
  simpl find. simpl omap. destruct (cell column row) as [v|]; [|reflexivity].
  unfold bind at 1. rewrite IH.
  now destruct (find _ rows).
Qed.

Section CatalogProps.

Variable E : Env.

(** [execute] with a truthy return type, on a connected connector whose
    statement the server answers with a result set. *)
Lemma execute_dicts_run st c s sql return_type rows rc :
  connected st c s ->
  truthy return_type = true ->
  server E (s_database s) sql None = inr (QResult (Some rows) rc) ->
  execute E sql return_type st
  = (Ok (map as_dict rows),
     set_cursors (alter (with_rows []) (length (cursors st)))
       (ran (length (cursors st)) c sql None (QResult (Some rows) rc)
          (set_cursors (fun cs => (cs ++ [MkCursor c RealDictCursor false None (-1)])%list)
             st))).
Proof.
  intros [Hconn Hs Hopen] Htruthy Hserver.
  set (cur := MkCursor c RealDictCursor false None (-1)).
  set (st1 := set_cursors (fun cs => (cs ++ [cur])%list) st).
  assert (Hcur : cursors st1 !! length (cursors st) = Some cur)
    by (apply list_lookup_middle; reflexivity).
  unfold execute. unfold bind at 1. rewrite (self_conn_ok _ _ Hconn).
  unfold bind at 1. rewrite (conn_cursor_ok _ _ _ _ Hs Hopen).
  rewrite execute_factory_dict, Htruthy. fold cur. fold st1.
  unfold try_except. unfold bind at 1.
  rewrite (cursor_execute_ok E st1 _ cur s _ _ _ Hcur eq_refl Hs Hopen Hserver).
  change (cur_conn cur) with c. change (negb true) with false. cbv iota.
  unfold bind at 1.
  rewrite (fetchall_ran_pair st1 _ cur _ _ (QResult (Some rows) rc) rows Hcur eq_refl eq_refl).
  change (cur_conn cur) with c. change (cur_factory cur) with RealDictCursor.
  now rewrite mapM_to_dict_rows.
Qed.

(** X15. [list_schemas], [list_tables_in_schema] and [list_databases]
    return, in the order of the rows the server answers, the value each
    row holds for the column [nspname], [tablename] or [datname]; if any
    row lacks the column, they raise a key error for it instead. *)
Theorem catalog_lists_project_a_column st c s schema_name :
  connected st c s ->
  let answer sql :=
    match server E (s_database s) sql None with
    | inr (QResult (Some rows) _) => Some rows
    | _ => None
    end in
  let projected column rows :=
    match find (fun row => match cell column row with None => true | _ => false end) rows
    with
    | Some _ => Raise (KeyError column)
    | None => Ok (omap (cell column) rows)
    end in
  match answer "select nspname from pg_catalog.pg_namespace;" with
  | Some rows => fst (list_schemas E st) = projected "nspname" rows
  | None => True
  end
  /\ match answer ("select * from pg_tables where schemaname='" ++ schema_name ++ "';") with
     | Some rows => fst (list_tables_in_schema E schema_name st) = projected "tablename" rows
     | None => True
     end
  /\ match answer "SELECT datname FROM pg_database;" with
     | Some rows => fst (list_databases E st) = projected "datname" rows
     | None => True
     end.
Proof.
  intros Hconnected answer projected. subst answer projected. cbv beta.
  repeat match goal with |- _ /\ _ => split end.
  - destruct (server E (s_database s) _ None) as [e|[[rows|] rc]] eqn:Hserver; try exact I.
    unfold list_schemas. cbv zeta. unfold bind.
    rewrite (execute_dicts_run _ _ _ _ (PStr "d") _ _ Hconnected eq_refl Hserver).
    rewrite project_rows. now destruct (find _ rows).
  - destruct (server E (s_database s) _ None) as [e|[[rows|] rc]] eqn:Hserver; try exact I.
    unfold list_tables_in_schema. cbv zeta. unfold bind.
    rewrite (execute_dicts_run _ _ _ _ (PStr "dict") _ _ Hconnected eq_refl Hserver).
    rewrite project_rows. now destruct (find _ rows).
  - destruct (server E (s_database s) _ None) as [e|[[rows|] rc]] eqn:Hserver; try exact I.
    unfold list_databases. cbv zeta. unfold bind.
    rewrite (execute_dicts_run _ _ _ _ (PStr "dict") _ _ Hconnected eq_refl Hserver).
    rewrite project_rows. now destruct (find _ rows).
Qed.

End CatalogProps.

Lemma catalog_lists_project_a_column_witness :
  fst (list_schemas catalog_env demo_state) = Ok [PStr "public"; PStr "etl"]
  /\ fst (list_tables_in_schema catalog_env "public" demo_state)
     = Ok [PStr "sales"; PStr "stock"].
Proof.
  pose proof (catalog_lists_project_a_column catalog_env demo_state 0 _ "public"
                demo_connected) as H.
  split; [exact (proj1 H) | exact (proj1 (proj2 H))].
Defined.

(** ** Methods that can raise index and value errors *)

Lemma mapMX_first_cell rows st :
  mapMX first_cell (map (shape PlainCursor) rows) st
  = (match heads rows with
     | Some vs => Returned vs
     | None => Raised (IndexError "tuple index out of range")
     end, st).
Proof.
  induction rows as [|row rows IH]; [reflexivity|].
  simpl map. simpl mapMX. unfold bindX at 1.
  destruct row as [|[k v] row]; [reflexivity|].
  simpl. unfold bindX at 1. rewrite IH. now destruct (heads rows).
Qed.

Section BulkProps.

Variable E : Env.
Variable execute_values : nat -> string -> list pyval -> pyval -> MX pyval.

Lemma list_tables_unfold st :
  list_tables E st
  = match cursor_execute E (cursor (self st))
            "select relname from pg_class where relkind='r' and relname !~ '^(pg_|sql_)';"
            None st with
    | (Ok _, st1) =>
        match fetchall (cursor (self st)) st1 with
        | (Ok rows, st2) => mapMX first_cell rows st2
        | (Raise e, st2) => (Raised (Client e), st2)
        end
    | (Raise e, st1) => (Raised (Client e), st1)
    end.
Proof.
  unfold list_tables. unfold bindX at 1. unfold up at 1, get at 1. cbv beta iota zeta.
  unfold bindX at 1. unfold up at 1.
  destruct (cursor_execute E (cursor (self st)) _ None st) as [[[]|e] st1]; [|reflexivity].
  unfold bindX at 1. unfold up at 1.
  now destruct (fetchall (cursor (self st)) st1) as [[rows|e] st2].
Qed.

(** X16. [list_tables] runs its catalog query on the connector's own
    plain cursor, outside any handler.  When the server answers with
    rows it returns the first cell of each, in order (an index error if
    a row has no cell); when the server fails, the error reaches the
    caller unchanged and nothing is printed. *)
Theorem list_tables_first_cells st c s :
  ready st c s ->
  cur_factory c = PlainCursor ->
  let sql := "select relname from pg_class where relkind='r' and relname !~ '^(pg_|sql_)';" in
  match server E (s_database s) sql None with
  | inl e =>
      fst (list_tables E st) = Raised (Client e)
      /\ stdout (snd (list_tables E st)) = stdout st
  | inr (QResult (Some rows) _) =>
      fst (list_tables E st)
      = match heads rows with
        | Some vs => Returned vs
        | None => Raised (IndexError "tuple index out of range")
        end
  | inr (QResult None _) => fst (list_tables E st) = Raised (Client no_results)
  end.
Proof.
  intros Hready Hplain sql. subst sql.
  pose proof Hready as [Hc Hco Hs Hso].
  rewrite !list_tables_unfold.
  destruct (server E (s_database s) _ None) as [e|[[rows|] rc]] eqn:Hserver.
  - rewrite (cursor_execute_err E _ _ _ _ _ _ _ Hc Hco Hs Hso Hserver).
    split; reflexivity.
  - rewrite (cursor_execute_ok E _ _ _ _ _ _ _ Hc Hco Hs Hso Hserver).
    rewrite (fetchall_ran_pair st _ c _ _ (QResult (Some rows) rc) rows Hc Hco eq_refl).
    rewrite Hplain, mapMX_first_cell. reflexivity.
  - rewrite (cursor_execute_ok E _ _ _ _ _ _ _ Hc Hco Hs Hso Hserver).
    unfold fetchall, open_cursor, ran. unfold_m. simpl.
    rewrite list_lookup_alter_eq, Hc. simpl. rewrite Hco. reflexivity.
Qed.

(** X17. [insert_many] with an empty list fails with an index error
    before anything is sent.  With a non-empty list it hands the
    library's [execute_values], once, the connector's cursor, a
    statement that names the columns of the first row only, one tuple
    per row holding that row's values in its own order, and the
    returning argument as the fetch flag; an error of the helper reaches
    the caller, and after it the result is the cursor's next row when
    returning is requested, else [None].  The keys of the later rows are
    never looked at, so rows whose keys differ from the first row's are
    accepted as they are. *)
Theorem insert_many_reads_first_row_keys table first rest returning st :
  let r := insert_many execute_values table (first :: rest) returning st in
  insert_many execute_values table [] returning st
  = (Raised (IndexError "list index out of range"), st)
  /\ match execute_values (cursor (self st))
             ("INSERT INTO " ++ table ++ " (" ++ join "," (keys first) ++ ") VALUES %s"
              ++ _returning returning)
             (PTuple (values first) :: map (fun item => PTuple (values item)) rest)
             (match returning with Some text => PStr text | None => PNone end)
             st with
     | (Raised e, st1) => r = (Raised e, st1)
     | (Returned _, st1) =>
         r = if requested returning then up (fetchone (cursor (self st1))) st1
             else (Returned PNone, st1)
     end
  /\ forall first' rest',
       keys first = keys first' ->
       map values (first :: rest) = map values (first' :: rest') ->
       r = insert_many execute_values table (first' :: rest') returning st.
Proof.
  intros r. split; [reflexivity|]. split.
  - assert (Hr : r = bindX (execute_values (cursor (self st))
                              ("INSERT INTO " ++ table ++ " (" ++ join "," (keys first)
                               ++ ") VALUES %s" ++ _returning returning)
                              (PTuple (values first)
                               :: map (fun item => PTuple (values item)) rest)
                              (as_pyval returning))
                       (fun _ => if requested returning
                                 then bindX (up get)
                                        (fun st' => up (fetchone (cursor (self st'))))
                                 else retX PNone) st) by reflexivity.
    rewrite Hr. clear Hr r. fold (as_pyval returning). unfold bindX.
    destruct (execute_values _ _ _ _ st) as [[v|e] st1]; [|reflexivity].
    destruct (requested returning); reflexivity.
  - intros first' rest' Hkeys Hvalues. subst r. unfold insert_many.
    rewrite Hkeys.
    replace (map (fun item => PTuple (values item)) (first :: rest))
      with (map PTuple (map values (first :: rest))) by now rewrite map_map.
    replace (map (fun item => PTuple (values item)) (first' :: rest'))
      with (map PTuple (map values (first' :: rest'))) by now rewrite map_map.
    now rewrite Hvalues.
Qed.

(** X18. [verify_schema_exists] hands back, unchanged, the single cell
    of the first row the server answers: an index error when there is
    no row, a value error when the row does not hold exactly one
    column. *)
Theorem verify_schema_exists_unpacks_one_cell st c s schema_name :
  connected st c s ->
  match server E (s_database s)
          ("SELECT EXISTS(SELECT 1 FROM pg_namespace WHERE nspname = '"
           ++ schema_name ++ "');") None with
  | inr (QResult (Some rows) _) =>
      fst (verify_schema_exists E schema_name st)
      = match rows with
        | [] => Raised (IndexError "list index out of range")
        | row :: _ =>
            match values (dict_of_items row) with
            | [v] => Returned v
            | [] => Raised (ValueError "not enough values to unpack (expected 1, got 0)")
            | _ => Raised (ValueError "too many values to unpack (expected 1)")
            end
        end
  | _ => True
  end.
Proof.
  intros Hconnected.
  destruct (server E (s_database s) _ None) as [e|[[rows|] rc]] eqn:Hserver; try exact I.
  unfold verify_schema_exists. cbv zeta. unfold bindX at 1. unfold up at 1.
  rewrite (execute_dicts_run E _ _ _ _ (PStr "d") _ _ Hconnected eq_refl Hserver).
  destruct rows as [|row rows]; [reflexivity|].
  unfold bindX, values_of, as_dict, retX, raiseX, unpack_one. cbn [map]. cbv beta iota.
  now destruct (values (dict_of_items row)) as [|v [|v' vs]].
Qed.

End BulkProps.

Lemma catalog_ready :
  ready demo_state (MkCursor 0 PlainCursor false None (-1))
    (MkSession "dev" (PStr "rs.example") (PInt 5439) (PStr "admin") (PStr "pw")
       false false [] []).
Proof. split; reflexivity. Qed.

Lemma list_tables_first_cells_witness :
  fst (list_tables catalog_env demo_state) = Returned [PStr "sales"; PStr "stock"].
Proof.
  exact (list_tables_first_cells catalog_env demo_state _ _ catalog_ready eq_refl).
Defined.

Lemma verify_schema_exists_unpacks_one_cell_witness :
  fst (verify_schema_exists catalog_env "etl" demo_state) = Returned (PBool true).
Proof.
  exact (verify_schema_exists_unpacks_one_cell catalog_env demo_state 0 _ "etl"
           demo_connected).
Defined.

(** * Properties of the request handlers *)

Lemma getitemX_dict d k v st :
  dict_get d k = Some v -> getitemX (PDict d) k st = (Returned v, st).
Proof. intros H. unfold getitemX, up, getitem. now rewrite H. Qed.

Section HandlerProps.

Variable display : pyval -> string.
Variable py_int : string -> option Z.
Variable insert_event_to_dynamoDb : pyval -> pyval -> string -> option string -> MX pyval.
Variable get_response : string -> bool -> pyval -> pyval -> option string -> MX pyval.
Variable global_config : list (string * string).
Variable update_target_system :
  string -> Database -> pyval -> list (string * string) -> MX pyval.

(** X19. When the update it wraps raises, [update_target_sys] prints
    the error and records the event, and then fails itself: its
    [finally] block assigns into the response, which is still [None].
    The caller gets a type error, neither the original exception nor a
    response.  When the update returns a dict, the handler returns it
    with the status code of the audit-trail entry added. *)
Theorem update_target_sys_fails_on_a_failed_update
    method metadata_db redshift_db ev body target_config context audit code st :
  dict_get ev "body-json" = Some (PDict body) ->
  dict_get body "target_config" = Some target_config ->
  (forall st', insert_event_to_dynamoDb (PDict ev) context "synchronous" None st'
               = (Returned (PDict audit), st')) ->
  dict_get audit "statusCode" = Some code ->
  let r := update_target_sys insert_event_to_dynamoDb global_config update_target_system
             method metadata_db redshift_db (PDict ev) context st in
  match update_target_system method metadata_db target_config global_config st with
  | (Raised e, st1) =>
      r = (Raised (Client (TypeError "'NoneType' object does not support item assignment")),
           set_stdout (fun o => (o ++ [str_raised e])%list) st1)
  | (Returned (PDict d), st1) =>
      r = (Returned (PDict (dict_set d "sourceCodeDynamoDb" code)), st1)
  | (Returned PNone, st1) =>
      r = (Raised (Client (TypeError "'NoneType' object does not support item assignment")),
           st1)
  | _ => True
  end.
Proof.
  intros Hbody Hconfig Haudit Hcode r.
  assert (Hrun : r = match update_target_system method metadata_db target_config
                             global_config st with
                     | (Returned api, st1) =>
                         (fst (setitem api "sourceCodeDynamoDb" code st1), st1)
                     | (Raised e, st1) =>
                         (Raised (Client (TypeError
                            "'NoneType' object does not support item assignment")),
                          set_stdout (fun o => (o ++ [str_raised e])%list) st1)
                     end).
  { subst r. unfold update_target_sys. unfold bindX at 1.
    rewrite (getitemX_dict _ _ _ _ Hbody).
    cbv zeta. unfold bindX at 1. rewrite (getitemX_dict _ _ _ _ Hconfig).
    unfold bindX at 1. unfold try_exceptX.
    destruct (update_target_system method metadata_db target_config global_config st)
      as [[api|e] st1].
    - unfold bindX at 1. rewrite (Haudit st1). unfold bindX at 1.
      rewrite (getitemX_dict _ _ _ _ Hcode). now destruct api.
    - unfold bindX at 1. unfold printX, up, print, modify. cbv beta iota.
      unfold retX at 1. cbv beta iota.
      unfold bindX at 1.
      rewrite (Haudit (set_stdout (fun o => (o ++ [str_raised e])%list) st1)).
      unfold bindX at 1.
      now rewrite (getitemX_dict _ _ _ _ Hcode). }
  rewrite Hrun.
  now destruct (update_target_system method metadata_db target_config global_config st)
    as [[[]|e] st1].
Qed.

End HandlerProps.

Lemma update_target_sys_fails_on_a_failed_update_witness :
  update_target_sys demo_insert_event demo_config demo_update_fails "update"
    (connector_database demo_env) (connector_database demo_env)
    (request "/targetsystem/update" [("target_config", PDict [("target_id", PInt 7)])])
    PNone demo_state
  = (Raised (Client (TypeError "'NoneType' object does not support item assignment")),
     set_stdout (fun o => (o ++ ["no such target system"])%list) demo_state).
Proof.
  exact (update_target_sys_fails_on_a_failed_update demo_insert_event demo_config
           demo_update_fails "update" (connector_database demo_env)
           (connector_database demo_env)
           [("context", PDict [("resource-path", PStr "/targetsystem/update")]);
            ("body-json", PDict [("target_config", PDict [("target_id", PInt 7)])])]
           [("target_config", PDict [("target_id", PInt 7)])]
           (PDict [("target_id", PInt 7)]) PNone [("statusCode", PInt 200)] (PInt 200)
           demo_state eq_refl eq_refl (fun _ => eq_refl) eq_refl).
Defined.

(** ** A handler on the connector: [read_asset] *)

Section ReadAsset.

Variable E : Env.
Variable insert_event_to_dynamoDb : pyval -> pyval -> string -> option string -> MX pyval.

Lemma retrieve_dict_fail_run st c s table cols where_ order limit e :
  connected st c s ->
  server E (s_database s)
    (_select table (retrieve_dict_columns cols) where_ order limit None)
    (where_params where_) = inl e ->
  retrieve_dict E table cols where_ order limit st
  = (Raise e,
     set_calls (fun cs => (cs ++ [(length (cursors st),
                                   _select table (retrieve_dict_columns cols) where_ order
                                     limit None,
                                   where_params where_)])%list)
       (set_cursors (fun cs => (cs ++ [MkCursor c RealDictCursor false None (-1)])%list) st)).
Proof.
  intros [Hconn Hs Hopen] Hserver.
  set (cur := MkCursor c RealDictCursor false None (-1)).
  set (st1 := set_cursors (fun cs => (cs ++ [cur])%list) st).
  assert (Hcur : cursors st1 !! length (cursors st) = Some cur)
    by (apply list_lookup_middle; reflexivity).
  unfold retrieve_dict. unfold bind at 1. rewrite (self_conn_ok _ _ Hconn).
  unfold bind at 1. rewrite (conn_cursor_ok _ _ _ _ Hs Hopen). fold cur. fold st1.
  cbv zeta. unfold bind at 1.
  now rewrite (cursor_execute_err E st1 _ cur s _ _ _ Hcur eq_refl Hs Hopen Hserver).
Qed.

Lemma fetchall_ran_none st cid c sql params r :
  cursors st !! cid = Some c -> cur_closed c = false ->
  q_rows r = None ->
  fetchall cid (ran cid (cur_conn c) sql params r st)
  = (Raise no_results, ran cid (cur_conn c) sql params r st).
Proof.
  intros Hc Hco Hrows.
  unfold fetchall, open_cursor, ran. unfold_m. simpl.
  rewrite list_lookup_alter_eq, Hc. simpl. rewrite Hco. simpl.
  rewrite Hrows. reflexivity.
Qed.

Lemma retrieve_dict_no_rows_run st c s table cols where_ order limit rc :
  connected st c s ->
  server E (s_database s)
    (_select table (retrieve_dict_columns cols) where_ order limit None)
    (where_params where_) = inr (QResult None rc) ->
  retrieve_dict E table cols where_ order limit st
  = (Raise no_results,
     ran (length (cursors st)) c
       (_select table (retrieve_dict_columns cols) where_ order limit None)
       (where_params where_) (QResult None rc)
       (set_cursors (fun cs => (cs ++ [MkCursor c RealDictCursor false None (-1)])%list) st)).
Proof.
  intros [Hconn Hs Hopen] Hserver.
  set (cur := MkCursor c RealDictCursor false None (-1)).
  set (st1 := set_cursors (fun cs => (cs ++ [cur])%list) st).
  assert (Hcur : cursors st1 !! length (cursors st) = Some cur)
    by (apply list_lookup_middle; reflexivity).
  unfold retrieve_dict. unfold bind at 1. rewrite (self_conn_ok _ _ Hconn).
  unfold bind at 1. rewrite (conn_cursor_ok _ _ _ _ Hs Hopen). fold cur. fold st1.
  cbv zeta. unfold bind at 1.
  rewrite (cursor_execute_ok E st1 _ cur s _ _ _ Hcur eq_refl Hs Hopen Hserver).
  change (cur_conn cur) with c. unfold bind at 1.
  now rewrite (fetchall_ran_none st1 _ cur _ _ (QResult None rc) Hcur eq_refl eq_refl).
Qed.

(** [read_asset] for a request that carries [src_sys_id], with an
    audit-trail helper that returns: the three answers of the server. *)
Lemma read_asset_with_key st c s ev body v context audit code :
  connected st c s ->
  dict_get ev "body-json" = Some (PDict body) ->
  dict_get body "src_sys_id" = Some v ->
  (forall st', insert_event_to_dynamoDb (PDict ev) context "synchronous" None st'
               = (Returned (PDict audit), st')) ->
  dict_get audit "statusCode" = Some code ->
  let r := read_asset insert_event_to_dynamoDb (PDict ev) context (connector_database E) st in
  let sql := _select "data_asset" (retrieve_dict_columns (ColsList asset_columns))
               (Some (Where "src_sys_id=%s" [[v]])) None None None in
  match server E (s_database s) sql (Some [v]) with
  | inr (QResult (Some rows) _) =>
      fst r = Returned (asset_response "200" code (PList (map as_dict rows)))
      /\ stdout (snd r) = stdout st
      /\ exists s', sessions (snd r) !! c = Some s' /\ s_closed s' = true
  | inl e =>
      fst r = Returned (asset_response "404" code (PDict [("error", PStr (str_exn e))]))
      /\ stdout (snd r) = (stdout st ++ [str_exn e])%list
      /\ exists s', sessions (snd r) !! c = Some s' /\ s_closed s' = true
  | inr (QResult None _) =>
      fst r = Returned (asset_response "404" code
                          (PDict [("error", PStr (str_exn no_results))]))
      /\ stdout (snd r) = (stdout st ++ [str_exn no_results])%list
      /\ exists s', sessions (snd r) !! c = Some s' /\ s_closed s' = true
  end.
Proof.
  intros Hconnected Hbody Hsrc Haudit Hcode r sql.
  pose proof Hconnected as [Hconn Hs Hopen].
  destruct (server E (s_database s) sql (Some [v])) as [e|[[rows|] rc]] eqn:Hserver.
  - (* the server fails *)
    pose proof (retrieve_dict_fail_run st c s "data_asset" (ColsList asset_columns)
                  (Some (Where "src_sys_id=%s" [[v]])) None None e Hconnected Hserver)
      as Hrun.
    set (st1 := set_calls _ _) in Hrun.
    assert (Hconnected1 : connected st1 c s) by (split; assumption).
    pose proof (close_run st1 c s Hconnected1) as Hclose.
    set (st2 := set_sessions _ _) in Hclose.
    assert (Hr : r = (Returned (asset_response "404" code
                                  (PDict [("error", PStr (str_exn e))])),
                      set_stdout (fun o => (o ++ [str_exn e])%list) st2)).
    { subst r. unfold read_asset. unfold bindX at 1.
      rewrite (getitemX_dict _ _ _ _ Hbody). cbv zeta.
      unfold bindX at 1. rewrite (getitemX_dict _ _ _ _ Hsrc).
      unfold bindX at 1. unfold try_exceptX. unfold bindX at 1.
      unfold connector_database, db_retrieve_dict, db_close. unfold up at 1.
      rewrite Hrun. unfold bindX at 1. unfold up at 1. rewrite Hclose.
      unfold bindX at 1. unfold printX, up, print, modify. cbv beta iota.
      unfold retX at 1. cbv beta iota. unfold bindX at 1.
      change (str_raised (Client e)) with (str_exn e).
      rewrite (Haudit (set_stdout (fun o => (o ++ [str_exn e])%list) st2)).
      unfold bindX at 1. rewrite (getitemX_dict _ _ _ _ Hcode). reflexivity. }
    rewrite Hr. cbn [fst snd]. split; [reflexivity|]. split; [reflexivity|].
    exists (close_session (commit_session s)). split; [|reflexivity].
    subst st2. cbn. now rewrite !list_lookup_alter_eq, Hs.
  - (* the server answers with rows *)
    pose proof (retrieve_dict_run E st c s "data_asset" (ColsList asset_columns)
                  (Some (Where "src_sys_id=%s" [[v]])) None None rows rc
                  Hconnected Hserver) as Hrun.
    set (st1 := set_cursors _ _) in Hrun.
    set (q := (sql, Some [v])).
    assert (Hs1 : sessions st1 !! c = Some (record_stmt q s)).
    { subst st1. unfold ran. cbn. now rewrite list_lookup_alter_eq, Hs. }
    assert (Hconnected1 : connected st1 c (record_stmt q s)).
    { split; [exact Hconn | exact Hs1 | now rewrite record_stmt_closed]. }
    pose proof (close_run st1 c _ Hconnected1) as Hclose.
    set (st2 := set_sessions _ _) in Hclose.
    assert (Hr : r = (Returned (asset_response "200" code (PList (map as_dict rows))),
                      st2)).
    { subst r. unfold read_asset. unfold bindX at 1.
      rewrite (getitemX_dict _ _ _ _ Hbody). cbv zeta.
      unfold bindX at 1. rewrite (getitemX_dict _ _ _ _ Hsrc).
      unfold bindX at 1. unfold try_exceptX. unfold bindX at 1.
      unfold connector_database, db_retrieve_dict, db_close. unfold up at 1.
      rewrite Hrun. unfold bindX at 1. unfold up at 1. rewrite Hclose.
      unfold retX at 1. cbv beta iota. unfold bindX at 1.
      rewrite (Haudit st2).
      unfold bindX at 1. rewrite (getitemX_dict _ _ _ _ Hcode). reflexivity. }
    rewrite Hr. cbn [fst snd]. split; [reflexivity|]. split; [reflexivity|].
    exists (close_session (commit_session (record_stmt q s))). split; [|reflexivity].
    subst st2. cbn [sessions set_sessions set_cursors].
    now rewrite !list_lookup_alter_eq, Hs1.
  - (* the statement gave no result set *)
    pose proof (retrieve_dict_no_rows_run st c s "data_asset" (ColsList asset_columns)
                  (Some (Where "src_sys_id=%s" [[v]])) None None rc
                  Hconnected Hserver) as Hrun.
    set (st1 := ran _ _ _ _ _ _) in Hrun.
    set (q := (sql, Some [v])).
    assert (Hs1 : sessions st1 !! c = Some (record_stmt q s)).
    { subst st1. unfold ran. cbn. now rewrite list_lookup_alter_eq, Hs. }
    assert (Hconnected1 : connected st1 c (record_stmt q s)).
    { split; [exact Hconn | exact Hs1 | now rewrite record_stmt_closed]. }
    pose proof (close_run st1 c _ Hconnected1) as Hclose.
    set (st2 := set_sessions _ _) in Hclose.
    assert (Hr : r = (Returned (asset_response "404" code
                                  (PDict [("error", PStr (str_exn no_results))])),
                      set_stdout (fun o => (o ++ [str_exn no_results])%list) st2)).
    { subst r. unfold read_asset. unfold bindX at 1.
      rewrite (getitemX_dict _ _ _ _ Hbody). cbv zeta.
      unfold bindX at 1. rewrite (getitemX_dict _ _ _ _ Hsrc).
      unfold bindX at 1. unfold try_exceptX. unfold bindX at 1.
      unfold connector_database, db_retrieve_dict, db_close. unfold up at 1.
      rewrite Hrun. unfold bindX at 1. unfold up at 1. rewrite Hclose.
      unfold bindX at 1. unfold printX, up, print, modify. cbv beta iota.
      unfold retX at 1. cbv beta iota. unfold bindX at 1.
      change (str_raised (Client no_results)) with (str_exn no_results).
      rewrite (Haudit (set_stdout (fun o => (o ++ [str_exn no_results])%list) st2)).
      unfold bindX at 1. rewrite (getitemX_dict _ _ _ _ Hcode). reflexivity. }
    rewrite Hr. cbn [fst snd]. split; [reflexivity|]. split; [reflexivity|].
    exists (close_session (commit_session (record_stmt q s))). split; [|reflexivity].
    subst st2. cbn [sessions set_sessions set_stdout set_cursors].
    now rewrite !list_lookup_alter_eq, Hs1.
Qed.

(** X20. On this repository's connector, connected, [read_asset] reads
    [src_sys_id] from the request body before anything else: without
    the key it raises a key error, no statement is run and the
    connection stays open.  With the key, and an audit-trail helper that
    returns its entry, the handler answers whatever the server does and
    closes the connection on every path: status 200 with the rows as
    body when the select on [data_asset] yields rows; status 404 with
    the error text as body, after printing the error, when the server
    fails or the statement gives no result set. *)
Theorem read_asset_closes_unless_key_missing st c s ev body context :
  connected st c s ->
  dict_get ev "body-json" = Some (PDict body) ->
  let r := read_asset insert_event_to_dynamoDb (PDict ev) context (connector_database E) st in
  match dict_get body "src_sys_id" with
  | None => r = (Raised (Client (KeyError "src_sys_id")), st)
  | Some v =>
      forall audit code,
        (forall st', insert_event_to_dynamoDb (PDict ev) context "synchronous" None st'
                     = (Returned (PDict audit), st')) ->
        dict_get audit "statusCode" = Some code ->
        let sql := _select "data_asset" (retrieve_dict_columns (ColsList asset_columns))
                     (Some (Where "src_sys_id=%s" [[v]])) None None None in
        match server E (s_database s) sql (Some [v]) with
        | inr (QResult (Some rows) _) =>
            fst r = Returned (asset_response "200" code (PList (map as_dict rows)))
            /\ stdout (snd r) = stdout st
            /\ exists s', sessions (snd r) !! c = Some s' /\ s_closed s' = true
        | inl e =>
            fst r = Returned (asset_response "404" code (PDict [("error", PStr (str_exn e))]))
            /\ stdout (snd r) = (stdout st ++ [str_exn e])%list
            /\ exists s', sessions (snd r) !! c = Some s' /\ s_closed s' = true
        | inr (QResult None _) =>
            fst r = Returned (asset_response "404" code
                                (PDict [("error", PStr (str_exn no_results))]))
            /\ stdout (snd r) = (stdout st ++ [str_exn no_results])%list
            /\ exists s', sessions (snd r) !! c = Some s' /\ s_closed s' = true
        end
  end.
Proof.
  intros Hconnected Hbody r.
  destruct (dict_get body "src_sys_id") as [v|] eqn:Hsrc.
  - intros audit code Haudit Hcode.
    exact (read_asset_with_key st c s ev body v context audit code
             Hconnected Hbody Hsrc Haudit Hcode).
  - subst r. unfold read_asset. unfold bindX at 1.
    rewrite (getitemX_dict _ _ _ _ Hbody). cbv zeta.
    unfold bindX at 1. unfold getitemX, up, getitem. now rewrite Hsrc.
Qed.

End ReadAsset.

Lemma read_asset_closes_unless_key_missing_witness :
  (fst (read_asset demo_insert_event (request "/dataasset/read" [("src_sys_id", PInt 3)])
          PNone (connector_database catalog_env) demo_state)
   = Returned (asset_response "404" (PInt 200) (PDict [("error", PStr "syntax error")]))
   /\ stdout (snd (read_asset demo_insert_event
                     (request "/dataasset/read" [("src_sys_id", PInt 3)])
                     PNone (connector_database catalog_env) demo_state))
      = (stdout demo_state ++ ["syntax error"])%list
   /\ exists s',
        sessions (snd (read_asset demo_insert_event
                         (request "/dataasset/read" [("src_sys_id", PInt 3)])
                         PNone (connector_database catalog_env) demo_state)) !! 0%nat
        = Some s'
        /\ s_closed s' = true)
  /\ read_asset demo_insert_event (request "/dataasset/read" [("asset_id", PInt 3)])
       PNone (connector_database catalog_env) demo_state
     = (Raised (Client (KeyError "src_sys_id")), demo_state).
Proof.
  split.
  - exact (read_asset_closes_unless_key_missing catalog_env demo_insert_event demo_state
             0%nat _
             [("context", PDict [("resource-path", PStr "/dataasset/read")]);
              ("body-json", PDict [("src_sys_id", PInt 3)])]
             [("src_sys_id", PInt 3)] PNone demo_connected eq_refl
             [("statusCode", PInt 200)] (PInt 200) (fun _ => eq_refl) eq_refl).
  - exact (read_asset_closes_unless_key_missing catalog_env demo_insert_event demo_state
             0%nat _
             [("context", PDict [("resource-path", PStr "/dataasset/read")]);
              ("body-json", PDict [("asset_id", PInt 3)])]
             [("asset_id", PInt 3)] PNone demo_connected eq_refl).
Defined.

(** ** The target-system read handler *)

Section ReadTargetProps.

Variable py_int : string -> option Z.
Variable insert_event_to_dynamoDb : pyval -> pyval -> string -> option string -> MX pyval.
Variable get_response : string -> bool -> pyval -> pyval -> option string -> MX pyval.
Variable global_config : list (string * string).

(** X21. A read request whose fetch limit is [None] and whose target
    configuration is empty fails with an attribute error: the first
    branch is not taken, and the second asks [None] for [isdigit].  No
    query is run, no response is built and no audit entry is written. *)
Theorem read_target_sys_no_limit_no_payload
    method metadata_db ev body payload context table st :
  dict_get ev "body-json" = Some (PDict body) ->
  dict_get body "fetch_limit" = Some PNone ->
  dict_get body "target_config" = Some payload ->
  truthy payload = false ->
  config_get global_config "target_sys_table" st = (Returned table, st) ->
  read_target_sys py_int insert_event_to_dynamoDb get_response global_config
    method metadata_db (PDict ev) context st
  = (Raised (Client (AttributeError "'NoneType' object has no attribute 'isdigit'")), st).
Proof.
  intros Hbody Hlimit Hconfig Hfalsy Htable.
  unfold read_target_sys. unfold bindX at 1. rewrite (getitemX_dict _ _ _ _ Hbody).
  cbv zeta. unfold bindX at 1. rewrite (getitemX_dict _ _ _ _ Hlimit).
  unfold bindX at 1. rewrite (getitemX_dict _ _ _ _ Hconfig).
  unfold bindX at 1. unfold read_target_system. unfold bindX at 1.
  unfold read_target_info. unfold bindX at 1. rewrite Htable.
  rewrite Hfalsy. reflexivity.
Qed.

(** X22. On this repository's connector, an integer fetch limit of 0 is
    no limit: the read runs the same statement and gives the same
    response as the fetch limit ['all'], whatever the payload. *)
Theorem read_target_system_zero_limit_reads_all E method payload st :
  read_target_system py_int get_response global_config method (connector_database E)
    (PInt 0) payload st
  = read_target_system py_int get_response global_config method (connector_database E)
      (PStr "all") payload st.
Proof.
  unfold read_target_system, read_target_info.
  unfold bindX at 1. unfold bindX at 6.
  destruct (config_get global_config "target_sys_table" st) as [[table|e] st1];
    reflexivity.
Qed.

(** X23. A target id given as a string is converted with [int] before it
    is bound: the read then asks the database for the row with that
    integer id, as one bind value under [target_id=%s].  A string [int]
    rejects raises its value error and no query is run. *)
Theorem read_target_info_converts_string_id
    metadata_db fetch_limit payload s table st :
  no_limit fetch_limit = true ->
  dict_get payload "target_id" = Some (PStr s) ->
  config_get global_config "target_sys_table" st = (Returned table, st) ->
  let r := read_target_info py_int global_config metadata_db fetch_limit (PDict payload) st in
  match py_int s with
  | Some n =>
      r = bindX (db_retrieve_dict metadata_db table (ColsList cols)
                   (Some (Where "target_id=%s" [[PInt n]])) None None)
            (fun info => retX (Some info)) st
  | None => r = (Raised (ValueError "invalid literal for int() with base 10"), st)
  end.
Proof.
  intros Hlimit Hid Htable r.
  assert (Htruthy : truthy (PDict payload) = true)
    by (destruct payload; [discriminate Hid | reflexivity]).
  destruct (py_int s) as [n|] eqn:Hint; subst r; unfold read_target_info;
    unfold bindX at 1; rewrite Htable; rewrite Hlimit, Htruthy; cbn [andb];
    unfold bindX at 1; rewrite (getitemX_dict _ _ _ _ Hid);
    unfold to_int; rewrite Hint; reflexivity.
Qed.

End ReadTargetProps.

Lemma read_target_sys_no_limit_no_payload_witness :
  read_target_sys demo_int demo_insert_event demo_get_response demo_config "read"
    (connector_database demo_env)
    (request "/targetsystem/read" [("fetch_limit", PNone); ("target_config", PDict [])])
    PNone demo_state
  = (Raised (Client (AttributeError "'NoneType' object has no attribute 'isdigit'")),
     demo_state).
Proof.
  exact (read_target_sys_no_limit_no_payload demo_int demo_insert_event demo_get_response
           demo_config "read" (connector_database demo_env)
           [("context", PDict [("resource-path", PStr "/targetsystem/read")]);
            ("body-json", PDict [("fetch_limit", PNone); ("target_config", PDict [])])]
           [("fetch_limit", PNone); ("target_config", PDict [])]
           (PDict []) PNone "target_system" demo_state
           eq_refl eq_refl eq_refl eq_refl eq_refl).
Defined.

Lemma read_target_info_converts_string_id_witness :
  read_target_info demo_int demo_config (connector_database demo_env) (PStr "None")
    (PDict [("target_id", PStr "7")]) demo_state
  = bindX (db_retrieve_dict (connector_database demo_env) "target_system" (ColsList cols)
             (Some (Where "target_id=%s" [[PInt 7]])) None None)
      (fun info => retX (Some info)) demo_state.
Proof.
  exact (read_target_info_converts_string_id demo_int demo_config
           (connector_database demo_env) (PStr "None") [("target_id", PStr "7")] "7"
           "target_system" demo_state eq_refl eq_refl eq_refl).
Defined.

(** ** The entry point of the data-asset API *)

Lemma bindX_fst_returned {A B} (m : MX A) (k : A -> MX B) st v :
  fst (bindX m k st) = Returned v ->
  exists a st1, m st = (Returned a, st1) /\ fst (k a st1) = Returned v.
Proof.
  unfold bindX. destruct (m st) as [[a|e] st1]; [|discriminate].
  intros H. now exists a, st1.
Qed.

Lemma bindX_returned {A B} (m : MX A) (k : A -> MX B) st v st' :
  bindX m k st = (Returned v, st') ->
  exists a st1, m st = (Returned a, st1) /\ k a st1 = (Returned v, st').
Proof.
  unfold bindX. destruct (m st) as [[a|e] st1]; [|discriminate].
  intros H. now exists a, st1.
Qed.

Lemma printX_bind {B} line (k : unit -> MX B) st :
  bindX (printX line) k st = k tt (set_stdout (fun o => (o ++ [line])%list) st).
Proof. reflexivity. Qed.

(** Only a dict that is not empty answers a subscription by a key. *)
Lemma getitemX_truthy v k x st st1 :
  getitemX v k st = (Returned x, st1) -> truthy v = true.
Proof.
  unfold getitemX, up, getitem.
  destruct v as [| | | | | |d|d]; try discriminate;
    (destruct d; [discriminate | reflexivity]).
Qed.

Lemma route_run path st :
  route (PStr path) st
  = match split "/" (tail_str path) with
    | taskType :: method :: _ => (Returned (taskType, method), st)
    | _ => (Raised (IndexError "list index out of range"), st)
    end.
Proof.
  unfold route, as_str, bindX, retX, item, raiseX.
  destruct (split "/" (tail_str path)) as [|taskType [|method rest]]; reflexivity.
Qed.

Section EntryPoint.

Variable display : pyval -> string.
Variable insert_event_to_dynamoDb : pyval -> pyval -> string -> option string -> MX pyval.
Variable get_database : MX Database.

(** X24. The entry point routes on the second segment of the resource
    path and ignores the first.  With fewer than two segments it raises
    an index error before printing anything.  Otherwise it prints the
    event and the two segments; [health] is answered without asking for
    a database, [read] is [read_asset] on the database obtained, and any
    other method is answered with status 404, again without a
    database. *)
Theorem lambda_handler_routes_on_second_segment ev ctx path context st :
  dict_get ev "context" = Some (PDict ctx) ->
  dict_get ctx "resource-path" = Some (PStr path) ->
  let r := lambda_handler display insert_event_to_dynamoDb get_database (PDict ev)
             context st in
  match split "/" (tail_str path) with
  | taskType :: method :: _ =>
      let st3 := announced display (PDict ev) taskType method st in
      if String.eqb method "health" then
        r = (Returned (PDict [("statusCode", PStr "200");
                              ("body", PStr "API Health is good")]), st3)
      else if String.eqb method "read" then
        r = bindX get_database
              (fun db => read_asset insert_event_to_dynamoDb (PDict ev) context db) st3
      else
        r = (Returned (PDict [("statusCode", PStr "404"); ("body", PStr "Not found")]), st3)
  | _ => r = (Raised (IndexError "list index out of range"), st)
  end.
Proof.
  intros Hctx Hpath r.
  assert (Htruthy : truthy (PDict ev) = true)
    by (destruct ev; [discriminate Hctx | reflexivity]).
  assert (Hr : r = bindX (route (PStr path))
                     (fun tm =>
                        let st3 := announced display (PDict ev) (fst tm) (snd tm) in
                        if String.eqb (snd tm) "health" then
                          fun st => (Returned (PDict [("statusCode", PStr "200");
                                                      ("body", PStr "API Health is good")]),
                                     st3 st)
                        else if String.eqb (snd tm) "read" then
                          fun st => bindX get_database
                                      (fun db => read_asset insert_event_to_dynamoDb
                                                   (PDict ev) context db) (st3 st)
                        else
                          fun st => (Returned (PDict [("statusCode", PStr "404");
                                                      ("body", PStr "Not found")]),
                                     st3 st)) st).
  { subst r. unfold lambda_handler. unfold bindX at 1.
    rewrite (getitemX_dict _ _ _ _ Hctx). unfold bindX at 1.
    rewrite (getitemX_dict _ _ _ _ Hpath). unfold bindX at 1. unfold bindX at 5.
    destruct (route (PStr path) st) as [[[taskType method]|e] st1]; [|reflexivity].
    rewrite !printX_bind, Htruthy. cbn [fst snd]. unfold announced.
    destruct (String.eqb method "health"); [reflexivity|].
    destruct (String.eqb method "read"); reflexivity. }
  rewrite Hr. clear Hr r. unfold bindX. rewrite route_run.
  destruct (split "/" (tail_str path)) as [|taskType [|method rest]]; try reflexivity.
  cbn [fst snd].
  destruct (String.eqb method "health"); [reflexivity|].
  destruct (String.eqb method "read"); reflexivity.
Qed.

(** X25. Whatever the event, when the entry point returns, it returns a
    dict whose first entry is a status code, the string 200 or the
    string 404.  The fall through to [None] at the end of the function
    is never taken: an event that could be subscripted is not empty. *)
Theorem lambda_handler_returns_a_status event context st v :
  fst (lambda_handler display insert_event_to_dynamoDb get_database event context st)
  = Returned v ->
  exists code rest,
    v = PDict (("statusCode", PStr code) :: rest) /\ (code = "200" \/ code = "404").
Proof.
  unfold lambda_handler. intros H.
  apply bindX_fst_returned in H as (ctx & st1 & Hctx & H).
  apply bindX_fst_returned in H as (path & st2 & _ & H).
  apply bindX_fst_returned in H as ([taskType method] & st3 & _ & H).
  rewrite !printX_bind in H. rewrite (getitemX_truthy _ _ _ _ _ Hctx) in H.
  destruct (String.eqb method "health").
  { injection H as <-. eexists _, _. split; [reflexivity | now left]. }
  destruct (String.eqb method "read").
  2:{ injection H as <-. eexists _, _. split; [reflexivity | now right]. }
  apply bindX_fst_returned in H as (db & st4 & _ & H).
  unfold read_asset in H.
  apply bindX_fst_returned in H as (body & st5 & _ & H). cbv zeta in H.
  apply bindX_fst_returned in H as (src & st6 & _ & H).
  apply bindX_fst_returned in H as ([status answer] & st7 & Htry & H).
  apply bindX_fst_returned in H as (response & st8 & _ & H).
  apply bindX_fst_returned in H as (code & st9 & _ & H).
  injection H as <-. cbn [fst snd].
  exists status, [("sourceCodeDynamoDb", code); ("body", answer)].
  split; [reflexivity|].
  unfold try_exceptX in Htry.
  match type of Htry with
  | (let (_, _) := ?c in _) = _ => destruct c as [[out|e] sta] eqn:Hbody'
  end.
  - apply bindX_returned in Hbody' as (rows & stb & _ & Hbody').
    apply bindX_returned in Hbody' as (u & stc & _ & Hbody').
    injection Hbody' as <- _. injection Htry as <- _ _. now left.
  - apply bindX_returned in Htry as (u & stb & _ & Htry).
    rewrite printX_bind in Htry. injection Htry as <- _ _. now right.
Qed.

End EntryPoint.

Lemma lambda_handler_routes_on_second_segment_witness :
  lambda_handler demo_display demo_insert_event (retX (connector_database catalog_env))
    (request "/dataasset/health" []) PNone demo_state
  = (Returned (PDict [("statusCode", PStr "200"); ("body", PStr "API Health is good")]),
     announced demo_display (request "/dataasset/health" []) "dataasset" "health"
       demo_state).
Proof.
  exact (lambda_handler_routes_on_second_segment demo_display demo_insert_event
           (retX (connector_database catalog_env))
           [("context", PDict [("resource-path", PStr "/dataasset/health")]);
            ("body-json", PDict [])]
           [("resource-path", PStr "/dataasset/health")] "/dataasset/health" PNone
           demo_state eq_refl eq_refl).
Defined.

Lemma lambda_handler_returns_a_status_witness :
  fst (lambda_handler demo_display demo_insert_event
         (retX (connector_database catalog_env))
         (request "/dataasset/read" [("src_sys_id", PInt 3)]) PNone demo_state)
  = Returned (asset_response "404" (PInt 200) (PDict [("error", PStr "syntax error")]))
  /\ exists code rest,
       asset_response "404" (PInt 200) (PDict [("error", PStr "syntax error")])
       = PDict (("statusCode", PStr code) :: rest)
       /\ (code = "200" \/ code = "404").
Proof.
  split; [reflexivity|].
  exact (lambda_handler_returns_a_status demo_display demo_insert_event
           (retX (connector_database catalog_env))
           (request "/dataasset/read" [("src_sys_id", PInt 3)]) PNone demo_state
           _ eq_refl).
Defined.
